(** * TCPSimulator: a discrete-event model of the TCP simulator

    A shallow embedding of [ProblemSet5/TCPSimulator.py].  The Python
    program is single threaded: an event loop takes the earliest event
    off a priority queue and dispatches it; a dispatch mutates the
    client, the server and the queue, reads a line from the console,
    prints, or raises.  Here every method is a computation in a small
    state-and-exception monad over the record [World], which holds all
    the objects the program shares.

    Conventions.
    - Python integers are [Z]; [bytes] and [bytearray] are [list byte];
      a [str] is a Rocq [string] whose characters are the bytes of its
      UTF-8 encoding, so [encode] and [decode] only change the
      container; decoding bytes that are not well-formed UTF-8 raises.
    - An instance attribute that is assigned outside [__init__] has type
      [option]: reading it while it is [None] raises [AttributeError].
    - [random.randint(0,1)] reads the next bit of an oracle [coin]; the
      world counts the draws made so far.
    - [EVENT_TRACE] is [False] in the source, so the trace line of the
      event loop is never printed and is left out. *)

From Stdlib Require Import ZArith QArith List String Bool Lia Sorted.
From Stdlib.Strings Require Import Byte.
Import ListNotations.
Local Open Scope Z_scope.

(** ** Python values *)

Definition py_len {A : Type} (l : list A) : Z := Z.of_nat (List.length l).

(** Normalisation of one bound of a slice [l[i:j]] against [len(l)]:
    a negative bound counts from the end, and every bound is clamped
    to [0 .. len]. *)
Definition slice_bound (len i : Z) : Z :=
  if i <? 0 then Z.max 0 (i + len) else Z.min i len.

(** [l[i:j]] with step 1. *)
Definition py_slice {A : Type} (l : list A) (i j : Z) : list A :=
  let lo := slice_bound (py_len l) i in
  let hi := slice_bound (py_len l) j in
  firstn (Z.to_nat (hi - lo)) (skipn (Z.to_nat lo) l).

(** [msg.encode("UTF-8")] and the text of [b.decode("UTF-8")]. *)
Definition encode (s : string) : list byte := list_byte_of_string s.
Definition decode (b : list byte) : string := string_of_list_byte b.

(** A continuation byte, 80 to BF. *)
Definition utf8_cont (b : byte) : bool :=
  ((128 <=? Byte.to_N b) && (Byte.to_N b <=? 191))%N.

(** The byte sequences the UTF-8 decoder accepts: the well-formed
    sequences of the Unicode standard, which leave out overlong forms,
    surrogates and code points above 10FFFF.  [b.decode("UTF-8")]
    raises [UnicodeDecodeError] on every other sequence. *)
Fixpoint utf8_valid (b : list byte) : bool :=
  match b with
  | [] => true
  | b0 :: r0 =>
      let n0 := Byte.to_N b0 in
      if (n0 <=? 127)%N then utf8_valid r0
      else if ((194 <=? n0) && (n0 <=? 223))%N then
        match r0 with
        | b1 :: r1 => utf8_cont b1 && utf8_valid r1
        | _ => false
        end
      else if ((224 <=? n0) && (n0 <=? 239))%N then
        match r0 with
        | b1 :: b2 :: r2 =>
            let n1 := Byte.to_N b1 in
            ((if (n0 =? 224) then 160 else 128) <=? n1)%N &&
            (n1 <=? (if (n0 =? 237) then 159 else 191))%N &&
            utf8_cont b2 && utf8_valid r2
        | _ => false
        end
      else if ((240 <=? n0) && (n0 <=? 244))%N then
        match r0 with
        | b1 :: b2 :: b3 :: r3 =>
            let n1 := Byte.to_N b1 in
            ((if (n0 =? 240) then 144 else 128) <=? n1)%N &&
            (n1 <=? (if (n0 =? 244) then 143 else 191))%N &&
            utf8_cont b2 && utf8_cont b3 && utf8_valid r3
        | _ => false
        end
      else false
  end.

(** Truth value of an integer in a condition. *)
Definition truthy (n : Z) : bool := negb (n =? 0).

(** The exceptions the program can raise.  [EmptyQueue] is the failure
    of the queue when an entry is asked of an empty queue. *)
Inductive PyError : Type :=
| AttributeError (cls attr : string)
| EOFError
| UnicodeDecodeError
| EmptyQueue.

(** ** Constants *)

Definition MAX_PACKET_DATA : Z := 4.
Definition TRANSMISSION_DELAY : Z := 5.
Definition ROUND_TRIP_TIME : Z := 2 * TRANSMISSION_DELAY.
Definition TIMEOUT : Z := 2 * ROUND_TRIP_TIME.

(** The value the source gives to [LOST_PACKET_PROBABILITY], 0.25.  The
    methods below take the constant as a parameter so that the runs
    with probability 0 and 1 can be stated. *)
Definition LOST_PACKET_PROBABILITY_default : Q := (1 # 4)%Q.

(** ** Packets *)

(** Modelled from the spec: class [TCPPacket] of module [packet], which
    the simulator imports and which is not among the sources.  The spec
    describes a packet as a record of a sequence number, an
    acknowledgment number, the flags ACK, FIN and SYN, an advertised
    window and the payload bytes. *)
Record TCPPacket : Type := mkTCPPacket {
  p_seq : Z;
  p_ack : Z;
  p_ACK : bool;
  p_FIN : bool;
  p_SYN : bool;
  p_window : Z;
  p_data : list byte
}.

(** Modelled from the spec: the constructor call
    [TCPPacket(seq=.., ack=.., ACK=.., data=..)].  The arguments the
    simulator never passes (FIN, SYN, window) start out clear, and a
    call without [data] carries the empty payload. *)
Definition new_TCPPacket (seq ack : Z) (ACK : bool) (data : list byte)
  : TCPPacket :=
  {| p_seq := seq; p_ack := ack; p_ACK := ACK; p_FIN := false;
     p_SYN := false; p_window := 0; p_data := data |}.

(** The assignment [p.FIN = True]. *)
Definition set_FIN (p : TCPPacket) : TCPPacket :=
  {| p_seq := p_seq p; p_ack := p_ack p; p_ACK := p_ACK p; p_FIN := true;
     p_SYN := p_SYN p; p_window := p_window p; p_data := p_data p |}.

Definition TCPPacket_eq_dec (p q : TCPPacket) : {p = q} + {p <> q}.
Proof.
  decide equality;
    solve [ apply (list_eq_dec byte_eq_dec) | apply Z.eq_dec | apply bool_dec ].
Defined.

(** ** The dictionary [acknowledged]

    The client keeps a dictionary whose keys are packets.  It is an
    association list in insertion order; two keys are the same key when
    the packets are equal as records. *)
Definition dict : Type := list (TCPPacket * bool).

Fixpoint dict_get (d : dict) (k : TCPPacket) : option bool :=
  match d with
  | [] => None
  | (k', v) :: d' => if TCPPacket_eq_dec k k' then Some v else dict_get d' k
  end.

(** [d[k] = v]. *)
Fixpoint dict_set (d : dict) (k : TCPPacket) (v : bool) : dict :=
  match d with
  | [] => [(k, v)]
  | (k', v') :: d' =>
      if TCPPacket_eq_dec k k' then (k', v) :: d'
      else (k', v') :: dict_set d' k v
  end.

(** ** Events *)

(** The object an event refers to as its handler. *)
Inductive Handler : Type := Client | Server.

(** What the field [packet] of a [TimeoutEvent] holds: the client
    object, which is what [queueTimeoutMessage] stores there, or a
    packet, which is what the field is named after. *)
Inductive TimeoutSubject : Type :=
| OfClient
| OfPacket (p : TCPPacket).

(** The three subclasses of [TCPEvent].  A [RequestMessageEvent] always
    refers to the one client. *)
Inductive TCPEvent : Type :=
| RequestMessageEvent
| ReceivePacketEvent (handler : Handler) (packet : TCPPacket)
| TimeoutEvent (packet : TimeoutSubject).

(** ** The priority queue *)

(** Modelled from the spec: class [PriorityQueue] of module [pqueue],
    which the simulator imports and which is not among the sources.
    The spec describes a time-ordered queue of (event, time) pairs with
    [enqueue], extraction of the earliest entry and [isEmpty], where
    entries of equal time leave in the order they were inserted.  The
    queue is the list of its entries in the order they will leave. *)
Definition PriorityQueue : Type := list (TCPEvent * Z).

(** Modelled from the spec: [enqueue(event, time)] of [PriorityQueue];
    the new entry goes behind every entry that is not later than it. *)
Fixpoint enqueue (q : PriorityQueue) (e : TCPEvent) (t : Z) : PriorityQueue :=
  match q with
  | [] => [(e, t)]
  | (e', t') :: q' =>
      if t <? t' then (e, t) :: q else (e', t') :: enqueue q' e t
  end.

(** Modelled from the spec: [dequeueWithPriority()] of [PriorityQueue],
    which removes and returns the earliest entry; [None] stands for its
    failure on the empty queue. *)
Definition dequeueWithPriority (q : PriorityQueue)
  : option (TCPEvent * Z * PriorityQueue) :=
  match q with
  | [] => None
  | (e, t) :: q' => Some (e, t, q')
  end.

(** Modelled from the spec: [isEmpty()] of [PriorityQueue]. *)
Definition isEmpty (q : PriorityQueue) : bool :=
  match q with [] => true | _ :: _ => false end.

(** ** Objects *)

(** The attributes of the [TCPClient] object.  [__init__] creates
    [acknowledged] only; [msgBytes], [seq] and [ack] appear when the
    first message is requested.  The attribute [server] is set once by
    the driver and always refers to the one server. *)
Record TCPClient : Type := mkTCPClient {
  acknowledged : dict;
  c_msgBytes : option (list byte);
  c_seq : option Z;
  c_ack : option Z
}.

(** The attributes of the [TCPServer] object.  [__init__] calls
    [resetForNextMessage], which creates [msgBytes] and [ack]; [seq]
    appears with the first packet received. *)
Record TCPServer : Type := mkTCPServer {
  s_msgBytes : list byte;
  s_seq : option Z;
  s_ack : Z
}.

(** A line on the console. *)
Inductive Output : Type :=
| Prompt                          (* "Enter a message: " *)
| ClientSends (msg : string)      (* Client sends "msg" *)
| ServerReceives (msg : string).  (* Server receives "msg" *)

(** Everything a dispatch can read or change. *)
Record World : Type := mkWorld {
  client : TCPClient;
  server : TCPServer;
  eventQueue : PriorityQueue;
  stdin : list string;       (* the lines not read yet *)
  stdout : list Output;      (* what was printed, oldest first *)
  rand_calls : nat           (* draws made so far *)
}.

Definition with_client (c : TCPClient) (w : World) : World :=
  mkWorld c (server w) (eventQueue w) (stdin w) (stdout w) (rand_calls w).

Definition with_server (s : TCPServer) (w : World) : World :=
  mkWorld (client w) s (eventQueue w) (stdin w) (stdout w) (rand_calls w).

Definition with_eventQueue (q : PriorityQueue) (w : World) : World :=
  mkWorld (client w) (server w) q (stdin w) (stdout w) (rand_calls w).

(** ** The monad of methods *)

(** A call returns a value or raises; either way it leaves a world. *)
Inductive result (A : Type) : Type :=
| Ok (a : A) (w : World)
| Raise (e : PyError) (w : World).
Arguments Ok {A} a w.
Arguments Raise {A} e w.

Definition M (A : Type) : Type := World -> result A.

Definition ret {A : Type} (a : A) : M A := fun w => Ok a w.

Definition bind {A B : Type} (m : M A) (k : A -> M B) : M B :=
  fun w => match m w with
           | Ok a w' => k a w'
           | Raise e w' => Raise e w'
           end.

Definition raise {A : Type} (e : PyError) : M A := fun w => Raise e w.

Definition gets {A : Type} (f : World -> A) : M A := fun w => Ok (f w) w.

Definition modify (f : World -> World) : M unit := fun w => Ok tt (f w).

Notation "x <- m ;; k" := (bind m (fun x => k))
  (at level 61, m at next level, right associativity).
Notation "m ;; k" := (bind m (fun _ => k))
  (at level 61, right associativity).

(** The world a call leaves behind. *)
Definition final_world {A : Type} (r : result A) : World :=
  match r with Ok _ w => w | Raise _ w => w end.

(** Reading an attribute that may not exist yet. *)
Definition getattr {A : Type} (cls attr : string) (f : World -> option A) : M A :=
  fun w => match f w with
           | Some a => Ok a w
           | None => Raise (AttributeError cls attr) w
           end.

(** [print(..)]. *)
Definition print (o : Output) : M unit :=
  modify (fun w => mkWorld (client w) (server w) (eventQueue w) (stdin w)
                           (stdout w ++ [o]) (rand_calls w)).

(** [input("Enter a message: ")]: the prompt is written, then a line is
    read; at the end of the input the call raises [EOFError]. *)
Definition input : M string :=
  print Prompt ;;
  fun w => match stdin w with
           | [] => Raise EOFError w
           | l :: ls => Ok l (mkWorld (client w) (server w) (eventQueue w) ls
                                      (stdout w) (rand_calls w))
           end.

(** [b.decode("UTF-8")]. *)
Definition bytes_decode (b : list byte) : M string :=
  if utf8_valid b then ret (decode b) else raise UnicodeDecodeError.

(** [e,t = eventQueue.dequeueWithPriority()]. *)
Definition dequeue_event : M (TCPEvent * Z) :=
  fun w => match dequeueWithPriority (eventQueue w) with
           | Some (e, t, q) => Ok (e, t) (with_eventQueue q w)
           | None => Raise EmptyQueue w
           end.

(** [eventQueue.enqueue(e, t)]. *)
Definition enqueue_event (e : TCPEvent) (t : Z) : M unit :=
  modify (fun w => with_eventQueue (enqueue (eventQueue w) e t) w).

(** ** The simulator *)

Section Simulator.

(** The constant [LOST_PACKET_PROBABILITY] and the random source. *)
Variable LOST_PACKET_PROBABILITY : Q.
Variable coin : nat -> bool.

(** [random.randint(0,1)]. *)
Definition randint01 : M Z :=
  fun w => Ok (Z.b2z (coin (rand_calls w)))
              (mkWorld (client w) (server w) (eventQueue w) (stdin w)
                       (stdout w) (S (rand_calls w))).

(** The test [random.randint(0,1) >= LOST_PACKET_PROBABILITY] on the
    value [r] drawn. *)
Definition delivered (r : Z) : bool :=
  Qle_bool LOST_PACKET_PROBABILITY (inject_Z r).

(** *** TCPClient *)

Definition TCPClient_init : TCPClient :=
  {| acknowledged := []; c_msgBytes := None; c_seq := None; c_ack := None |}.

Definition TCPClient_queueRequestMessage (t : Z) : M unit :=
  enqueue_event RequestMessageEvent t.

Definition TCPClient_queueTimeoutMessage (t : Z) : M unit :=
  enqueue_event (TimeoutEvent OfClient) t.

(** The packet [sendNextPacket] builds from the attributes it reads:
    at most [MAX_PACKET_DATA] bytes from [seq] on, with FIN when they
    reach the end of the message. *)
Definition next_packet (msgBytes : list byte) (seq ack : Z) : TCPPacket :=
  let nBytes := Z.min MAX_PACKET_DATA (py_len msgBytes - seq) in
  let data := py_slice msgBytes seq (seq + nBytes) in
  let p := new_TCPPacket seq ack true data in
  if seq + nBytes =? py_len msgBytes then set_FIN p else p.

Definition TCPClient_sendNextPacket (t : Z) : M unit :=
  msgBytes <- getattr "TCPClient" "msgBytes" (fun w => c_msgBytes (client w)) ;;
  seq <- getattr "TCPClient" "seq" (fun w => c_seq (client w)) ;;
  ack <- getattr "TCPClient" "ack" (fun w => c_ack (client w)) ;;
  let p := next_packet msgBytes seq ack in
  r <- randint01 ;;
  if delivered r then
    enqueue_event (ReceivePacketEvent Server p) (t + TRANSMISSION_DELAY) ;;
    if p_FIN p then TCPClient_queueRequestMessage (t + TIMEOUT) else ret tt
  else ret tt.

Definition TCPClient_requestMessage (t : Z) : M unit :=
  msg <- input ;;
  if negb (Nat.eqb (String.length msg) 0) then
    print (ClientSends msg) ;;
    modify (fun w =>
      with_client {| acknowledged := acknowledged (client w);
                     c_msgBytes := Some (encode msg);
                     c_seq := Some 0;
                     c_ack := Some 0 |} w) ;;
    TCPClient_sendNextPacket t
  else ret tt.

Definition TCPClient_receivePacket (p : TCPPacket) (t : Z) : M unit :=
  modify (fun w =>
    with_client {| acknowledged := dict_set (acknowledged (client w)) p true;
                   c_msgBytes := c_msgBytes (client w);
                   c_seq := Some (p_ack p);
                   c_ack := Some (p_seq p + 1) |} w) ;;
  seq <- getattr "TCPClient" "seq" (fun w => c_seq (client w)) ;;
  msgBytes <- getattr "TCPClient" "msgBytes" (fun w => c_msgBytes (client w)) ;;
  if seq <? py_len msgBytes then TCPClient_sendNextPacket t else ret tt.

(** *** TCPServer *)

Definition TCPServer_resetForNextMessage : M unit :=
  modify (fun w =>
    with_server {| s_msgBytes := []; s_seq := s_seq (server w); s_ack := 0 |} w).

Definition TCPServer_init : TCPServer :=
  {| s_msgBytes := []; s_seq := None; s_ack := 0 |}.

Definition TCPServer_receivePacket (p : TCPPacket) (t : Z) : M unit :=
  modify (fun w =>
    with_server {| s_msgBytes := s_msgBytes (server w) ++ p_data p;
                   s_seq := Some (p_ack p);
                   s_ack := p_seq p + py_len (p_data p) |} w) ;;
  seq <- getattr "TCPServer" "seq" (fun w => s_seq (server w)) ;;
  ack <- gets (fun w => s_ack (server w)) ;;
  let reply := new_TCPPacket seq ack true [] in
  reply <- (if p_FIN p then
              msgBytes <- gets (fun w => s_msgBytes (server w)) ;;
              text <- bytes_decode msgBytes ;;
              print (ServerReceives text) ;;
              TCPServer_resetForNextMessage ;;
              ret (set_FIN reply)
            else ret reply) ;;
  enqueue_event (ReceivePacketEvent Client reply) (t + TRANSMISSION_DELAY).

(** *** Events *)

(** [self.packet.ack] in [TimeoutEvent.dispatch]. *)
Definition subject_ack (s : TimeoutSubject) : M Z :=
  match s with
  | OfClient => getattr "TCPClient" "ack" (fun w => c_ack (client w))
  | OfPacket p => ret (p_ack p)
  end.

(** [e.dispatch(eventQueue, t)].  A [TimeoutEvent] has no attribute
    [server], so the [else] branch of its dispatch raises before it
    can look up the method. *)
Definition dispatch (e : TCPEvent) (t : Z) : M unit :=
  match e with
  | RequestMessageEvent => TCPClient_requestMessage t
  | ReceivePacketEvent Client p => TCPClient_receivePacket p t
  | ReceivePacketEvent Server p => TCPServer_receivePacket p t
  | TimeoutEvent s =>
      a <- subject_ack s ;;
      if truthy a then ret tt
      else raise (AttributeError "TimeoutEvent" "server")
  end.

(** *** The driver *)

(** How a run of the event loop ends. *)
Inductive Outcome : Type :=
| Finished (w : World)               (* the queue ran empty *)
| Crashed (e : PyError) (w : World)  (* a dispatch raised *)
| OutOfFuel (w : World).             (* more events than [fuel] *)

(** One turn of the [while] loop of [TCPSimulator]: the earliest event
    leaves the queue and is dispatched. *)
Definition loop_body : M unit :=
  x <- dequeue_event ;;
  dispatch (fst x) (snd x).

(** The [while] loop of [TCPSimulator], for at most [fuel] events. *)
Fixpoint event_loop (fuel : nat) (w : World) : Outcome :=
  if isEmpty (eventQueue w) then Finished w
  else
    match fuel with
    | O => OutOfFuel w
    | S fuel' =>
        match loop_body w with
        | Ok _ w' => event_loop fuel' w'
        | Raise err w' => Crashed err w'
        end
    end.

(** The world when the loop is entered: fresh objects, and the two
    events the driver enqueues. *)
Definition initial_world (lines : list string) : World :=
  final_world
    ((TCPClient_queueRequestMessage 0 ;;
      TCPClient_queueTimeoutMessage TIMEOUT)
       {| client := TCPClient_init; server := TCPServer_init;
          eventQueue := []; stdin := lines; stdout := []; rand_calls := O |}).

Definition TCPSimulator (fuel : nat) (lines : list string) : Outcome :=
  event_loop fuel (initial_world lines).

End Simulator.

(** ** Observations used in the statements *)

(** Did the call return, rather than raise? *)
Definition returns {A : Type} (r : result A) : bool :=
  match r with Ok _ _ => true | Raise _ _ => false end.

(** The world in which a run of the event loop stops. *)
Definition outcome_world (o : Outcome) : World :=
  match o with Finished w => w | Crashed _ w => w | OutOfFuel w => w end.

(** The number of [ReceivePacketEvent]s, that is of packets in transit,
    and the number of [TimeoutEvent]s in a queue. *)
Definition is_ReceivePacketEvent (x : TCPEvent * Z) : bool :=
  match fst x with ReceivePacketEvent _ _ => true | _ => false end.

Definition is_TimeoutEvent (x : TCPEvent * Z) : bool :=
  match fst x with TimeoutEvent _ => true | _ => false end.

Definition packets_in_transit (q : PriorityQueue) : nat :=
  List.length (filter is_ReceivePacketEvent q).

Definition timeouts_pending (q : PriorityQueue) : nat :=
  List.length (filter is_TimeoutEvent q).

(** The payload bytes that are on their way to the server: bytes the
    client has sent and for which it cannot have seen an acknowledgment. *)
Definition data_bytes (x : TCPEvent * Z) : Z :=
  match fst x with
  | ReceivePacketEvent Server p => py_len (p_data p)
  | _ => 0
  end.

Definition outstanding_bytes (q : PriorityQueue) : Z :=
  fold_right (fun x n => data_bytes x + n) 0 q.

(** The queue [sendNextPacket] leaves when it has built the packet [p]
    at time [t] and drawn [r]. *)
Definition queue_after_send (LOST_PACKET_PROBABILITY : Q) (r : Z)
    (p : TCPPacket) (t : Z) (q : PriorityQueue) : PriorityQueue :=
  if delivered LOST_PACKET_PROBABILITY r then
    let q1 := enqueue q (ReceivePacketEvent Server p) (t + TRANSMISSION_DELAY) in
    if p_FIN p then enqueue q1 RequestMessageEvent (t + TIMEOUT) else q1
  else q.

(** A packet with another value in its window field. *)
Definition set_window (p : TCPPacket) (window : Z) : TCPPacket :=
  {| p_seq := p_seq p; p_ack := p_ack p; p_ACK := p_ACK p; p_FIN := p_FIN p;
     p_SYN := p_SYN p; p_window := window; p_data := p_data p |}.

(** The world after the server has received the packets [ps] one after
    the other, the first at time [t] and each next one a time unit later. *)
Fixpoint deliver_all (ps : list TCPPacket) (t : Z) (w : World) : World :=
  match ps with
  | [] => w
  | p :: ps' => deliver_all ps' (t + 1) (final_world (TCPServer_receivePacket p t w))
  end.

(** *** Sentences of the specification, as they stand

    Each definition below writes one sentence of the specification down
    as it stands, for one call; the theorems further on decide whether
    the methods above satisfy it. *)

(** "Out-of-order or duplicate packets are acknowledged with the
    previously established ack value, not advanced": the buffer and the
    next expected sequence number stay as they are, and the reply that
    joins the queue carries the old ack. *)
Definition spec_server_in_order_only (p : TCPPacket) (t : Z) (w : World) : Prop :=
  let w' := final_world (TCPServer_receivePacket p t w) in
  p_seq p <> s_ack (server w) ->
  s_msgBytes (server w') = s_msgBytes (server w) /\
  s_ack (server w') = s_ack (server w) /\
  exists reply,
    eventQueue w' =
      enqueue (eventQueue w) (ReceivePacketEvent Client reply)
              (t + TRANSMISSION_DELAY) /\
    p_ack reply = s_ack (server w).

(** "Redelivering an already-acknowledged packet to the server does not
    corrupt the reassembly buffer or regress next-expected-seq": after
    the packets [ps] were delivered, delivering one of them again keeps
    the buffer and does not lower the next expected sequence number. *)
Definition spec_server_idempotent (ps : list TCPPacket) (p : TCPPacket)
    (t : Z) (w : World) : Prop :=
  let w1 := deliver_all ps t w in
  let w2 := final_world (TCPServer_receivePacket p (t + py_len ps) w1) in
  In p ps ->
  s_msgBytes (server w2) = s_msgBytes (server w1) /\
  s_ack (server w1) <= s_ack (server w2).

(** "Mark every in-flight packet with seq < ackPacket.ack as
    acknowledged; update seq = ackPacket.ack; update ack =
    ackPacket.seq + 1": [inflight] are the data packets the client has
    sent. *)
Definition spec_cumulative_ack (LOST_PACKET_PROBABILITY : Q) (coin : nat -> bool)
    (inflight : list TCPPacket) (p : TCPPacket) (t : Z) (w : World) : Prop :=
  let w' := final_world (TCPClient_receivePacket LOST_PACKET_PROBABILITY coin p t w) in
  (forall d, In d inflight -> p_seq d < p_ack p ->
             dict_get (acknowledged (client w')) d = Some true) /\
  c_seq (client w') = Some (p_ack p) /\
  c_ack (client w') = Some (p_seq p + 1).

(** "With LOST_PACKET_PROBABILITY set to 1 no transmission is
    delivered": dispatching the event [e] puts no further packet on its
    way, whatever is drawn. *)
Definition spec_total_loss (coin : nat -> bool) (e : TCPEvent) (t : Z)
    (w : World) : Prop :=
  (packets_in_transit (eventQueue (final_world (dispatch 1%Q coin e t w)))
   <= packets_in_transit (eventQueue w))%nat.

(** *** The course of a transfer without loss

    The predicates below describe the worlds a run passes through while
    it carries one message [msg] from the client to the server, packet
    by packet.  [k] counts the packets that were sent before, and [tm]
    tells whether the [TimeoutEvent] of the driver is still waiting. *)

(** The entry of the [TimeoutEvent] the driver enqueues. *)
Definition timeout_entry : TCPEvent * Z := (TimeoutEvent OfClient, TIMEOUT).

(** A queue to which the driver's [TimeoutEvent] was added before any
    of its entries that are due at [TIMEOUT] or later. *)
Fixpoint add_timeout (q : PriorityQueue) : PriorityQueue :=
  match q with
  | [] => [timeout_entry]
  | (e, t) :: q' =>
      if t <? TIMEOUT then (e, t) :: add_timeout q' else timeout_entry :: q
  end.

Definition queue_of (tm : bool) (q : PriorityQueue) : PriorityQueue :=
  if tm then add_timeout q else q.

(** Packet number [k] of a message of [n] bytes is the last one. *)
Definition last_packet (n k : Z) : bool := n - 4 * k <=? 4.

(** The [RequestMessageEvent] that follows the last packet. *)
Definition followup (n k : Z) : PriorityQueue :=
  if last_packet n k then [(RequestMessageEvent, 10 * k + 20)] else [].

(** Packet [k] is on its way to the server. *)
Definition data_in_transit (msg : string) (tm : bool) (k : Z) (w : World) : Prop :=
  0 <= k /\ 4 * k < py_len (encode msg) /\
  c_msgBytes (client w) = Some (encode msg) /\
  c_seq (client w) = Some (4 * k) /\
  c_ack (client w) = Some k /\
  s_msgBytes (server w) = py_slice (encode msg) 0 (4 * k) /\
  stdin w = [""%string] /\
  stdout w = [Prompt; ClientSends msg] /\
  eventQueue w =
    queue_of tm
      ((ReceivePacketEvent Server (next_packet (encode msg) (4 * k) k), 10 * k + 5)
         :: followup (py_len (encode msg)) k).

(** The acknowledgment of packet [k] is on its way to the client. *)
Definition ack_in_transit (msg : string) (tm : bool) (k : Z) (w : World) : Prop :=
  0 <= k /\ 4 * k < py_len (encode msg) /\
  c_msgBytes (client w) = Some (encode msg) /\
  c_ack (client w) = Some k /\
  stdin w = [""%string] /\
  (if last_packet (py_len (encode msg)) k
   then stdout w = [Prompt; ClientSends msg; ServerReceives msg]
   else stdout w = [Prompt; ClientSends msg] /\
        s_msgBytes (server w) = py_slice (encode msg) 0 (4 * (k + 1))) /\
  exists r,
    p_seq r = k /\
    p_ack r = Z.min (4 * k + 4) (py_len (encode msg)) /\
    eventQueue w =
      queue_of tm ((ReceivePacketEvent Client r, 10 * k + 10)
                     :: followup (py_len (encode msg)) k).

(** The whole message is acknowledged; the next request is waiting. *)
Definition awaiting_request (msg : string) (tm : bool) (w : World) : Prop :=
  (exists a, c_ack (client w) = Some a /\ a <> 0) /\
  stdin w = [""%string] /\
  stdout w = [Prompt; ClientSends msg; ServerReceives msg] /\
  exists t, TIMEOUT <= t /\ eventQueue w = queue_of tm [(RequestMessageEvent, t)].

(** The event loop takes one event off the queue of [w], and its
    dispatch returns with the world [w']. *)
Definition one_event (LOST_PACKET_PROBABILITY : Q) (coin : nat -> bool)
    (w w' : World) : Prop :=
  exists e t q,
    eventQueue w = (e, t) :: q /\
    dispatch LOST_PACKET_PROBABILITY coin e t (with_eventQueue q w) = Ok tt w'.

(** The event loop, started in [w], runs until the queue is empty and
    has printed [out] by then. *)
Definition finishes_with (LOST_PACKET_PROBABILITY : Q) (coin : nat -> bool)
    (w : World) (out : list Output) : Prop :=
  exists fuel w',
    event_loop LOST_PACKET_PROBABILITY coin fuel w = Finished w' /\
    stdout w' = out.

(** *** Worlds and packets for the examples *)

(** Random sources that always draw 1, and always draw 0. *)
Definition always_one : nat -> bool := fun _ => true.
Definition always_zero : nat -> bool := fun _ => false.

(** A random source whose first draw is 1 and whose later draws are 0. *)
Definition one_then_zero : nat -> bool := fun n => Nat.eqb n 0.

Definition ex_HELL : list byte := ["H"; "E"; "L"; "L"]%byte.
Definition ex_OWOR : list byte := ["O"; "W"; "O"; "R"]%byte.

(** A server that has taken the first four bytes of a message. *)
Definition ex_server_world : World :=
  {| client := TCPClient_init;
     server := {| s_msgBytes := ex_HELL; s_seq := Some 0; s_ack := 4 |};
     eventQueue := []; stdin := []; stdout := []; rand_calls := O |}.

(** A packet that arrives ahead of its turn: bytes 8 and 9 while byte 4
    is expected. *)
Definition ex_early_packet : TCPPacket :=
  new_TCPPacket 8 2 true ["L"; "D"]%byte.

(** The two packets of a message of eight bytes. *)
Definition ex_packet0 : TCPPacket := new_TCPPacket 0 0 true ex_HELL.
Definition ex_packet1 : TCPPacket := new_TCPPacket 4 1 true ex_OWOR.

Definition ex_fresh_world : World :=
  {| client := TCPClient_init; server := TCPServer_init;
     eventQueue := []; stdin := []; stdout := []; rand_calls := O |}.

Definition ex_message : list byte := ex_HELL ++ ex_OWOR.

(** A client that has sent the first four of eight bytes; nothing is in
    the queue, because the packet has reached the server and the
    acknowledgment is about to be handed to the client. *)
Definition ex_client_world : World :=
  {| client := {| acknowledged := []; c_msgBytes := Some ex_message;
                  c_seq := Some 0; c_ack := Some 0 |};
     server := {| s_msgBytes := ex_HELL; s_seq := Some 0; s_ack := 4 |};
     eventQueue := []; stdin := []; stdout := []; rand_calls := 1%nat |}.

(** The acknowledgment the server sends for [ex_packet0]; it advertises
    a window of 0. *)
Definition ex_ack0 : TCPPacket :=
  {| p_seq := 0; p_ack := 4; p_ACK := true; p_FIN := false; p_SYN := false;
     p_window := 0; p_data := [] |}.

(** *** Worlds of a run

    The simulator with the probability of the source and a random
    source that always draws 1 reads the message HELLOWOR.  After one
    event the first data packet is on its way; after two events the
    server has answered it. *)
Definition ex_run_one_event : World :=
  outcome_world
    (TCPSimulator LOST_PACKET_PROBABILITY_default always_one 1
                  ["HELLOWOR"%string; ""%string]).

Definition ex_run_two_events : World :=
  outcome_world
    (TCPSimulator LOST_PACKET_PROBABILITY_default always_one 2
                  ["HELLOWOR"%string; ""%string]).

(** *** Observations on whole runs *)

(** The queue after the events [evs] were enqueued one after the other. *)
Definition enqueue_all (q : PriorityQueue) (evs : list (TCPEvent * Z))
  : PriorityQueue :=
  fold_left (fun q x => enqueue q (fst x) (snd x)) evs q.

(** The events the loop dispatches, with their times, in the order of
    their dispatch: the lines the loop prints when [EVENT_TRACE] is on. *)
Fixpoint event_trace (LOST_PACKET_PROBABILITY : Q) (coin : nat -> bool)
    (fuel : nat) (w : World) : list (TCPEvent * Z) :=
  match fuel with
  | O => []
  | S fuel' =>
      match dequeue_event w with
      | Ok x w1 =>
          x :: match dispatch LOST_PACKET_PROBABILITY coin (fst x) (snd x) w1 with
               | Ok _ w' => event_trace LOST_PACKET_PROBABILITY coin fuel' w'
               | Raise _ _ => []
               end
      | Raise _ _ => []
      end
  end.

(** The entries of a queue are in the order of their times. *)
Definition queue_sorted (q : PriorityQueue) : Prop :=
  StronglySorted (fun x y => snd x <= snd y) q.

Definition is_RequestMessageEvent (x : TCPEvent * Z) : bool :=
  match fst x with RequestMessageEvent => true | _ => false end.

Definition requests_pending (q : PriorityQueue) : nat :=
  List.length (filter is_RequestMessageEvent q).

(** The message of the client ends at or before offset [n]. *)
Definition message_ends_by (c : TCPClient) (n : Z) : Prop :=
  exists m, c_msgBytes c = Some m /\ py_len m <= n.

(** What holds of a packet in the queue [q] of a run: a data packet
    starts at an offset that is not negative and carries at most
    [MAX_PACKET_DATA] bytes; a request for the next message waits in the
    queue only behind a packet that ends the message, and is due late
    enough for the acknowledgment of that packet to come in first. *)
Definition entry_ok (c : TCPClient) (q : PriorityQueue) (x : TCPEvent * Z)
  : Prop :=
  match x with
  | (ReceivePacketEvent Server p, t) =>
      0 <= p_seq p /\ py_len (p_data p) <= MAX_PACKET_DATA /\
      forall t', In (RequestMessageEvent, t') q ->
                 t + 15 <= t' /\ message_ends_by c (p_seq p + py_len (p_data p))
  | (ReceivePacketEvent Client r, t) =>
      0 <= p_ack r /\
      forall t', In (RequestMessageEvent, t') q ->
                 t + 10 <= t' /\ message_ends_by c (p_ack r)
  | _ => True
  end.

(** The invariant of the event loop, on the client and the queue: the
    client sends one packet and waits. *)
Definition stop_and_wait_on (c : TCPClient) (q : PriorityQueue) : Prop :=
  queue_sorted q /\
  (packets_in_transit q <= 1)%nat /\
  (requests_pending q <= 1)%nat /\
  Forall (entry_ok c q) q.

Definition stop_and_wait (w : World) : Prop :=
  stop_and_wait_on (client w) (eventQueue w).

(** The events a dispatch at time [t] can add to the queue: a packet
    due one transmission delay later, which may be followed by a
    request due one timeout later. *)
Definition scheduled_at (t : Z) (evs : list (TCPEvent * Z)) : Prop :=
  evs = [] \/
  (exists h p, evs = [(ReceivePacketEvent h p, t + TRANSMISSION_DELAY)]) \/
  (exists p, evs = [(ReceivePacketEvent Server p, t + TRANSMISSION_DELAY);
                    (RequestMessageEvent, t + TIMEOUT)]).

(** *** A measure of the work a run has left *)

(** The bytes of the client's message from offset [n] on. *)
Definition remaining (c : TCPClient) (n : Z) : Z :=
  match c_msgBytes c with
  | Some m => Z.max 0 (py_len m - n)
  | None => 0
  end.

(** An upper bound of the events an entry of the queue can still lead
    to: three for every byte that is not acknowledged yet, and a few
    for the entry itself. *)
Definition entry_cost (c : TCPClient) (x : TCPEvent * Z) : Z :=
  match fst x with
  | RequestMessageEvent => 1
  | TimeoutEvent _ => 1
  | ReceivePacketEvent Server p => 3 * remaining c (p_seq p) + 1
  | ReceivePacketEvent Client r => 3 * remaining c (p_ack r) + 3
  end.

Definition queue_cost (c : TCPClient) (q : PriorityQueue) : Z :=
  fold_right (fun x n => entry_cost c x + n) 0 q.

(** The same for a line of input that was not read yet. *)
Definition line_cost (l : string) : Z := 3 * Z.of_nat (String.length l) + 2.

Definition lines_cost (lines : list string) : Z :=
  fold_right (fun l n => line_cost l + n) 0 lines.

Definition run_cost (w : World) : Z :=
  queue_cost (client w) (eventQueue w) + lines_cost (stdin w).

(** The number of events after which a run on the input [lines] has
    stopped at the latest. *)
Definition run_bound (lines : list string) : nat :=
  Z.to_nat (2 + lines_cost lines).

(** A data packet in the queue starts inside the client's message and
    carries at least one byte. *)
Definition packet_inside (c : TCPClient) (x : TCPEvent * Z) : Prop :=
  match x with
  | (ReceivePacketEvent Server p, _) =>
      exists m, c_msgBytes c = Some m /\
                0 <= p_seq p < py_len m /\ 1 <= py_len (p_data p)
  | _ => True
  end.

(** The invariant behind the bound. *)
Definition progressing (w : World) : Prop :=
  stop_and_wait w /\ Forall (packet_inside (client w)) (eventQueue w).

(** The loop has stopped, on an empty queue or on an exception. *)
Definition halted (o : Outcome) : bool :=
  match o with OutOfFuel _ => false | _ => true end.

(** *** The course of a run that carries several messages

    The same phases as above, for a message that is requested at the
    time [T0] in a run that has printed [out] before and has the lines
    [rest] left to read.  The driver's [TimeoutEvent] can only be
    waiting still during the first message, which is requested at
    time 0. *)

Definition followup_at (T0 n k : Z) : PriorityQueue :=
  if last_packet n k then [(RequestMessageEvent, T0 + 10 * k + 20)] else [].

(** Packet [k] of [msg] is on its way to the server. *)
Definition sending (msg : string) (out : list Output) (rest : list string)
    (T0 : Z) (tm : bool) (k : Z) (w : World) : Prop :=
  (tm = true -> T0 = 0) /\
  0 <= k /\ 4 * k < py_len (encode msg) /\
  c_msgBytes (client w) = Some (encode msg) /\
  c_seq (client w) = Some (4 * k) /\
  c_ack (client w) = Some k /\
  s_msgBytes (server w) = py_slice (encode msg) 0 (4 * k) /\
  stdin w = rest /\
  stdout w = out ++ [Prompt; ClientSends msg] /\
  eventQueue w =
    queue_of tm
      ((ReceivePacketEvent Server (next_packet (encode msg) (4 * k) k),
        T0 + 10 * k + 5)
         :: followup_at T0 (py_len (encode msg)) k).

(** The acknowledgment of packet [k] of [msg] is on its way to the
    client. *)
Definition acknowledging (msg : string) (out : list Output)
    (rest : list string) (T0 : Z) (tm : bool) (k : Z) (w : World) : Prop :=
  (tm = true -> T0 = 0) /\
  0 <= k /\ 4 * k < py_len (encode msg) /\
  c_msgBytes (client w) = Some (encode msg) /\
  c_ack (client w) = Some k /\
  stdin w = rest /\
  (if last_packet (py_len (encode msg)) k
   then stdout w = out ++ [Prompt; ClientSends msg; ServerReceives msg] /\
        s_msgBytes (server w) = []
   else stdout w = out ++ [Prompt; ClientSends msg] /\
        s_msgBytes (server w) = py_slice (encode msg) 0 (4 * (k + 1))) /\
  exists r,
    p_seq r = k /\
    p_ack r = Z.min (4 * k + 4) (py_len (encode msg)) /\
    eventQueue w =
      queue_of tm ((ReceivePacketEvent Client r, T0 + 10 * k + 10)
                     :: followup_at T0 (py_len (encode msg)) k).

(** No message is under way; the request for the next one is due at
    time [t]. *)
Definition between_messages (out : list Output) (rest : list string)
    (tm : bool) (t : Z) (w : World) : Prop :=
  (tm = true ->
   t = 0 \/ (TIMEOUT <= t /\ exists a, c_ack (client w) = Some a /\ a <> 0)) /\
  s_msgBytes (server w) = [] /\
  stdin w = rest /\
  stdout w = out /\
  eventQueue w = queue_of tm [(RequestMessageEvent, t)].

(** What a run prints that carries the messages [msgs] one after the
    other and then reads an empty line. *)
Definition transcript (msgs : list string) : list Output :=
  flat_map (fun m => [Prompt; ClientSends m; ServerReceives m]) msgs ++ [Prompt].

(** A line that is a message: a string that is not empty. *)
Definition is_message (m : string) : Prop :=
  m <> ""%string /\ utf8_valid (encode m) = true.

(** *** Events that refer to a packet *)

(** Does the queue entry refer to a packet: is it a
    [ReceivePacketEvent], which carries one, or a [TimeoutEvent] whose
    subject is one? *)
Definition refers_to_packet (x : TCPEvent * Z) : bool :=
  match fst x with
  | ReceivePacketEvent _ _ => true
  | TimeoutEvent (OfPacket _) => true
  | _ => false
  end.

Definition packet_events (q : PriorityQueue) : nat :=
  List.length (filter refers_to_packet q).


(** An entry of the queue that is not a [TimeoutEvent] on a packet. *)
Definition no_packet_timeout (x : TCPEvent * Z) : Prop :=
  refers_to_packet x = is_ReceivePacketEvent x.


(* ################################################################# *)
(** * Properties *)

(** ** Running the monad *)

Ltac run_monad :=
  cbv [bind ret raise gets modify getattr print input enqueue_event
       randint01 with_client with_server with_eventQueue final_world
       TCPClient_queueRequestMessage TCPClient_queueTimeoutMessage
       TCPServer_resetForNextMessage];
  cbn [client server eventQueue stdin stdout rand_calls
       acknowledged c_msgBytes c_seq c_ack s_msgBytes s_seq s_ack].

(** ** The server *)

(** What [TCPServer.receivePacket] does, for every packet and every
    state.  It never looks at the sequence number it expected.  It
    raises in one case only: the packet carries FIN and the buffer with
    the payload added is not well-formed UTF-8; the payload has been
    added by then, and no reply is sent. *)
Lemma TCPServer_receivePacket_eq (p : TCPPacket) (t : Z) (w : World) :
  TCPServer_receivePacket p t w =
  if p_FIN p && negb (utf8_valid (s_msgBytes (server w) ++ p_data p)) then
    Raise UnicodeDecodeError
      (with_server {| s_msgBytes := s_msgBytes (server w) ++ p_data p;
                      s_seq := Some (p_ack p);
                      s_ack := p_seq p + py_len (p_data p) |} w)
  else
    Ok tt
      {| client := client w;
         server :=
           {| s_msgBytes :=
                if p_FIN p then [] else s_msgBytes (server w) ++ p_data p;
              s_seq := Some (p_ack p);
              s_ack := if p_FIN p then 0 else p_seq p + py_len (p_data p) |};
         eventQueue :=
           enqueue (eventQueue w)
             (ReceivePacketEvent Client
                {| p_seq := p_ack p; p_ack := p_seq p + py_len (p_data p);
                   p_ACK := true; p_FIN := p_FIN p; p_SYN := false;
                   p_window := 0; p_data := [] |})
             (t + TRANSMISSION_DELAY);
         stdin := stdin w;
         stdout :=
           if p_FIN p
           then stdout w ++
                [ServerReceives (decode (s_msgBytes (server w) ++ p_data p))]
           else stdout w;
         rand_calls := rand_calls w |}.
Proof.
  unfold TCPServer_receivePacket, bytes_decode. run_monad.
  destruct (p_FIN p); cbn [andb]; run_monad; [ | reflexivity ].
  destruct (utf8_valid (s_msgBytes (server w) ++ p_data p)); reflexivity.
Qed.

(** C4, counterexample.  The server takes a packet whose sequence
    number is 8 while it expects 4: the payload is appended to the
    buffer, the next expected sequence number jumps to 10 and the reply
    acknowledges 10, so the sentence of the specification fails. *)
Lemma C4_out_of_order_is_accepted :
  let w' := final_world (TCPServer_receivePacket ex_early_packet 15 ex_server_world) in
  s_ack (server ex_server_world) = 4 /\
  s_msgBytes (server w') = ex_HELL ++ ["L"; "D"]%byte /\
  s_ack (server w') = 10 /\
  eventQueue w' =
    [(ReceivePacketEvent Client (new_TCPPacket 2 10 true []), 20)] /\
  ~ spec_server_in_order_only ex_early_packet 15 ex_server_world.
Proof.
  cbv zeta. unfold spec_server_in_order_only.
  rewrite TCPServer_receivePacket_eq. cbn.
  repeat (split; [ reflexivity | ]).
  intros H. destruct H as [Hbuf _]; [ discriminate | discriminate Hbuf ].
Qed.

(** C4.  For every packet the server receives, in order or not.  A
    packet without FIN: the call returns, the payload is appended to
    the buffer and the next expected sequence number becomes
    [p.seq + len(p.data)], which is the old value advanced by the
    length of the payload when the packet was the expected one.  A
    packet with FIN: the payload is appended just the same; if the
    buffer then decodes, it is printed, the buffer is emptied and the
    number is 0 again, and if not the call raises with the queue
    untouched.  Whenever the call returns, the reply that joins the
    queue acknowledges [p.seq + len(p.data)]. *)
Theorem C4_server_accepts_every_packet (p : TCPPacket) (t : Z) (w : World) :
  let r := TCPServer_receivePacket p t w in
  let w' := final_world r in
  let arrived := s_msgBytes (server w) ++ p_data p in
  returns r = negb (p_FIN p && negb (utf8_valid arrived)) /\
  (if p_FIN p then
     if utf8_valid arrived then
       s_msgBytes (server w') = [] /\ s_ack (server w') = 0 /\
       stdout w' = stdout w ++ [ServerReceives (decode arrived)]
     else
       s_msgBytes (server w') = arrived /\ eventQueue w' = eventQueue w
   else
     s_msgBytes (server w') = arrived /\
     s_ack (server w') =
       (if p_seq p =? s_ack (server w)
        then s_ack (server w) + py_len (p_data p)
        else p_seq p + py_len (p_data p))) /\
  (if returns r then
     exists reply,
       eventQueue w' =
         enqueue (eventQueue w) (ReceivePacketEvent Client reply)
                 (t + TRANSMISSION_DELAY) /\
       p_ack reply = p_seq p + py_len (p_data p) /\
       p_FIN reply = p_FIN p
   else eventQueue w' = eventQueue w).
Proof.
  cbv zeta. rewrite TCPServer_receivePacket_eq.
  destruct (p_FIN p);
    [ destruct (utf8_valid (s_msgBytes (server w) ++ p_data p)) | ];
    cbn [andb negb returns final_world with_server server eventQueue stdout
         s_msgBytes s_ack].
  - repeat split. eexists. repeat split.
  - repeat split.
  - repeat split.
    + destruct (Z.eqb_spec (p_seq p) (s_ack (server w))) as [E | _];
        [ rewrite E | ]; reflexivity.
    + eexists. repeat split.
Qed.

(** C5, counterexample.  A fresh server receives the packets at 0 and
    at 4 and then the packet at 0 once more: the buffer grows from eight
    bytes to twelve and the next expected sequence number falls from 8
    to 4. *)
Lemma C5_redelivery_corrupts_and_regresses :
  let w1 := deliver_all [ex_packet0; ex_packet1] 5 ex_fresh_world in
  let w2 := final_world (TCPServer_receivePacket ex_packet0 7 w1) in
  s_msgBytes (server w1) = ex_HELL ++ ex_OWOR /\
  s_ack (server w1) = 8 /\
  s_msgBytes (server w2) = ex_HELL ++ ex_OWOR ++ ex_HELL /\
  s_ack (server w2) = 4 /\
  ~ spec_server_idempotent [ex_packet0; ex_packet1] ex_packet0 5 ex_fresh_world.
Proof.
  cbv zeta. unfold spec_server_idempotent. cbn [deliver_all].
  rewrite !TCPServer_receivePacket_eq. cbn.
  repeat (split; [ reflexivity | ]).
  intros H. destruct H as [Hbuf _]; [ now left | discriminate Hbuf ].
Qed.

(** C5.  Delivering a packet to the server a second time, right after
    the first.  When both calls return, and they always do for a packet
    without FIN, the next expected sequence number is what the first
    delivery made it, and the buffer is what the first delivery made it
    followed by the payload once more, unless the packet carries FIN,
    in which case the buffer was emptied and is empty again. *)
Theorem C5_redelivery_appends_again (p : TCPPacket) (t t' : Z) (w : World) :
  let r1 := TCPServer_receivePacket p t w in
  let r2 := TCPServer_receivePacket p t' (final_world r1) in
  (p_FIN p = false -> returns r1 = true /\ returns r2 = true) /\
  (returns r1 = true -> returns r2 = true ->
   s_ack (server (final_world r2)) = s_ack (server (final_world r1)) /\
   s_msgBytes (server (final_world r2)) =
     s_msgBytes (server (final_world r1)) ++ (if p_FIN p then [] else p_data p)).
Proof.
  cbv zeta. rewrite (TCPServer_receivePacket_eq p t w).
  destruct (p_FIN p) eqn:Hfin.
  - split; [ discriminate | ].
    destruct (utf8_valid (s_msgBytes (server w) ++ p_data p));
      cbn [andb negb returns]; [ | discriminate ].
    rewrite TCPServer_receivePacket_eq. rewrite Hfin.
    cbn [final_world server s_msgBytes app].
    destruct (utf8_valid (p_data p)); cbn [andb negb returns final_world];
      [ | discriminate ].
    intros _ _. split; reflexivity.
  - cbn [andb]. rewrite TCPServer_receivePacket_eq. rewrite Hfin. cbn [andb].
    split; [ intros _; split; reflexivity | ].
    intros _ _. split; reflexivity.
Qed.

(** A packet without FIN, delivered twice to a fresh server. *)
Lemma C5_redelivery_appends_again_witness :
  let r1 := TCPServer_receivePacket ex_packet0 5 ex_fresh_world in
  let r2 := TCPServer_receivePacket ex_packet0 6 (final_world r1) in
  returns r1 = true /\ returns r2 = true /\
  s_ack (server (final_world r2)) = s_ack (server (final_world r1)) /\
  s_msgBytes (server (final_world r2)) =
    s_msgBytes (server (final_world r1)) ++ ex_HELL.
Proof.
  cbv zeta.
  destruct (C5_redelivery_appends_again ex_packet0 5 6 ex_fresh_world)
    as [Hret Hsame].
  destruct (Hret eq_refl) as [H1 H2].
  split; [ exact H1 | ]. split; [ exact H2 | ].
  exact (Hsame H1 H2).
Defined.

(** ** The queue *)

Lemma filter_enqueue_length (f : TCPEvent * Z -> bool) (q : PriorityQueue)
    (e : TCPEvent) (t : Z) :
  List.length (filter f (enqueue q e t)) =
  (List.length (filter f q) + (if f (e, t) then 1 else 0))%nat.
Proof.
  induction q as [| [e' t'] q IH]; cbn [enqueue filter].
  - destruct (f (e, t)); reflexivity.
  - destruct (t <? t'); cbn [filter].
    + destruct (f (e, t)); destruct (f (e', t')); cbn [List.length]; lia.
    + destruct (f (e', t')); cbn [List.length]; rewrite IH; lia.
Qed.

Lemma outstanding_bytes_enqueue (q : PriorityQueue) (e : TCPEvent) (t : Z) :
  outstanding_bytes (enqueue q e t) = outstanding_bytes q + data_bytes (e, t).
Proof.
  unfold outstanding_bytes.
  induction q as [| [e' t'] q IH]; cbn [enqueue fold_right].
  - lia.
  - destruct (t <? t'); cbn [fold_right]; [ | rewrite IH ]; lia.
Qed.

(** ** The client *)

(** The payload of a packet the client builds never exceeds
    [MAX_PACKET_DATA] bytes, whatever the attributes hold. *)
Lemma next_packet_data_length (msgBytes : list byte) (seq ack : Z) :
  0 <= py_len (p_data (next_packet msgBytes seq ack)) <= MAX_PACKET_DATA.
Proof.
  unfold next_packet, MAX_PACKET_DATA.
  assert (Hd : forall p, p_data (set_FIN p) = p_data p) by reflexivity.
  destruct (_ =? _); [ rewrite Hd | ]; cbn [new_TCPPacket p_data];
    unfold py_slice, py_len; rewrite length_firstn; unfold slice_bound;
    pose proof (Nat2Z.is_nonneg (List.length msgBytes));
    repeat match goal with
           | |- context [?a <? ?b] => destruct (Z.ltb_spec a b)
           end; lia.
Qed.

Lemma next_packet_fields (msgBytes : list byte) (seq ack : Z) :
  p_seq (next_packet msgBytes seq ack) = seq /\
  p_ack (next_packet msgBytes seq ack) = ack /\
  p_ACK (next_packet msgBytes seq ack) = true /\
  p_FIN (next_packet msgBytes seq ack) =
    (seq + Z.min MAX_PACKET_DATA (py_len msgBytes - seq) =? py_len msgBytes).
Proof.
  unfold next_packet. destruct (_ =? _); repeat split.
Qed.

(** [sendNextPacket] for a client that has a message: it draws once,
    and changes nothing but the queue. *)
Lemma TCPClient_sendNextPacket_eq (lpp : Q) (coin : nat -> bool) (t : Z)
    (w : World) (msgBytes : list byte) (seq ack : Z) :
  c_msgBytes (client w) = Some msgBytes ->
  c_seq (client w) = Some seq ->
  c_ack (client w) = Some ack ->
  TCPClient_sendNextPacket lpp coin t w =
  Ok tt {| client := client w; server := server w;
           eventQueue :=
             queue_after_send lpp (Z.b2z (coin (rand_calls w)))
               (next_packet msgBytes seq ack) t (eventQueue w);
           stdin := stdin w; stdout := stdout w;
           rand_calls := S (rand_calls w) |}.
Proof.
  intros Hm Hs Ha. unfold TCPClient_sendNextPacket, queue_after_send.
  run_monad. rewrite Hm, Hs, Ha. run_monad.
  destruct (delivered lpp _); run_monad; [ | reflexivity ].
  destruct (p_FIN _); run_monad; reflexivity.
Qed.

(** [sendNextPacket] in general: besides the queue and the count of
    draws it leaves the world alone, and the queue is either untouched
    or the one [queue_after_send] describes. *)
Lemma TCPClient_sendNextPacket_world (lpp : Q) (coin : nat -> bool) (t : Z)
    (w : World) :
  exists q n,
    final_world (TCPClient_sendNextPacket lpp coin t w) =
      {| client := client w; server := server w; eventQueue := q;
         stdin := stdin w; stdout := stdout w; rand_calls := n |} /\
    (q = eventQueue w \/
     exists msgBytes seq ack,
       q = queue_after_send lpp (Z.b2z (coin (rand_calls w)))
             (next_packet msgBytes seq ack) t (eventQueue w)).
Proof.
  destruct (c_msgBytes (client w)) as [m |] eqn:Hm;
    [ destruct (c_seq (client w)) as [s |] eqn:Hs;
      [ destruct (c_ack (client w)) as [a |] eqn:Ha | ] | ].
  - rewrite (TCPClient_sendNextPacket_eq lpp coin t w m s a Hm Hs Ha).
    do 2 eexists; split; [ reflexivity | right; eauto ].
  - unfold TCPClient_sendNextPacket. run_monad. rewrite Hm, Hs, Ha. run_monad.
    exists (eventQueue w), (rand_calls w). destruct w; split; [ reflexivity | now left ].
  - unfold TCPClient_sendNextPacket. run_monad. rewrite Hm, Hs. run_monad.
    exists (eventQueue w), (rand_calls w). destruct w; split; [ reflexivity | now left ].
  - unfold TCPClient_sendNextPacket. run_monad. rewrite Hm. run_monad.
    exists (eventQueue w), (rand_calls w). destruct w; split; [ reflexivity | now left ].
Qed.

Lemma timeouts_pending_queue_after_send (lpp : Q) (r : Z) (p : TCPPacket)
    (t : Z) (q : PriorityQueue) :
  timeouts_pending (queue_after_send lpp r p t q) = timeouts_pending q.
Proof.
  unfold queue_after_send, timeouts_pending.
  destruct (delivered lpp r); [ | reflexivity ].
  destruct (p_FIN p); rewrite !filter_enqueue_length; cbn; lia.
Qed.

(** The client after it has taken the acknowledgment [p]. *)
Lemma TCPClient_receivePacket_eq (lpp : Q) (coin : nat -> bool)
    (p : TCPPacket) (t : Z) (w : World) :
  let c' := {| acknowledged := dict_set (acknowledged (client w)) p true;
               c_msgBytes := c_msgBytes (client w);
               c_seq := Some (p_ack p);
               c_ack := Some (p_seq p + 1) |} in
  TCPClient_receivePacket lpp coin p t w =
  match c_msgBytes (client w) with
  | None => Raise (AttributeError "TCPClient" "msgBytes") (with_client c' w)
  | Some m =>
      if p_ack p <? py_len m then
        Ok tt {| client := c'; server := server w;
                 eventQueue :=
                   queue_after_send lpp (Z.b2z (coin (rand_calls w)))
                     (next_packet m (p_ack p) (p_seq p + 1)) t (eventQueue w);
                 stdin := stdin w; stdout := stdout w;
                 rand_calls := S (rand_calls w) |}
      else Ok tt (with_client c' w)
  end.
Proof.
  cbv zeta. unfold TCPClient_receivePacket. run_monad.
  destruct (c_msgBytes (client w)) as [m |] eqn:Hm; [ | reflexivity ].
  destruct (p_ack p <? py_len m); [ | reflexivity ].
  erewrite TCPClient_sendNextPacket_eq; reflexivity.
Qed.

Lemma dict_get_set (d : dict) (k k' : TCPPacket) (v : bool) :
  dict_get (dict_set d k v) k' =
  if TCPPacket_eq_dec k' k then Some v else dict_get d k'.
Proof.
  induction d as [| [k0 v0] d IH]; cbn [dict_set dict_get].
  - reflexivity.
  - destruct (TCPPacket_eq_dec k k0) as [E | N]; cbn [dict_get].
    + subst k0. destruct (TCPPacket_eq_dec k' k); reflexivity.
    + rewrite IH. destruct (TCPPacket_eq_dec k' k0) as [E0 | N0];
        destruct (TCPPacket_eq_dec k' k) as [E1 | N1]; congruence.
Qed.

(** C6, counterexample.  In the run on HELLOWOR the client has sent
    [ex_packet0], the bytes 0 to 3, and the server has answered with
    [ex_ack0], whose ack is 4.  When the client takes that
    acknowledgment at time 10, the data packet, whose sequence number 0
    is below 4, is not in the dictionary afterwards; only the
    acknowledgment is. *)
Lemma C6_data_packet_not_marked :
  eventQueue ex_run_one_event =
    [(ReceivePacketEvent Server ex_packet0, 5); timeout_entry] /\
  eventQueue ex_run_two_events =
    [(ReceivePacketEvent Client ex_ack0, 10); timeout_entry] /\
  ~ spec_cumulative_ack LOST_PACKET_PROBABILITY_default always_one
      [ex_packet0] ex_ack0 10
      (with_eventQueue [timeout_entry] ex_run_two_events).
Proof.
  split; [ reflexivity | ]. split; [ reflexivity | ].
  unfold spec_cumulative_ack. intros [H _].
  specialize (H ex_packet0 (or_introl eq_refl)).
  vm_compute in H. specialize (H eq_refl). discriminate H.
Qed.

(** C6.  For every acknowledgment [p] the client processes: afterwards
    [seq] is [p.ack], [ack] is [p.seq + 1], the packet [p] itself is
    marked in the dictionary, and no other entry of the dictionary has
    changed; the call returns unless the client has no message yet. *)
Theorem C6_client_receivePacket (lpp : Q) (coin : nat -> bool)
    (p : TCPPacket) (t : Z) (w : World) :
  let r := TCPClient_receivePacket lpp coin p t w in
  c_seq (client (final_world r)) = Some (p_ack p) /\
  c_ack (client (final_world r)) = Some (p_seq p + 1) /\
  (forall d, dict_get (acknowledged (client (final_world r))) d =
             if TCPPacket_eq_dec d p then Some true
             else dict_get (acknowledged (client w)) d) /\
  returns r = match c_msgBytes (client w) with Some _ => true | None => false end.
Proof.
  cbv zeta. rewrite TCPClient_receivePacket_eq.
  destruct (c_msgBytes (client w)) as [m |];
    [ destruct (p_ack p <? py_len m) | ]; cbn;
    (repeat split; try reflexivity; intros d; apply dict_get_set).
Qed.


(** ** Dispatching *)

(** The dictionary after an acknowledgment: the key [p] is marked, the
    other keys are as before. *)
Lemma TCPClient_receivePacket_marks (lpp : Q) (coin : nat -> bool)
    (p : TCPPacket) (t : Z) (w : World) (k : TCPPacket) :
  dict_get (acknowledged (client (final_world
     (TCPClient_receivePacket lpp coin p t w)))) k = Some true \/
  dict_get (acknowledged (client (final_world
     (TCPClient_receivePacket lpp coin p t w)))) k
  = dict_get (acknowledged (client w)) k.
Proof.
  rewrite TCPClient_receivePacket_eq.
  destruct (c_msgBytes (client w)) as [m |];
    [ destruct (p_ack p <? py_len m) | ]; cbn;
    rewrite dict_get_set; destruct (TCPPacket_eq_dec k p); auto.
Qed.

Lemma TCPClient_requestMessage_acknowledged (lpp : Q) (coin : nat -> bool)
    (t : Z) (w : World) :
  acknowledged (client (final_world (TCPClient_requestMessage lpp coin t w))) =
  acknowledged (client w).
Proof.
  unfold TCPClient_requestMessage. run_monad.
  destruct (stdin w) as [| l ls]; [ reflexivity | ].
  destruct (negb (String.length l =? 0)%nat); [ | reflexivity ].
  match goal with
  | |- context [TCPClient_sendNextPacket lpp coin t ?w0] =>
      destruct (TCPClient_sendNextPacket_world lpp coin t w0) as (q & n & Hw & _);
      destruct (TCPClient_sendNextPacket lpp coin t w0); cbn in Hw |- *;
      rewrite Hw; reflexivity
  end.
Qed.

(** Dispatching a [TimeoutEvent] changes nothing: it returns when the
    [ack] it reads is a non-zero integer and raises otherwise. *)
Lemma dispatch_TimeoutEvent_eq (lpp : Q) (coin : nat -> bool)
    (s : TimeoutSubject) (t : Z) (w : World) :
  dispatch lpp coin (TimeoutEvent s) t w =
  match s with
  | OfClient =>
      match c_ack (client w) with
      | Some a => if truthy a then Ok tt w
                  else Raise (AttributeError "TimeoutEvent" "server") w
      | None => Raise (AttributeError "TCPClient" "ack") w
      end
  | OfPacket p => if truthy (p_ack p) then Ok tt w
                  else Raise (AttributeError "TimeoutEvent" "server") w
  end.
Proof.
  unfold dispatch, subject_ack. destruct s as [| p]; run_monad.
  - destruct (c_ack (client w)) as [a |]; [ destruct (truthy a) | ]; reflexivity.
  - destruct (truthy (p_ack p)); reflexivity.
Qed.

(** An entry of the dictionary that is marked stays marked through the
    dispatch of any event. *)
Lemma dispatch_keeps_marks (lpp : Q) (coin : nat -> bool) (e : TCPEvent)
    (t : Z) (w : World) (k : TCPPacket) :
  dict_get (acknowledged (client w)) k = Some true ->
  dict_get (acknowledged (client (final_world (dispatch lpp coin e t w)))) k
  = Some true.
Proof.
  intros Hk. destruct e as [| [|] p | s].
  - cbn [dispatch]. rewrite TCPClient_requestMessage_acknowledged. exact Hk.
  - cbn [dispatch].
    destruct (TCPClient_receivePacket_marks lpp coin p t w k) as [-> | ->];
      [ reflexivity | exact Hk ].
  - cbn [dispatch]. rewrite TCPServer_receivePacket_eq.
    destruct (_ && _); exact Hk.
  - rewrite dispatch_TimeoutEvent_eq.
    destruct s as [| p];
      [ destruct (c_ack (client w)) as [a |]; [ destruct (truthy a) | ]
      | destruct (truthy (p_ack p)) ]; exact Hk.
Qed.

Lemma event_loop_keeps_marks (lpp : Q) (coin : nat -> bool) (k : TCPPacket)
    (fuel : nat) :
  forall w,
    dict_get (acknowledged (client w)) k = Some true ->
    dict_get (acknowledged (client (outcome_world (event_loop lpp coin fuel w)))) k
    = Some true.
Proof.
  induction fuel as [| fuel IH]; intros w Hk; cbn [event_loop].
  - destruct (isEmpty (eventQueue w)); exact Hk.
  - destruct (isEmpty (eventQueue w)); [ exact Hk | ].
    unfold loop_body, bind, dequeue_event.
    destruct (dequeueWithPriority (eventQueue w)) as [[[e t] q] |];
      [ | exact Hk ].
    cbn [fst snd].
    pose proof (dispatch_keeps_marks lpp coin e t (with_eventQueue q w) k Hk) as Hd.
    destruct (dispatch lpp coin e t (with_eventQueue q w)) as [[] w' | err w'];
      cbn in Hd; [ apply IH | ]; exact Hd.
Qed.

(** C7.  An entry of the client's dictionary that is marked as
    acknowledged is still marked in the world the event loop reaches
    after any number of further events, whether the loop is still
    running there, has finished or has stopped on an exception; the
    order in which acknowledgments arrive plays no part. *)
Theorem C7_acknowledged_is_monotonic (lpp : Q) (coin : nat -> bool)
    (fuel : nat) (w : World) (k : TCPPacket) :
  dict_get (acknowledged (client w)) k = Some true ->
  dict_get (acknowledged (client (outcome_world (event_loop lpp coin fuel w)))) k
  = Some true.
Proof. intros Hk. apply event_loop_keeps_marks. exact Hk. Qed.

(** The world after three events of a loss-free run holds the first
    acknowledgment; it is still there seven events later. *)
Lemma C7_acknowledged_is_monotonic_witness :
  let w := outcome_world
             (TCPSimulator 0%Q always_one 3 ["HELLOWOR"%string; ""%string]) in
  dict_get (acknowledged (client w)) ex_ack0 = Some true /\
  dict_get (acknowledged (client (outcome_world (event_loop 0%Q always_one 7 w))))
           ex_ack0 = Some true.
Proof.
  cbv zeta. split; [ vm_compute; reflexivity | ].
  apply (C7_acknowledged_is_monotonic 0%Q always_one 7
           (outcome_world (TCPSimulator 0%Q always_one 3
                             ["HELLOWOR"%string; ""%string])) ex_ack0).
  vm_compute. reflexivity.
Defined.

Lemma packets_in_transit_enqueue (q : PriorityQueue) (e : TCPEvent) (t : Z) :
  packets_in_transit (enqueue q e t) =
  (packets_in_transit q + (if is_ReceivePacketEvent (e, t) then 1 else 0))%nat.
Proof. apply filter_enqueue_length. Qed.

Lemma packets_in_transit_queue_after_send (lpp : Q) (r : Z) (p : TCPPacket)
    (t : Z) (q : PriorityQueue) :
  packets_in_transit (queue_after_send lpp r p t q) =
  (packets_in_transit q + (if delivered lpp r then 1 else 0))%nat.
Proof.
  unfold queue_after_send.
  destruct (delivered lpp r); [ | lia ].
  destruct (p_FIN p); rewrite !packets_in_transit_enqueue; cbn; lia.
Qed.

Lemma outstanding_bytes_queue_after_send (lpp : Q) (r : Z) (p : TCPPacket)
    (t : Z) (q : PriorityQueue) :
  outstanding_bytes (queue_after_send lpp r p t q) =
  outstanding_bytes q + (if delivered lpp r then py_len (p_data p) else 0).
Proof.
  unfold queue_after_send.
  destruct (delivered lpp r); [ | lia ].
  destruct (p_FIN p); rewrite !outstanding_bytes_enqueue; cbn; lia.
Qed.

(** C3.  Two runs with the probability of the source.  In the first
    the only packet of the message is dropped; the [TimeoutEvent] fires
    at time 20 while nothing is acknowledged, and its dispatch raises
    [AttributeError] where a resend was due: the run stops with an empty
    queue and an empty server buffer.  In the second the first packet
    of two gets through and the second is dropped; the [TimeoutEvent]
    finds a non-zero [ack] on the client and does nothing, so the run
    ends with half of the message at the server and nothing printed by
    it. *)
Theorem C3_timeout_never_resends :
  (exists w,
     TCPSimulator LOST_PACKET_PROBABILITY_default always_zero 5 ["A"%string]
       = Crashed (AttributeError "TimeoutEvent" "server") w /\
     acknowledged (client w) = [] /\
     eventQueue w = [] /\
     s_msgBytes (server w) = []) /\
  (exists w,
     TCPSimulator LOST_PACKET_PROBABILITY_default one_then_zero 5
                  ["HELLOWOR"%string]
       = Finished w /\
     c_seq (client w) = Some 4 /\
     s_msgBytes (server w) = ex_HELL /\
     stdout w = [Prompt; ClientSends "HELLOWOR"]).
Proof.
  split; eexists; (split; [ vm_compute; reflexivity | ]); repeat split.
Qed.

Lemma timeouts_pending_enqueue (q : PriorityQueue) (e : TCPEvent) (t : Z) :
  timeouts_pending (enqueue q e t) =
  (timeouts_pending q + (if is_TimeoutEvent (e, t) then 1 else 0))%nat.
Proof. apply filter_enqueue_length. Qed.

(** No dispatch adds a [TimeoutEvent] to the queue. *)
Lemma dispatch_timeouts_pending (lpp : Q) (coin : nat -> bool) (e : TCPEvent)
    (t : Z) (w : World) :
  timeouts_pending (eventQueue (final_world (dispatch lpp coin e t w))) =
  timeouts_pending (eventQueue w).
Proof.
  destruct e as [| [|] p | s].
  - cbn [dispatch]. unfold TCPClient_requestMessage. run_monad.
    destruct (stdin w) as [| l ls]; [ reflexivity | ].
    destruct (negb (String.length l =? 0)%nat); [ | reflexivity ].
    match goal with
    | |- context [TCPClient_sendNextPacket lpp coin t ?w0] =>
        destruct (TCPClient_sendNextPacket_world lpp coin t w0)
          as (q & n & Hw & Hq);
        destruct (TCPClient_sendNextPacket lpp coin t w0) as [u w1 | err w1];
        cbn in Hw |- *; rewrite Hw; cbn in Hq |- *;
        (destruct Hq as [-> | (m0 & s0 & a0 & ->)];
         [ reflexivity | apply timeouts_pending_queue_after_send ])
    end.
  - cbn [dispatch]. rewrite TCPClient_receivePacket_eq.
    destruct (c_msgBytes (client w)) as [m |];
      [ destruct (p_ack p <? py_len m) | ]; cbn;
      try reflexivity.
    apply timeouts_pending_queue_after_send.
  - cbn [dispatch]. rewrite TCPServer_receivePacket_eq.
    destruct (_ && _); cbn [final_world eventQueue with_server];
      [ reflexivity | ].
    rewrite timeouts_pending_enqueue. cbn. lia.
  - rewrite dispatch_TimeoutEvent_eq.
    destruct s as [| p];
      [ destruct (c_ack (client w)) as [a |]; [ destruct (truthy a) | ]
      | destruct (truthy (p_ack p)) ]; reflexivity.
Qed.

(** The event loop never adds a [TimeoutEvent] either. *)
Lemma event_loop_timeouts_pending (lpp : Q) (coin : nat -> bool) (fuel : nat) :
  forall w,
    (timeouts_pending (eventQueue (outcome_world (event_loop lpp coin fuel w)))
     <= timeouts_pending (eventQueue w))%nat.
Proof.
  induction fuel as [| fuel IH]; intros w; cbn [event_loop].
  - destruct (isEmpty (eventQueue w)); apply Nat.le_refl.
  - destruct (eventQueue w) as [| [e t] q] eqn:Hq; cbn [isEmpty].
    + cbn [outcome_world]. rewrite Hq. apply Nat.le_refl.
    + unfold loop_body, bind, dequeue_event. rewrite Hq.
      cbn [dequeueWithPriority fst snd].
      pose proof (dispatch_timeouts_pending lpp coin e t (with_eventQueue q w)) as Hd.
      cbn [with_eventQueue eventQueue] in Hd.
      assert (Hq' : (timeouts_pending q <= timeouts_pending ((e, t) :: q))%nat).
      { unfold timeouts_pending. cbn [filter].
        destruct (is_TimeoutEvent (e, t)); cbn [List.length]; lia. }
      destruct (dispatch lpp coin e t (with_eventQueue q w)) as [[] w' | err w'];
        cbn [final_world outcome_world] in Hd |- *.
      * specialize (IH w'). lia.
      * lia.
Qed.

(** What [requestMessage] does, for every state of the console. *)
Lemma TCPClient_requestMessage_eq (lpp : Q) (coin : nat -> bool) (t : Z)
    (w : World) :
  TCPClient_requestMessage lpp coin t w =
  match stdin w with
  | [] =>
      Raise EOFError
        {| client := client w; server := server w; eventQueue := eventQueue w;
           stdin := []; stdout := stdout w ++ [Prompt];
           rand_calls := rand_calls w |}
  | l :: ls =>
      if (String.length l =? 0)%nat then
        Ok tt {| client := client w; server := server w;
                 eventQueue := eventQueue w; stdin := ls;
                 stdout := stdout w ++ [Prompt]; rand_calls := rand_calls w |}
      else
        Ok tt {| client := {| acknowledged := acknowledged (client w);
                              c_msgBytes := Some (encode l);
                              c_seq := Some 0; c_ack := Some 0 |};
                 server := server w;
                 eventQueue :=
                   queue_after_send lpp (Z.b2z (coin (rand_calls w)))
                     (next_packet (encode l) 0 0) t (eventQueue w);
                 stdin := ls;
                 stdout := (stdout w ++ [Prompt]) ++ [ClientSends l];
                 rand_calls := S (rand_calls w) |}
  end.
Proof.
  unfold TCPClient_requestMessage. run_monad.
  destruct (stdin w) as [| l ls]; [ reflexivity | ].
  destruct (String.length l =? 0)%nat; cbn [negb]; [ reflexivity | ].
  run_monad. erewrite TCPClient_sendNextPacket_eq; reflexivity.
Qed.

(** No dispatch gives the console a line back. *)
Lemma dispatch_stdin_le (lpp : Q) (coin : nat -> bool) (e : TCPEvent) (t : Z)
    (w : World) :
  (List.length (stdin (final_world (dispatch lpp coin e t w)))
   <= List.length (stdin w))%nat.
Proof.
  destruct e as [| [|] p | s].
  - cbn [dispatch]. rewrite TCPClient_requestMessage_eq.
    destruct (stdin w) as [| l ls]; [ apply Nat.le_refl | ].
    destruct (String.length l =? 0)%nat;
      cbn [final_world stdin List.length]; lia.
  - cbn [dispatch]. rewrite TCPClient_receivePacket_eq.
    destruct (c_msgBytes (client w)) as [m |];
      [ destruct (p_ack p <? py_len m) | ];
      cbn [final_world stdin with_client]; apply Nat.le_refl.
  - cbn [dispatch]. rewrite TCPServer_receivePacket_eq.
    destruct (_ && _); cbn [final_world stdin with_server]; apply Nat.le_refl.
  - rewrite dispatch_TimeoutEvent_eq.
    destruct s as [| p]; [ destruct (c_ack (client w)) as [a |] | ];
      try destruct (truthy _); cbn [final_world]; apply Nat.le_refl.
Qed.

Lemma event_loop_stdin_le (lpp : Q) (coin : nat -> bool) (fuel : nat) :
  forall w,
    (List.length (stdin (outcome_world (event_loop lpp coin fuel w)))
     <= List.length (stdin w))%nat.
Proof.
  induction fuel as [| fuel IH]; intros w; cbn [event_loop].
  - destruct (isEmpty (eventQueue w)); apply Nat.le_refl.
  - destruct (eventQueue w) as [| [e t] q] eqn:Hq; cbn [isEmpty].
    + apply Nat.le_refl.
    + unfold loop_body, bind, dequeue_event. rewrite Hq.
      cbn [dequeueWithPriority fst snd].
      pose proof (dispatch_stdin_le lpp coin e t (with_eventQueue q w)) as Hd.
      cbn [with_eventQueue stdin] in Hd.
      destruct (dispatch lpp coin e t (with_eventQueue q w)) as [[] w' | err w'];
        cbn [final_world outcome_world] in Hd |- *.
      * specialize (IH w'). lia.
      * exact Hd.
Qed.

(** A world whose queue holds no event that refers to a packet stays
    that way until [requestMessage] reads a further line of the
    console: until then the loop puts nothing on its way, makes no
    draw, and the server is handed nothing. *)
Lemma event_loop_idle (lpp : Q) (coin : nat -> bool) (fuel : nat) :
  forall w,
    packet_events (eventQueue w) = O ->
    let w' := outcome_world (event_loop lpp coin fuel w) in
    List.length (stdin w') = List.length (stdin w) ->
    packet_events (eventQueue w') = O /\
    server w' = server w /\ rand_calls w' = rand_calls w.
Proof.
  induction fuel as [| fuel IH]; intros w Hidle; cbn [event_loop].
  - destruct (isEmpty (eventQueue w)); cbn [outcome_world]; auto.
  - destruct (eventQueue w) as [| [e t] q] eqn:Hq; cbn [isEmpty].
    + cbn [outcome_world]. rewrite Hq. auto.
    + unfold loop_body, bind, dequeue_event. rewrite Hq.
      cbn [dequeueWithPriority fst snd].
      destruct e as [| h p | [| p]];
        try (unfold packet_events in Hidle; cbn in Hidle; discriminate Hidle).
      * cbn [dispatch]. rewrite TCPClient_requestMessage_eq.
        cbn [with_eventQueue stdin client server eventQueue stdout rand_calls].
        destruct (stdin w) as [| l ls].
        { cbn [outcome_world stdin eventQueue server rand_calls]. auto. }
        destruct (String.length l =? 0)%nat; cbv zeta;
          match goal with
          | |- context [event_loop lpp coin fuel ?w1] =>
              pose proof (event_loop_stdin_le lpp coin fuel w1) as Hle;
              cbn [stdin] in Hle
          end; cbn [List.length]; intros Hlen; lia.
      * rewrite dispatch_TimeoutEvent_eq. cbn [with_eventQueue client].
        destruct (c_ack (client w)) as [a |]; [ destruct (truthy a) | ].
        { apply (IH (with_eventQueue q w)). exact Hidle. }
        { cbn [outcome_world with_eventQueue eventQueue stdin server rand_calls].
          auto. }
        { cbn [outcome_world with_eventQueue eventQueue stdin server rand_calls].
          auto. }
Qed.

(** C10.  A call of [sendNextPacket] leaves as many [TimeoutEvent]s in
    the queue as it found, and when the value drawn fails the test
    against [LOST_PACKET_PROBABILITY] it leaves the whole queue as it
    found it.  The events dispatched afterwards do not make up for it:
    however long the loop goes on from the world the call leaves, the
    queue never holds more [TimeoutEvent]s than before the call.  Nor is
    the dropped packet scheduled later.  The packet was built in the
    call and is kept nowhere; when the queue held no event that refers
    to a packet, as it does whenever the simulator calls
    [sendNextPacket] (lemma [send_finds_no_packet_events]), then for as long as no further line of the console
    has been read the queue holds no [ReceivePacketEvent] and no
    [TimeoutEvent] on a packet, no draw is made, so nothing is sent, and
    the server is handed nothing.  The console never grows; a packet
    scheduled after a further line was read is built from that line. *)
Theorem C10_send_schedules_no_timeout (lpp : Q) (coin : nat -> bool) (t : Z)
    (w : World) (fuel : nat) :
  let w' := final_world (TCPClient_sendNextPacket lpp coin t w) in
  timeouts_pending (eventQueue w') = timeouts_pending (eventQueue w) /\
  (delivered lpp (Z.b2z (coin (rand_calls w))) = false ->
   eventQueue w' = eventQueue w) /\
  (timeouts_pending (eventQueue (outcome_world (event_loop lpp coin fuel w')))
   <= timeouts_pending (eventQueue w))%nat /\
  (let wn := outcome_world (event_loop lpp coin fuel w') in
   (List.length (stdin wn) <= List.length (stdin w))%nat /\
   (delivered lpp (Z.b2z (coin (rand_calls w))) = false ->
    packet_events (eventQueue w) = O ->
    List.length (stdin wn) = List.length (stdin w) ->
    packet_events (eventQueue wn) = O /\
    server wn = server w /\
    rand_calls wn = rand_calls w')).
Proof.
  cbv zeta.
  pose proof (event_loop_timeouts_pending lpp coin fuel
                (final_world (TCPClient_sendNextPacket lpp coin t w))) as Hloop.
  pose proof (event_loop_stdin_le lpp coin fuel
                (final_world (TCPClient_sendNextPacket lpp coin t w))) as Hin.
  pose proof (event_loop_idle lpp coin fuel
                (final_world (TCPClient_sendNextPacket lpp coin t w))) as Hidle.
  cbv zeta in Hidle.
  destruct (TCPClient_sendNextPacket_world lpp coin t w) as (q & n & Hw & Hq).
  rewrite Hw in *. cbn [eventQueue stdin server rand_calls] in *.
  destruct Hq as [-> | (m & s & a & ->)].
  - split; [ reflexivity | ]. split; [ reflexivity | ].
    split; [ exact Hloop | ]. split; [ exact Hin | ].
    intros _ Hnone Hlen. apply Hidle; assumption.
  - rewrite timeouts_pending_queue_after_send in *.
    split; [ reflexivity | ].
    split; [ intros Hdrop; unfold queue_after_send; rewrite Hdrop; reflexivity | ].
    split; [ exact Hloop | ].
    split; [ exact Hin | ].
    intros Hdrop.
    unfold queue_after_send in Hidle |- *. rewrite Hdrop in Hidle |- *.
    cbv iota in Hidle |- *.
    exact Hidle.
Qed.

(** A dropped packet: in the run on HELLOWOR the client is handed the
    first acknowledgment while the driver's [TimeoutEvent] waits, and
    the draw for the second packet is 0 against the probability of the
    source. *)
Lemma C10_send_schedules_no_timeout_witness :
  let w := with_eventQueue [timeout_entry] ex_client_world in
  let w' := final_world
              (TCPClient_sendNextPacket LOST_PACKET_PROBABILITY_default
                                        always_zero 10 w) in
  let wn := outcome_world
              (event_loop LOST_PACKET_PROBABILITY_default always_zero 3 w') in
  delivered LOST_PACKET_PROBABILITY_default
            (Z.b2z (always_zero (rand_calls w))) = false /\
  packet_events (eventQueue w) = O /\
  List.length (stdin wn) = List.length (stdin w) /\
  eventQueue w' = eventQueue w /\
  packet_events (eventQueue wn) = O /\
  server wn = server w /\
  rand_calls wn = rand_calls w'.
Proof.
  cbv zeta.
  split; [ reflexivity | ]. split; [ reflexivity | ]. split; [ reflexivity | ].
  destruct (C10_send_schedules_no_timeout
              LOST_PACKET_PROBABILITY_default always_zero 10
              (with_eventQueue [timeout_entry] ex_client_world) 3)
    as (_ & Hq & _ & _ & Hrest).
  split; [ apply Hq; reflexivity | ].
  apply Hrest; reflexivity.
Defined.

(** C9.  The driver enters the loop with one [TimeoutEvent] in the
    queue, which refers to the client, and no dispatch of any event
    adds another.  Dispatching it leaves the whole world as it was, so
    it resends nothing; it returns exactly when the client has an
    attribute [ack] whose value is not 0, and raises in every other
    case. *)
Theorem C9_initial_timeout_dispatch (lpp : Q) (coin : nat -> bool)
    (lines : list string) (e : TCPEvent) (t : Z) (w : World) :
  eventQueue (initial_world lines) =
    [(RequestMessageEvent, 0); (TimeoutEvent OfClient, TIMEOUT)] /\
  timeouts_pending (eventQueue (final_world (dispatch lpp coin e t w))) =
    timeouts_pending (eventQueue w) /\
  let r := dispatch lpp coin (TimeoutEvent OfClient) t w in
  final_world r = w /\
  returns r = match c_ack (client w) with
              | Some a => negb (a =? 0)
              | None => false
              end /\
  (returns r = false ->
   r = Raise (AttributeError "TimeoutEvent" "server") w \/
   r = Raise (AttributeError "TCPClient" "ack") w).
Proof.
  split; [ reflexivity | ].
  split; [ apply dispatch_timeouts_pending | ].
  cbv zeta. rewrite dispatch_TimeoutEvent_eq. unfold truthy.
  destruct (c_ack (client w)) as [a |]; [ destruct (negb (a =? 0)) | ]; cbn;
    repeat split; auto; discriminate.
Qed.

(** The world of a client whose first packet was lost: its [ack] is
    still 0 when the timeout fires. *)
Lemma C9_initial_timeout_dispatch_witness :
  let r := dispatch LOST_PACKET_PROBABILITY_default always_zero
                    (TimeoutEvent OfClient) 20 ex_client_world in
  returns r = false /\
  (r = Raise (AttributeError "TimeoutEvent" "server") ex_client_world \/
   r = Raise (AttributeError "TCPClient" "ack") ex_client_world).
Proof.
  cbv zeta. split; [ reflexivity | ].
  apply (C9_initial_timeout_dispatch LOST_PACKET_PROBABILITY_default
           always_zero [] RequestMessageEvent 20 ex_client_world).
  reflexivity.
Defined.

(** C8, counterexample.  With [LOST_PACKET_PROBABILITY] at 1 the server
    receives a packet and its acknowledgment joins the queue: the reply
    of the server is transmitted without any draw. *)
Lemma C8_server_reply_is_never_dropped :
  ~ spec_total_loss always_zero (ReceivePacketEvent Server ex_packet0) 5
      ex_fresh_world.
Proof.
  unfold spec_total_loss. cbn [dispatch].
  rewrite TCPServer_receivePacket_eq. cbn. lia.
Qed.

(** A call of [sendNextPacket] that returns has made one draw, the one
    the count of draws pointed at, and has moved the count on by one; a
    call that raises has made none.  Whether it returns depends on the
    client alone, which it leaves as it was. *)
Lemma send_draws_once (lpp : Q) (coin : nat -> bool) (t : Z) (w : World) :
  let r := TCPClient_sendNextPacket lpp coin t w in
  packets_in_transit (eventQueue (final_world r)) =
  (packets_in_transit (eventQueue w) +
   (if returns r && delivered lpp (Z.b2z (coin (rand_calls w)))
    then 1 else 0))%nat /\
  rand_calls (final_world r) =
  (rand_calls w + (if returns r then 1 else 0))%nat /\
  client (final_world r) = client w /\
  returns r =
  match c_msgBytes (client w), c_seq (client w), c_ack (client w) with
  | Some _, Some _, Some _ => true
  | _, _, _ => false
  end.
Proof.
  cbv zeta.
  destruct (c_msgBytes (client w)) as [m |] eqn:Hm;
    [ destruct (c_seq (client w)) as [s |] eqn:Hs;
      [ destruct (c_ack (client w)) as [a |] eqn:Ha | ] | ].
  - rewrite (TCPClient_sendNextPacket_eq lpp coin t w m s a Hm Hs Ha).
    cbn [final_world eventQueue rand_calls returns andb client].
    split; [ apply packets_in_transit_queue_after_send | ].
    repeat split. lia.
  - unfold TCPClient_sendNextPacket. run_monad. rewrite Hm, Hs, Ha. cbn.
    repeat split; lia.
  - unfold TCPClient_sendNextPacket. run_monad. rewrite Hm, Hs. cbn.
    repeat split; lia.
  - unfold TCPClient_sendNextPacket. run_monad. rewrite Hm. cbn.
    repeat split; lia.
Qed.

(** C8.  A data packet of the client is put on its way exactly when
    the call returns and the value it draws passes the test against
    [LOST_PACKET_PROBABILITY]; the test looks at the value drawn and at
    the constant, and at nothing else.  Every call that returns makes
    one draw of its own: it moves the count of draws on by one, so that
    a second call, at any time [t2], is decided by the next draw and by
    nothing the first call drew.  When the constant is 0 both values of
    a draw pass.  A reply of the server is put on its way whenever
    [receivePacket] returns; no value is drawn for it. *)
Theorem C8_loss_decision (lpp : Q) (coin : nat -> bool) (p : TCPPacket)
    (t t2 : Z) (w : World) :
  (forall b : bool, delivered 0%Q (Z.b2z b) = true) /\
  (let r := TCPClient_sendNextPacket lpp coin t w in
   packets_in_transit (eventQueue (final_world r)) =
   (packets_in_transit (eventQueue w) +
    (if returns r && delivered lpp (Z.b2z (coin (rand_calls w)))
     then 1 else 0))%nat /\
   rand_calls (final_world r) =
   (rand_calls w + (if returns r then 1 else 0))%nat) /\
  (let r := TCPClient_sendNextPacket lpp coin t w in
   let r2 := TCPClient_sendNextPacket lpp coin t2 (final_world r) in
   returns r2 = returns r /\
   packets_in_transit (eventQueue (final_world r2)) =
   (packets_in_transit (eventQueue (final_world r)) +
    (if returns r && delivered lpp (Z.b2z (coin (S (rand_calls w))))
     then 1 else 0))%nat /\
   rand_calls (final_world r2) =
   (rand_calls w + (if returns r then 2 else 0))%nat) /\
  (let r := TCPServer_receivePacket p t w in
   packets_in_transit (eventQueue (final_world r)) =
   (packets_in_transit (eventQueue w) + (if returns r then 1 else 0))%nat /\
   rand_calls (final_world r) = rand_calls w).
Proof.
  split; [ intros []; reflexivity | ].
  split; [ | split ].
  - cbv zeta. destruct (send_draws_once lpp coin t w) as (Hp1 & Hn1 & _).
    split; assumption.
  - cbv zeta.
    destruct (send_draws_once lpp coin t w) as (_ & Hn1 & Hc1 & Hr1).
    destruct (send_draws_once lpp coin t2
                (final_world (TCPClient_sendNextPacket lpp coin t w)))
      as (Hp2 & Hn2 & _ & Hr2).
    rewrite Hc1, <- Hr1 in Hr2.
    rewrite Hp2, Hn2, Hn1, Hr2.
    destruct (returns (TCPClient_sendNextPacket lpp coin t w));
      rewrite ?Nat.add_0_r, ?Nat.add_1_r; cbn [andb];
      repeat split; lia.
  - cbv zeta. rewrite TCPServer_receivePacket_eq.
    destruct (_ && _);
      cbn [final_world eventQueue with_server returns rand_calls];
      [ split; [ lia | reflexivity ] | ].
    rewrite packets_in_transit_enqueue. cbn. split; [ lia | reflexivity ].
Qed.

(** With the constant at 1 a draw of 1 passes the test, so a data
    packet of the client gets through as well. *)
Lemma delivered_at_probability_one :
  delivered 1%Q (Z.b2z true) = true /\ delivered 1%Q (Z.b2z false) = false /\
  delivered LOST_PACKET_PROBABILITY_default (Z.b2z true) = true /\
  delivered LOST_PACKET_PROBABILITY_default (Z.b2z false) = false.
Proof. repeat split. Qed.

(** X11.  The client never reads the window an acknowledgment
    advertises.  Processing an acknowledgment puts at most one further
    packet of at most [MAX_PACKET_DATA] bytes on its way to the server,
    and the queue it leaves is the same for every value of the window
    field; the packet is sent whenever the message has bytes from
    [p.ack] on and the draw passes the loss test. *)
Theorem X11_window_is_not_consulted (lpp : Q) (coin : nat -> bool)
    (p : TCPPacket) (t : Z) (w : World) :
  let w' := final_world (TCPClient_receivePacket lpp coin p t w) in
  outstanding_bytes (eventQueue w') <=
    outstanding_bytes (eventQueue w) + MAX_PACKET_DATA /\
  (packets_in_transit (eventQueue w') <= S (packets_in_transit (eventQueue w)))%nat /\
  (forall window,
     eventQueue (final_world
       (TCPClient_receivePacket lpp coin (set_window p window) t w))
     = eventQueue w') /\
  (forall m,
     c_msgBytes (client w) = Some m ->
     p_ack p < py_len m ->
     delivered lpp (Z.b2z (coin (rand_calls w))) = true ->
     packets_in_transit (eventQueue w') = S (packets_in_transit (eventQueue w))).
Proof.
  cbv zeta.
  assert (Hwin : forall window,
    eventQueue (final_world
      (TCPClient_receivePacket lpp coin (set_window p window) t w))
    = eventQueue (final_world (TCPClient_receivePacket lpp coin p t w))).
  { intros window. rewrite !TCPClient_receivePacket_eq. cbn [set_window p_ack p_seq].
    destruct (c_msgBytes (client w)) as [m |];
      [ destruct (p_ack p <? py_len m) | ]; reflexivity. }
  rewrite TCPClient_receivePacket_eq in *.
  destruct (c_msgBytes (client w)) as [m |] eqn:Hm;
    [ destruct (Z.ltb_spec (p_ack p) (py_len m)) as [Hlt | Hge] | ];
    cbn [final_world eventQueue with_client] in *.
  - rewrite outstanding_bytes_queue_after_send,
            packets_in_transit_queue_after_send.
    pose proof (next_packet_data_length m (p_ack p) (p_seq p + 1)) as Hlen.
    unfold MAX_PACKET_DATA in *.
    repeat split.
    + destruct (delivered lpp _); lia.
    + destruct (delivered lpp _); lia.
    + exact Hwin.
    + intros m' _ _ Hd. rewrite Hd. lia.
  - unfold MAX_PACKET_DATA. repeat split; try lia; [ exact Hwin | ].
    intros m' Hm' Hlt. injection Hm' as <-. lia.
  - unfold MAX_PACKET_DATA. repeat split; try lia; [ exact Hwin | ].
    intros m' Hm'. discriminate Hm'.
Qed.

Lemma X11_window_is_not_consulted_witness :
  c_msgBytes (client ex_client_world) = Some ex_message /\
  p_ack ex_ack0 < py_len ex_message /\
  delivered LOST_PACKET_PROBABILITY_default
            (Z.b2z (always_one (rand_calls ex_client_world))) = true /\
  packets_in_transit (eventQueue (final_world
    (TCPClient_receivePacket LOST_PACKET_PROBABILITY_default always_one
                             ex_ack0 10 ex_client_world)))
  = S (packets_in_transit (eventQueue ex_client_world)).
Proof.
  split; [ reflexivity | ]. split; [ reflexivity | ]. split; [ reflexivity | ].
  destruct (X11_window_is_not_consulted LOST_PACKET_PROBABILITY_default
              always_one ex_ack0 10 ex_client_world) as (_ & _ & _ & H).
  apply (H ex_message); reflexivity.
Defined.

(** ** Slices *)

Lemma firstn_firstn_skipn {A : Type} (a c : nat) (l : list A) :
  firstn a l ++ firstn c (skipn a l) = firstn (a + c) l.
Proof.
  revert l. induction a as [| a IH]; intros l; [ reflexivity | ].
  destruct l as [| x l]; cbn.
  - rewrite firstn_nil. reflexivity.
  - rewrite IH. reflexivity.
Qed.

Lemma py_slice_in_range {A : Type} (l : list A) (a b : Z) :
  0 <= a <= b -> b <= py_len l ->
  py_slice l a b = firstn (Z.to_nat (b - a)) (skipn (Z.to_nat a) l).
Proof.
  intros Ha Hb. unfold py_slice, slice_bound.
  destruct (Z.ltb_spec a 0); [ lia | ].
  destruct (Z.ltb_spec b 0); [ lia | ].
  rewrite !Z.min_l by lia. reflexivity.
Qed.

Lemma py_slice_app {A : Type} (l : list A) (a b : Z) :
  0 <= a <= b -> b <= py_len l ->
  py_slice l 0 a ++ py_slice l a b = py_slice l 0 b.
Proof.
  intros Ha Hb. rewrite !py_slice_in_range by lia.
  cbn [Z.to_nat skipn]. rewrite !Z.sub_0_r, firstn_firstn_skipn.
  f_equal. lia.
Qed.

Lemma py_slice_all {A : Type} (l : list A) : py_slice l 0 (py_len l) = l.
Proof.
  unfold py_len. rewrite py_slice_in_range by (unfold py_len; lia).
  cbn [Z.to_nat skipn]. rewrite Z.sub_0_r, Nat2Z.id. apply firstn_all.
Qed.

Lemma py_slice_length {A : Type} (l : list A) (a b : Z) :
  0 <= a <= b -> b <= py_len l -> py_len (py_slice l a b) = b - a.
Proof.
  intros Ha Hb. rewrite py_slice_in_range by lia.
  unfold py_len in *. rewrite length_firstn, length_skipn. lia.
Qed.

(** The packet the client builds at offset [4 * k] of a message of
    [n] bytes. *)
Lemma next_packet_in_transfer (bs : list byte) (k a : Z) :
  0 <= k -> 4 * k < py_len bs ->
  let p := next_packet bs (4 * k) a in
  p_seq p = 4 * k /\ p_ack p = a /\
  p_FIN p = last_packet (py_len bs) k /\
  p_data p = py_slice bs (4 * k) (Z.min (4 * k + 4) (py_len bs)).
Proof.
  intros Hk Hn. cbv zeta.
  destruct (next_packet_fields bs (4 * k) a) as (Hs & Ha & _ & Hf).
  repeat split; try assumption.
  - rewrite Hf. unfold last_packet, MAX_PACKET_DATA.
    destruct (Z.eqb_spec (4 * k + Z.min 4 (py_len bs - 4 * k)) (py_len bs));
      destruct (Z.leb_spec (py_len bs - 4 * k) 4); try reflexivity; lia.
  - clear Hs Ha Hf. unfold next_packet, MAX_PACKET_DATA. cbv zeta.
    replace (4 * k + Z.min 4 (py_len bs - 4 * k))
      with (Z.min (4 * k + 4) (py_len bs)) by lia.
    destruct (Z.min (4 * k + 4) (py_len bs) =? py_len bs); reflexivity.
Qed.

(** ** The queue with the driver's timeout in it *)

Lemma enqueue_add_timeout (q : PriorityQueue) (e : TCPEvent) (t : Z) :
  enqueue (add_timeout q) e t = add_timeout (enqueue q e t).
Proof.
  unfold timeout_entry.
  induction q as [| [e' t'] q IH]; cbn [add_timeout enqueue].
  - unfold timeout_entry. destruct (t <? TIMEOUT); reflexivity.
  - destruct (Z.ltb_spec t' TIMEOUT) as [Ht' | Ht'].
    + cbn [enqueue]. destruct (Z.ltb_spec t t') as [Htt | Htt]; cbn [add_timeout].
      * destruct (Z.ltb_spec t TIMEOUT); [ | lia ].
        destruct (Z.ltb_spec t' TIMEOUT); [ reflexivity | lia ].
      * destruct (Z.ltb_spec t' TIMEOUT); [ | lia ]. rewrite IH. reflexivity.
    + unfold timeout_entry. cbn [enqueue].
      destruct (Z.ltb_spec t TIMEOUT) as [Ht | Ht].
      * destruct (Z.ltb_spec t t'); [ | lia ]. cbn [add_timeout].
        destruct (Z.ltb_spec t TIMEOUT); [ | lia ].
        destruct (Z.ltb_spec t' TIMEOUT); [ lia | reflexivity ].
      * destruct (Z.ltb_spec t t'); cbn [add_timeout].
        -- destruct (Z.ltb_spec t TIMEOUT); [ lia | reflexivity ].
        -- destruct (Z.ltb_spec t' TIMEOUT); [ lia | reflexivity ].
Qed.

Lemma enqueue_queue_of (tm : bool) (q : PriorityQueue) (e : TCPEvent) (t : Z) :
  enqueue (queue_of tm q) e t = queue_of tm (enqueue q e t).
Proof. destruct tm; [ apply enqueue_add_timeout | reflexivity ]. Qed.

Lemma queue_of_cons_early (tm : bool) (e : TCPEvent) (t : Z) (q : PriorityQueue) :
  tm = false \/ t < TIMEOUT ->
  queue_of tm ((e, t) :: q) = (e, t) :: queue_of tm q.
Proof.
  intros [-> | Ht]; [ reflexivity | ].
  destruct tm; [ | reflexivity ]. cbn [queue_of add_timeout].
  destruct (Z.ltb_spec t TIMEOUT); [ reflexivity | lia ].
Qed.

Lemma queue_of_cons_late (e : TCPEvent) (t : Z) (q : PriorityQueue) :
  TIMEOUT <= t ->
  queue_of true ((e, t) :: q) = timeout_entry :: queue_of false ((e, t) :: q).
Proof.
  intros Ht. cbn [queue_of add_timeout].
  destruct (Z.ltb_spec t TIMEOUT); [ lia | reflexivity ].
Qed.

(** ** Steps of the event loop *)

Lemma event_loop_one_event (lpp : Q) (coin : nat -> bool) (w w' : World)
    (fuel : nat) :
  one_event lpp coin w w' ->
  event_loop lpp coin (S fuel) w = event_loop lpp coin fuel w'.
Proof.
  intros (e & t & q & Hq & Hd). cbn [event_loop].
  unfold loop_body, bind, dequeue_event.
  rewrite Hq. cbn [isEmpty dequeueWithPriority fst snd]. rewrite Hd. reflexivity.
Qed.

Lemma finishes_with_step (lpp : Q) (coin : nat -> bool) (w w' : World)
    (out : list Output) :
  one_event lpp coin w w' ->
  finishes_with lpp coin w' out -> finishes_with lpp coin w out.
Proof.
  intros Hstep (fuel & w'' & Hrun & Hout).
  exists (S fuel), w''. rewrite (event_loop_one_event _ _ _ _ _ Hstep). auto.
Qed.

Lemma finishes_with_empty (lpp : Q) (coin : nat -> bool) (w : World) :
  eventQueue w = [] -> finishes_with lpp coin w (stdout w).
Proof.
  intros Hq. exists O, w. cbn [event_loop]. rewrite Hq. auto.
Qed.

(** The driver's [TimeoutEvent] at the head of the queue is passed
    over when the client has a non-zero [ack]. *)
Lemma timeout_passes (lpp : Q) (coin : nat -> bool) (w : World)
    (q : PriorityQueue) (a : Z) :
  eventQueue w = timeout_entry :: q ->
  c_ack (client w) = Some a -> a <> 0 ->
  one_event lpp coin w (with_eventQueue q w).
Proof.
  intros Hq Ha Hnz. exists (TimeoutEvent OfClient), TIMEOUT, q.
  split; [ exact Hq | ].
  rewrite dispatch_TimeoutEvent_eq. cbn [with_eventQueue client].
  rewrite Ha. unfold truthy. destruct (Z.eqb_spec a 0); [ contradiction | reflexivity ].
Qed.

(** ** A transfer without loss *)

Lemma decode_encode (msg : string) : decode (encode msg) = msg.
Proof. apply string_of_list_byte_of_string. Qed.

(** The server receives packet [k] and sends its acknowledgment. *)
Lemma data_arrives (lpp : Q) (coin : nat -> bool) (msg : string) (tm : bool)
    (k : Z) (w : World) :
  utf8_valid (encode msg) = true ->
  data_in_transit msg tm k w ->
  tm = false \/ 10 * k + 5 < TIMEOUT ->
  exists w', one_event lpp coin w w' /\ ack_in_transit msg tm k w'.
Proof.
  intros Hvalid (Hk & Hn & Hm & Hs & Ha & Hb & Hin & Hout & Hq) Htm.
  rewrite queue_of_cons_early in Hq by exact Htm.
  destruct (next_packet_in_transfer (encode msg) k k Hk Hn) as (Ps & Pa & Pf & Pd).
  assert (Hdec : p_FIN (next_packet (encode msg) (4 * k) k)
                 && negb (utf8_valid (s_msgBytes (server w)
                            ++ p_data (next_packet (encode msg) (4 * k) k)))
                 = false).
  { rewrite Pf, Pd, Hb. unfold last_packet.
    destruct (Z.leb_spec (py_len (encode msg) - 4 * k) 4) as [Hl | Hl];
      [ | reflexivity ].
    rewrite Z.min_r by lia. rewrite py_slice_app by lia.
    rewrite py_slice_all, Hvalid. reflexivity. }
  eexists. split.
  - eexists _, _, _. split; [ exact Hq | ].
    cbn [dispatch]. rewrite TCPServer_receivePacket_eq.
    cbn [with_eventQueue server]. rewrite Hdec. reflexivity.
  - unfold ack_in_transit.
    cbn [client server eventQueue stdin stdout with_eventQueue s_msgBytes].
    rewrite Pf, Pd, Ps, Pa, Hb, Hout.
    repeat (split; [ assumption | ]).
    split.
    + unfold last_packet in *.
      destruct (Z.leb_spec (py_len (encode msg) - 4 * k) 4) as [Hl | Hl].
      * rewrite Z.min_r by lia.
        rewrite py_slice_app by lia. rewrite py_slice_all, decode_encode.
        reflexivity.
      * split; [ reflexivity | ].
        rewrite Z.min_l by lia. rewrite py_slice_app by lia.
        f_equal. lia.
    + exists {| p_seq := k;
                p_ack := 4 * k + py_len (py_slice (encode msg) (4 * k)
                           (Z.min (4 * k + 4) (py_len (encode msg))));
                p_ACK := true;
                p_FIN := last_packet (py_len (encode msg)) k;
                p_SYN := false; p_window := 0; p_data := [] |}.
      split; [ | split ].
      3: { rewrite enqueue_queue_of. f_equal.
           replace (10 * k + 5 + TRANSMISSION_DELAY) with (10 * k + 10)
             by (unfold TRANSMISSION_DELAY; lia).
           unfold followup. destruct (last_packet _ k); cbn [enqueue];
             [ | reflexivity ].
           destruct (Z.ltb_spec (10 * k + 10) (10 * k + 20)); [ reflexivity | lia ]. }
      * reflexivity.
      * cbn [p_ack]. rewrite py_slice_length by lia. lia.
Qed.

Lemma delivered_zero (b : bool) : delivered 0%Q (Z.b2z b) = true.
Proof. destruct b; reflexivity. Qed.

Lemma TIMEOUT_eq : TIMEOUT = 20.
Proof. reflexivity. Qed.

(** The client receives the acknowledgment of packet [k], which was
    not the last one, and sends packet [k + 1]. *)
Lemma ack_arrives_more (coin : nat -> bool) (msg : string) (tm : bool)
    (k : Z) (w : World) :
  ack_in_transit msg tm k w ->
  last_packet (py_len (encode msg)) k = false ->
  tm = false \/ 10 * k + 10 < TIMEOUT ->
  exists w', one_event 0%Q coin w w' /\ data_in_transit msg tm (k + 1) w'.
Proof.
  intros (Hk & Hn & Hm & Ha & Hin & Hcase & r & Rs & Ra & Hq) Hlast Htm.
  rewrite Hlast in Hcase. destruct Hcase as [Hout Hb].
  rewrite queue_of_cons_early in Hq by exact Htm.
  unfold followup in Hq. rewrite Hlast in Hq.
  assert (Hk1 : 4 * (k + 1) < py_len (encode msg)).
  { unfold last_packet in Hlast.
    destruct (Z.leb_spec (py_len (encode msg) - 4 * k) 4); [ discriminate | lia ]. }
  assert (Ra' : p_ack r = 4 * (k + 1)) by lia.
  destruct (next_packet_in_transfer (encode msg) (k + 1) (k + 1)) as (_ & _ & Pf & _);
    [ lia | exact Hk1 | ].
  eexists. split.
  - eexists _, _, _. split; [ exact Hq | ].
    cbn [dispatch]. rewrite TCPClient_receivePacket_eq.
    cbn [with_eventQueue client server eventQueue stdin stdout rand_calls].
    rewrite Hm, Ra', Rs.
    destruct (Z.ltb_spec (4 * (k + 1)) (py_len (encode msg))); [ | lia ].
    reflexivity.
  - unfold data_in_transit.
    cbn [client server eventQueue stdin stdout c_msgBytes c_seq c_ack].
    repeat (split; [ assumption || lia || reflexivity | ]).
    unfold queue_after_send. rewrite delivered_zero, Pf.
    replace (10 * k + 10 + TRANSMISSION_DELAY) with (10 * (k + 1) + 5)
      by (unfold TRANSMISSION_DELAY; lia).
    replace (10 * k + 10 + TIMEOUT) with (10 * (k + 1) + 20)
      by (rewrite TIMEOUT_eq; lia).
    unfold followup.
    destruct (last_packet (py_len (encode msg)) (k + 1));
      rewrite !enqueue_queue_of; f_equal; cbn [enqueue]; try reflexivity.
    destruct (Z.ltb_spec (10 * (k + 1) + 20) (10 * (k + 1) + 5));
      [ lia | reflexivity ].
Qed.

(** The client receives the acknowledgment of the last packet. *)
Lemma ack_arrives_last (lpp : Q) (coin : nat -> bool) (msg : string)
    (tm : bool) (k : Z) (w : World) :
  ack_in_transit msg tm k w ->
  last_packet (py_len (encode msg)) k = true ->
  tm = false \/ 10 * k + 10 < TIMEOUT ->
  exists w', one_event lpp coin w w' /\ awaiting_request msg tm w'.
Proof.
  intros (Hk & Hn & Hm & Ha & Hin & Hcase & r & Rs & Ra & Hq) Hlast Htm.
  rewrite Hlast in Hcase.
  rewrite queue_of_cons_early in Hq by exact Htm.
  unfold followup in Hq. rewrite Hlast in Hq.
  assert (Ra' : p_ack r = py_len (encode msg)).
  { unfold last_packet in Hlast.
    destruct (Z.leb_spec (py_len (encode msg) - 4 * k) 4); [ lia | discriminate ]. }
  eexists. split.
  - eexists _, _, _. split; [ exact Hq | ].
    cbn [dispatch]. rewrite TCPClient_receivePacket_eq.
    cbn [with_eventQueue client server eventQueue stdin stdout rand_calls].
    rewrite Hm, Ra', Z.ltb_irrefl. reflexivity.
  - unfold awaiting_request.
    cbn [with_client with_eventQueue client server eventQueue stdin stdout c_ack].
    split; [ exists (p_seq r + 1); split; [ reflexivity | lia ] | ].
    repeat (split; [ assumption | ]).
    exists (10 * k + 20). split; [ rewrite TIMEOUT_eq; lia | reflexivity ].
Qed.

(** The request that follows the transfer reads an empty line, which
    ends the run. *)
Lemma request_arrives (lpp : Q) (coin : nat -> bool) (msg : string) (w : World) :
  awaiting_request msg false w ->
  exists w',
    one_event lpp coin w w' /\ eventQueue w' = [] /\
    stdout w' = [Prompt; ClientSends msg; ServerReceives msg; Prompt].
Proof.
  intros (_ & Hin & Hout & t & _ & Hq). cbn [queue_of] in Hq.
  eexists. split; [ | split ].
  - eexists _, _, _. split; [ exact Hq | ].
    cbn [dispatch]. unfold TCPClient_requestMessage. run_monad.
    rewrite Hin. cbn. reflexivity.
  - reflexivity.
  - cbn. rewrite Hout. reflexivity.
Qed.

(** If the [TimeoutEvent] is due before the event a phase waits for,
    it is dispatched first and changes nothing. *)
Lemma data_in_transit_ready (lpp : Q) (coin : nat -> bool) (msg : string)
    (tm : bool) (k : Z) (w : World) :
  data_in_transit msg tm k w ->
  exists tm' w',
    (tm' = false \/ 10 * k + 5 < TIMEOUT) /\
    data_in_transit msg tm' k w' /\
    forall out, finishes_with lpp coin w' out -> finishes_with lpp coin w out.
Proof.
  intros Hd.
  destruct tm; [ destruct (Z.lt_ge_cases (10 * k + 5) TIMEOUT) as [Hlt | Hge] | ].
  - exists true, w. auto.
  - destruct Hd as (Hk & Hn & Hm & Hs & Ha & Hb & Hin & Hout & Hq).
    rewrite queue_of_cons_late in Hq by exact Hge.
    exists false, (with_eventQueue (queue_of false
      ((ReceivePacketEvent Server (next_packet (encode msg) (4 * k) k), 10 * k + 5)
         :: followup (py_len (encode msg)) k)) w).
    split; [ now left | ]. split.
    + unfold data_in_transit. cbn [with_eventQueue client server eventQueue stdin stdout].
      repeat (split; [ assumption | ]). reflexivity.
    + intros out. apply finishes_with_step.
      apply (timeout_passes lpp coin w _ k Hq Ha). rewrite TIMEOUT_eq in Hge. lia.
  - exists false, w. auto.
Qed.

Lemma ack_in_transit_ready (lpp : Q) (coin : nat -> bool) (msg : string)
    (tm : bool) (k : Z) (w : World) :
  ack_in_transit msg tm k w ->
  exists tm' w',
    (tm' = false \/ 10 * k + 10 < TIMEOUT) /\
    ack_in_transit msg tm' k w' /\
    forall out, finishes_with lpp coin w' out -> finishes_with lpp coin w out.
Proof.
  intros Hd.
  destruct tm; [ destruct (Z.lt_ge_cases (10 * k + 10) TIMEOUT) as [Hlt | Hge] | ].
  - exists true, w. auto.
  - destruct Hd as (Hk & Hn & Hm & Ha & Hin & Hcase & r & Rs & Ra & Hq).
    rewrite queue_of_cons_late in Hq by exact Hge.
    exists false, (with_eventQueue (queue_of false
      ((ReceivePacketEvent Client r, 10 * k + 10)
         :: followup (py_len (encode msg)) k)) w).
    split; [ now left | ]. split.
    + unfold ack_in_transit. cbn [with_eventQueue client server eventQueue stdin stdout].
      repeat (split; [ assumption | ]). exists r. auto.
    + intros out. apply finishes_with_step.
      apply (timeout_passes lpp coin w _ k Hq Ha). rewrite TIMEOUT_eq in Hge. lia.
  - exists false, w. auto.
Qed.

Lemma awaiting_request_ready (lpp : Q) (coin : nat -> bool) (msg : string)
    (tm : bool) (w : World) :
  awaiting_request msg tm w ->
  exists w',
    awaiting_request msg false w' /\
    forall out, finishes_with lpp coin w' out -> finishes_with lpp coin w out.
Proof.
  intros Hd. destruct tm; [ | exists w; auto ].
  destruct Hd as ((a & Ha & Hnz) & Hin & Hout & t & Ht & Hq).
  rewrite queue_of_cons_late in Hq by exact Ht.
  exists (with_eventQueue (queue_of false [(RequestMessageEvent, t)]) w).
  split.
  - unfold awaiting_request. cbn [with_eventQueue client server eventQueue stdin stdout].
    split; [ exists a; auto | ]. repeat (split; [ assumption | ]).
    exists t. auto.
  - intros out. apply finishes_with_step.
    apply (timeout_passes lpp coin w _ a Hq Ha Hnz).
Qed.

(** From any packet on, a transfer without loss runs to the end. *)
Lemma transfer_finishes (coin : nat -> bool) (msg : string) (m : nat) :
  utf8_valid (encode msg) = true ->
  forall (k : Z) (tm : bool) (w : World),
    (Z.to_nat (py_len (encode msg) - 4 * k) <= m)%nat ->
    data_in_transit msg tm k w ->
    finishes_with 0%Q coin w
      [Prompt; ClientSends msg; ServerReceives msg; Prompt].
Proof.
  intros Hvalid. induction m as [| m IH]; intros k tm w Hm Hd.
  - destruct Hd as (Hk & Hn & _). lia.
  - assert (Hkn : 0 <= k /\ 4 * k < py_len (encode msg))
      by (destruct Hd as (Hk & Hn & _); auto).
    destruct (data_in_transit_ready 0%Q coin msg tm k w Hd)
      as (tm1 & w1 & Hr1 & Hd1 & K1).
    apply K1.
    destruct (data_arrives 0%Q coin msg tm1 k w1 Hvalid Hd1 Hr1)
      as (w2 & S2 & Ha2).
    apply (finishes_with_step _ _ _ _ _ S2).
    destruct (ack_in_transit_ready 0%Q coin msg tm1 k w2 Ha2)
      as (tm3 & w3 & Hr3 & Ha3 & K3).
    apply K3.
    destruct (last_packet (py_len (encode msg)) k) eqn:Hlast.
    + destruct (ack_arrives_last 0%Q coin msg tm3 k w3 Ha3 Hlast Hr3)
        as (w4 & S4 & Hw4).
      apply (finishes_with_step _ _ _ _ _ S4).
      destruct (awaiting_request_ready 0%Q coin msg tm3 w4 Hw4) as (w5 & Hw5 & K5).
      apply K5.
      destruct (request_arrives 0%Q coin msg w5 Hw5) as (w6 & S6 & Hq6 & Hout6).
      apply (finishes_with_step _ _ _ _ _ S6).
      rewrite <- Hout6. apply finishes_with_empty. exact Hq6.
    + destruct (ack_arrives_more coin msg tm3 k w3 Ha3 Hlast Hr3)
        as (w4 & S4 & Hd4).
      apply (finishes_with_step _ _ _ _ _ S4).
      apply (IH (k + 1) tm3 w4); [ | exact Hd4 ].
      unfold last_packet in Hlast.
      destruct (Z.leb_spec (py_len (encode msg) - 4 * k) 4); [ discriminate | lia ].
Qed.

Lemma py_len_encode (msg : string) :
  py_len (encode msg) = Z.of_nat (String.length msg).
Proof.
  unfold py_len, encode, list_byte_of_string. rewrite length_map.
  f_equal. induction msg as [| c msg IH]; cbn; [ reflexivity | now rewrite IH ].
Qed.

Lemma initial_world_eq (lines : list string) :
  initial_world lines =
  {| client := TCPClient_init; server := TCPServer_init;
     eventQueue := [(RequestMessageEvent, 0); timeout_entry];
     stdin := lines; stdout := []; rand_calls := O |}.
Proof. reflexivity. Qed.

(** The first event of a run: the request reads [msg] and sends packet
    0, which no draw can stop when the probability of loss is 0. *)
Lemma request_sends_first_packet (coin : nat -> bool) (msg : string) :
  msg <> ""%string ->
  exists w,
    one_event 0%Q coin (initial_world [msg; ""%string]) w /\
    data_in_transit msg true 0 w.
Proof.
  intros Hne.
  assert (Hlen : 0 < py_len (encode msg)).
  { rewrite py_len_encode. destruct msg; [ contradiction | cbn; lia ]. }
  assert (Hnz : negb (String.length msg =? 0)%nat = true).
  { destruct msg; [ contradiction | reflexivity ]. }
  destruct (next_packet_in_transfer (encode msg) 0 0) as (_ & _ & Pf & _);
    [ lia | lia | ].
  rewrite initial_world_eq.
  eexists. split.
  - eexists _, _, _. split; [ reflexivity | ].
    cbn [dispatch]. unfold TCPClient_requestMessage. run_monad.
    rewrite Hnz. run_monad.
    erewrite TCPClient_sendNextPacket_eq; reflexivity.
  - unfold data_in_transit.
    cbn [client server eventQueue stdin stdout c_msgBytes c_seq c_ack
         s_msgBytes TCPServer_init app].
    assert (Hempty : py_slice (encode msg) 0 (4 * 0) = []).
    { rewrite py_slice_in_range by lia. reflexivity. }
    rewrite Hempty.
    repeat (split; [ reflexivity || lia | ]).
    change (4 * 0) with 0 in Pf.
    unfold queue_after_send. rewrite delivered_zero, Pf.
    unfold followup.
    destruct (last_packet (py_len (encode msg)) 0); reflexivity.
Qed.

(** C1.  With [LOST_PACKET_PROBABILITY] at 0 and whatever the random
    source draws, the simulator that reads a non-empty message [msg],
    which is a string and so has a well-formed encoding, and then an
    empty line runs until its queue is empty, and what it
    has printed by then is the prompt, the line of the client, the line
    of the server and the second prompt.  The server prints its line
    when the packet with FIN arrives, from the buffer it has
    reassembled at that moment, and the line shows [msg]: the buffer is
    the message, byte for byte. *)
Theorem C1_lossless_transfer_reassembles (coin : nat -> bool) (msg : string) :
  msg <> ""%string ->
  utf8_valid (encode msg) = true ->
  exists fuel w,
    TCPSimulator 0%Q coin fuel [msg; ""%string] = Finished w /\
    stdout w = [Prompt; ClientSends msg; ServerReceives msg; Prompt].
Proof.
  intros Hne Hvalid.
  destruct (request_sends_first_packet coin msg Hne) as (w1 & S1 & Hd1).
  assert (Hrun : finishes_with 0%Q coin (initial_world [msg; ""%string])
                   [Prompt; ClientSends msg; ServerReceives msg; Prompt]).
  { apply (finishes_with_step _ _ _ _ _ S1).
    apply (transfer_finishes coin msg
             (Z.to_nat (py_len (encode msg) - 4 * 0)) Hvalid 0 true w1);
      [ apply Nat.le_refl | exact Hd1 ]. }
  destruct Hrun as (fuel & w & Hrun & Hout).
  exists fuel, w. auto.
Qed.

Lemma C1_lossless_transfer_reassembles_witness :
  "HELLO"%string <> ""%string /\
  utf8_valid (encode "HELLO") = true /\
  exists fuel w,
    TCPSimulator 0%Q always_zero fuel ["HELLO"%string; ""%string] = Finished w /\
    stdout w = [Prompt; ClientSends "HELLO"; ServerReceives "HELLO"; Prompt].
Proof.
  split; [ discriminate | ]. split; [ reflexivity | ].
  apply (C1_lossless_transfer_reassembles always_zero "HELLO"%string);
    [ discriminate | reflexivity ].
Defined.

(* ################################################################# *)
(** * Further properties of the simulator *)

(** ** Requesting a message *)

(** X1.  [requestMessage] at the edges of its input.  At the end of the
    input it raises [EOFError]; on an empty line it returns.  In both
    cases it has printed the prompt and has changed nothing else but
    the input it read: the client, the server and the queue are as
    before and no value was drawn. *)
Theorem X1_requestMessage_without_message (lpp : Q) (coin : nat -> bool)
    (t : Z) (w : World) :
  (forall l, hd_error (stdin w) = Some l -> l = ""%string) ->
  let r := TCPClient_requestMessage lpp coin t w in
  r = (match stdin w with
       | [] => Raise EOFError
       | _ :: _ => Ok tt
       end)
        {| client := client w; server := server w; eventQueue := eventQueue w;
           stdin := tl (stdin w); stdout := stdout w ++ [Prompt];
           rand_calls := rand_calls w |}.
Proof.
  intros Hl. cbv zeta. rewrite TCPClient_requestMessage_eq.
  destruct (stdin w) as [| l ls]; [ reflexivity | ].
  rewrite (Hl l eq_refl). reflexivity.
Qed.

Lemma X1_requestMessage_without_message_witness :
  (forall l, hd_error (stdin ex_fresh_world) = Some l -> l = ""%string) /\
  TCPClient_requestMessage LOST_PACKET_PROBABILITY_default always_one 0
                           ex_fresh_world
  = Raise EOFError
      {| client := TCPClient_init; server := TCPServer_init; eventQueue := [];
         stdin := []; stdout := [Prompt]; rand_calls := O |}.
Proof.
  split; [ intros l H; discriminate H | ].
  apply (X1_requestMessage_without_message LOST_PACKET_PROBABILITY_default
           always_one 0 ex_fresh_world).
  intros l H. discriminate H.
Defined.

(** ** Runs that stop early *)

Lemma event_loop_crash (lpp : Q) (coin : nat -> bool) (w w' : World)
    (e : TCPEvent) (t : Z) (q : PriorityQueue) (err : PyError) (fuel : nat) :
  eventQueue w = (e, t) :: q ->
  dispatch lpp coin e t (with_eventQueue q w) = Raise err w' ->
  event_loop lpp coin (S fuel) w = Crashed err w'.
Proof.
  intros Hq Hd. cbn [event_loop]. unfold loop_body, bind, dequeue_event.
  rewrite Hq. cbn [isEmpty dequeueWithPriority fst snd]. rewrite Hd. reflexivity.
Qed.

(** X2.  A run that gets no message.  If the input is at its end the
    first event raises [EOFError].  If the first line is empty the
    request does nothing, and the run stops at the driver's
    [TimeoutEvent] with an [AttributeError]: the client has no
    attribute [ack] before its first message.  This holds whatever the
    probability of loss, the random source and the lines that follow. *)
Theorem X2_run_without_message (lpp : Q) (coin : nat -> bool)
    (rest : list string) (fuel : nat) :
  TCPSimulator lpp coin (S fuel) [] =
    Crashed EOFError
      {| client := TCPClient_init; server := TCPServer_init;
         eventQueue := [timeout_entry]; stdin := []; stdout := [Prompt];
         rand_calls := O |} /\
  TCPSimulator lpp coin (S (S fuel)) (""%string :: rest) =
    Crashed (AttributeError "TCPClient" "ack")
      {| client := TCPClient_init; server := TCPServer_init;
         eventQueue := []; stdin := rest; stdout := [Prompt];
         rand_calls := O |}.
Proof.
  unfold TCPSimulator. rewrite !initial_world_eq. split.
  - eapply event_loop_crash; [ reflexivity | ].
    cbn [dispatch]. rewrite TCPClient_requestMessage_eq. reflexivity.
  - erewrite event_loop_one_event.
    2: { eexists _, _, _. split; [ reflexivity | ].
         cbn [dispatch]. rewrite TCPClient_requestMessage_eq. reflexivity. }
    eapply event_loop_crash; [ reflexivity | ].
    rewrite dispatch_TimeoutEvent_eq. reflexivity.
Qed.

(** X3.  A run whose first packet is lost.  For every non-empty
    message, if the first value drawn fails the loss test, nothing was
    scheduled for the packet, so the next event is the driver's
    [TimeoutEvent]; the client's [ack] is 0 then and the dispatch
    raises [AttributeError].  The run stops there: the message was
    announced by the client and no byte of it has reached the server. *)
Theorem X3_first_packet_lost (lpp : Q) (coin : nat -> bool) (msg : string)
    (rest : list string) (fuel : nat) :
  msg <> ""%string ->
  delivered lpp (Z.b2z (coin O)) = false ->
  TCPSimulator lpp coin (S (S fuel)) (msg :: rest) =
    Crashed (AttributeError "TimeoutEvent" "server")
      {| client := {| acknowledged := []; c_msgBytes := Some (encode msg);
                      c_seq := Some 0; c_ack := Some 0 |};
         server := TCPServer_init;
         eventQueue := []; stdin := rest;
         stdout := [Prompt; ClientSends msg]; rand_calls := 1%nat |}.
Proof.
  intros Hne Hdrop.
  assert (Hnz : (String.length msg =? 0)%nat = false)
    by (destruct msg; [ contradiction | reflexivity ]).
  unfold TCPSimulator. rewrite initial_world_eq.
  erewrite event_loop_one_event.
  2: { eexists _, _, _. split; [ reflexivity | ].
       cbn [dispatch]. rewrite TCPClient_requestMessage_eq.
       cbn [with_eventQueue stdin client server eventQueue stdout rand_calls].
       rewrite Hnz. unfold queue_after_send. rewrite Hdrop. reflexivity. }
  eapply event_loop_crash; [ reflexivity | ].
  rewrite dispatch_TimeoutEvent_eq. reflexivity.
Qed.

Lemma X3_first_packet_lost_witness :
  "HELLO"%string <> ""%string /\
  delivered LOST_PACKET_PROBABILITY_default (Z.b2z (always_zero O)) = false /\
  TCPSimulator LOST_PACKET_PROBABILITY_default always_zero 2
               ["HELLO"%string; ""%string] =
    Crashed (AttributeError "TimeoutEvent" "server")
      {| client := {| acknowledged := []; c_msgBytes := Some (encode "HELLO");
                      c_seq := Some 0; c_ack := Some 0 |};
         server := TCPServer_init;
         eventQueue := []; stdin := [""%string];
         stdout := [Prompt; ClientSends "HELLO"]; rand_calls := 1%nat |}.
Proof.
  split; [ discriminate | ]. split; [ reflexivity | ].
  apply (X3_first_packet_lost LOST_PACKET_PROBABILITY_default always_zero
           "HELLO"%string [""%string] O); [ discriminate | reflexivity ].
Defined.

(** ** Cutting the message into packets *)

Lemma next_packet_data (msgBytes : list byte) (seq ack : Z) :
  p_data (next_packet msgBytes seq ack) =
  py_slice msgBytes seq (seq + Z.min MAX_PACKET_DATA (py_len msgBytes - seq)).
Proof. unfold next_packet. cbv zeta. destruct (_ =? _); reflexivity. Qed.

Lemma next_packet_FIN (msgBytes : list byte) (seq ack : Z) :
  p_FIN (next_packet msgBytes seq ack) =
  (py_len msgBytes - seq <=? MAX_PACKET_DATA).
Proof.
  destruct (next_packet_fields msgBytes seq ack) as (_ & _ & _ & Hf).
  rewrite Hf. unfold MAX_PACKET_DATA.
  destruct (Z.eqb_spec (seq + Z.min 4 (py_len msgBytes - seq)) (py_len msgBytes));
    destruct (Z.leb_spec (py_len msgBytes - seq) 4); try reflexivity; lia.
Qed.

Lemma next_packet_payload_length (msgBytes : list byte) (seq ack : Z) :
  0 <= seq <= py_len msgBytes ->
  py_len (p_data (next_packet msgBytes seq ack)) =
  Z.min MAX_PACKET_DATA (py_len msgBytes - seq).
Proof.
  intros Hr. rewrite next_packet_data. unfold MAX_PACKET_DATA.
  rewrite py_slice_length by lia. lia.
Qed.

(** X4.  The packet [sendNextPacket] builds at the offset [seq] of a
    message, for every integer [seq].  It carries FIN exactly when at
    most [MAX_PACKET_DATA] bytes lie between [seq] and the end of the
    message, also when [seq] is at or beyond the end.  For an offset
    inside the message its payload is the bytes from [seq] on, four of
    them or as many as are left, and it ends inside the message; at or
    beyond the end the payload is empty. *)
Theorem X4_next_packet_contract (msgBytes : list byte) (seq ack : Z) :
  let p := next_packet msgBytes seq ack in
  p_seq p = seq /\ p_ack p = ack /\ p_ACK p = true /\
  p_FIN p = (py_len msgBytes - seq <=? MAX_PACKET_DATA) /\
  (0 <= seq <= py_len msgBytes ->
   p_data p = firstn (Z.to_nat (Z.min MAX_PACKET_DATA (py_len msgBytes - seq)))
                     (skipn (Z.to_nat seq) msgBytes) /\
   py_len (p_data p) = Z.min MAX_PACKET_DATA (py_len msgBytes - seq) /\
   p_seq p + py_len (p_data p) <= py_len msgBytes) /\
  (py_len msgBytes <= seq -> p_data p = []).
Proof.
  cbv zeta.
  destruct (next_packet_fields msgBytes seq ack) as (Hs & Ha & Hk & Hf).
  assert (Hdata : p_data (next_packet msgBytes seq ack) =
                  py_slice msgBytes seq
                    (seq + Z.min MAX_PACKET_DATA (py_len msgBytes - seq))).
  { unfold next_packet. cbv zeta. destruct (_ =? _); reflexivity. }
  repeat (split; [ assumption | ]).
  unfold MAX_PACKET_DATA in *. split; [ | split ].
  - rewrite Hf.
    destruct (Z.eqb_spec (seq + Z.min 4 (py_len msgBytes - seq)) (py_len msgBytes));
      destruct (Z.leb_spec (py_len msgBytes - seq) 4); try reflexivity; lia.
  - intros Hr. rewrite Hs, Hdata.
    rewrite py_slice_in_range by lia.
    replace (seq + Z.min 4 (py_len msgBytes - seq) - seq)
      with (Z.min 4 (py_len msgBytes - seq)) by lia.
    split; [ reflexivity | ].
    unfold py_len in *. rewrite length_firstn, length_skipn. lia.
  - intros Hr. rewrite Hdata. unfold py_slice, slice_bound.
    pose proof (Nat2Z.is_nonneg (List.length msgBytes)) as Hl.
    unfold py_len in *.
    destruct (Z.ltb_spec seq 0); [ lia | ].
    destruct (Z.ltb_spec (seq + Z.min 4 (Z.of_nat (List.length msgBytes) - seq)) 0);
      [ lia | ].
    replace (Z.to_nat _) with O by lia. reflexivity.
Qed.

Lemma X4_next_packet_contract_witness :
  0 <= 4 <= py_len ex_message /\
  p_data (next_packet ex_message 4 1) =
    firstn (Z.to_nat (Z.min MAX_PACKET_DATA (py_len ex_message - 4)))
           (skipn (Z.to_nat 4) ex_message) /\
  py_len ex_message <= 8 /\
  p_data (next_packet ex_message 8 2) = [].
Proof.
  split; [ cbn; lia | ].
  destruct (X4_next_packet_contract ex_message 4 1) as (_ & _ & _ & _ & H & _).
  destruct (X4_next_packet_contract ex_message 8 2) as (_ & _ & _ & _ & _ & H').
  split; [ apply H; cbn; lia | ].
  split; [ cbn; lia | apply H'; cbn; lia ].
Defined.

(** ** One round trip *)

(** X5.  A data packet and its acknowledgment.  The client has the
    message [m]; the packet built at an offset [s] inside the message,
    with the client's count [a], reaches the server, whose call
    returns.  Then the reply of the server acknowledges the end of the
    payload, [s + MAX_PACKET_DATA] or the end of the message, and
    repeats the FIN flag; and when the client has taken that reply, its
    [seq] is that offset and its [ack] is [a + 1].  So a round trip
    moves the client on by exactly the bytes the packet carried, and
    [ack] counts the round trips of the message. *)
Theorem X5_round_trip (lpp : Q) (coin : nat -> bool) (t : Z) (w : World)
    (m : list byte) (s a : Z) :
  c_msgBytes (client w) = Some m ->
  0 <= s < py_len m ->
  let p := next_packet m s a in
  let r1 := TCPServer_receivePacket p t w in
  returns r1 = true ->
  exists reply,
    eventQueue (final_world r1) =
      enqueue (eventQueue w) (ReceivePacketEvent Client reply)
              (t + TRANSMISSION_DELAY) /\
    p_ack reply = Z.min (s + MAX_PACKET_DATA) (py_len m) /\
    p_FIN reply = p_FIN p /\
    let r2 := TCPClient_receivePacket lpp coin reply (t + TRANSMISSION_DELAY)
                                      (final_world r1) in
    returns r2 = true /\
    c_seq (client (final_world r2)) = Some (Z.min (s + MAX_PACKET_DATA) (py_len m)) /\
    c_ack (client (final_world r2)) = Some (a + 1).
Proof.
  intros Hm Hs. cbv zeta.
  destruct (next_packet_fields m s a) as (Ps & Pa & _ & _).
  assert (Hlen : py_len (p_data (next_packet m s a)) =
                 Z.min MAX_PACKET_DATA (py_len m - s)).
  { assert (Hdata : p_data (next_packet m s a) =
                    py_slice m s (s + Z.min MAX_PACKET_DATA (py_len m - s))).
    { unfold next_packet. cbv zeta. destruct (_ =? _); reflexivity. }
    rewrite Hdata. unfold MAX_PACKET_DATA. rewrite py_slice_length by lia. lia. }
  rewrite TCPServer_receivePacket_eq.
  destruct (_ && _); cbn [returns]; [ discriminate | intros _ ].
  eexists. cbn [final_world eventQueue]. split; [ reflexivity | ].
  cbn [p_ack p_FIN]. rewrite Ps, Pa, Hlen. unfold MAX_PACKET_DATA.
  split; [ lia | ]. split; [ reflexivity | ].
  rewrite TCPClient_receivePacket_eq. cbn [client c_msgBytes p_ack p_seq].
  rewrite Hm.
  destruct (_ <? _); cbn [returns final_world client with_client c_seq c_ack];
    repeat split; f_equal; lia.
Qed.

Lemma X5_round_trip_witness :
  c_msgBytes (client ex_client_world) = Some ex_message /\
  0 <= 0 < py_len ex_message /\
  returns (TCPServer_receivePacket (next_packet ex_message 0 0) 5
                                   ex_client_world) = true /\
  exists reply,
    c_seq (client (final_world
      (TCPClient_receivePacket LOST_PACKET_PROBABILITY_default always_one reply
         (5 + TRANSMISSION_DELAY)
         (final_world (TCPServer_receivePacket (next_packet ex_message 0 0) 5
                                               ex_client_world)))))
    = Some (Z.min (0 + MAX_PACKET_DATA) (py_len ex_message)).
Proof.
  split; [ reflexivity | ]. split; [ cbn; lia | ]. split; [ reflexivity | ].
  destruct (X5_round_trip LOST_PACKET_PROBABILITY_default always_one 5
              ex_client_world ex_message 0 0 eq_refl)
    as (reply & _ & _ & _ & _ & H & _); [ cbn; lia | reflexivity | ].
  exists reply. exact H.
Defined.

(** ** What a dispatch does to the queue *)

Lemma Forall_enqueue (P : TCPEvent * Z -> Prop) (q : PriorityQueue)
    (e : TCPEvent) (t : Z) :
  Forall P (enqueue q e t) <-> P (e, t) /\ Forall P q.
Proof.
  induction q as [| [e' t'] q IH]; cbn [enqueue].
  - split; [ intros H; inversion H; auto | intros [H1 H2]; auto ].
  - destruct (t <? t').
    + split; [ intros H; inversion H; auto | intros [H1 H2]; auto ].
    + split.
      * intros H. inversion H as [| x l Hx Hl]; subst.
        apply IH in Hl. destruct Hl. auto.
      * intros [H1 H2]. inversion H2 as [| x l Hx Hl]; subst.
        constructor; [ assumption | apply IH; auto ].
Qed.

Lemma In_enqueue (q : PriorityQueue) (e : TCPEvent) (t : Z) (x : TCPEvent * Z) :
  In x (enqueue q e t) <-> x = (e, t) \/ In x q.
Proof.
  induction q as [| [e' t'] q IH]; cbn [enqueue].
  - cbn. intuition congruence.
  - destruct (t <? t'); cbn [In]; [ intuition congruence | ].
    rewrite IH. intuition congruence.
Qed.

Lemma length_enqueue (q : PriorityQueue) (e : TCPEvent) (t : Z) :
  List.length (enqueue q e t) = S (List.length q).
Proof.
  induction q as [| [e' t'] q IH]; cbn [enqueue]; [ reflexivity | ].
  destruct (t <? t'); cbn [List.length]; [ reflexivity | now rewrite IH ].
Qed.

(** [enqueue] keeps a queue in the order of its times. *)
Lemma enqueue_sorted (q : PriorityQueue) (e : TCPEvent) (t : Z) :
  queue_sorted q -> queue_sorted (enqueue q e t).
Proof.
  unfold queue_sorted.
  induction q as [| [e' t'] q IH]; intros Hs; cbn [enqueue].
  - constructor; constructor.
  - apply StronglySorted_inv in Hs. destruct Hs as [Hq Hall].
    destruct (Z.ltb_spec t t') as [Hlt | Hge].
    + constructor; [ constructor; assumption | ].
      constructor; [ cbn; lia | ].
      eapply Forall_impl; [ | exact Hall ]. cbn. intros x Hx. lia.
    + constructor; [ apply IH; assumption | ].
      apply Forall_enqueue. split; [ cbn; lia | assumption ].
Qed.

Lemma enqueue_all_sorted (evs : list (TCPEvent * Z)) :
  forall q, queue_sorted q -> queue_sorted (enqueue_all q evs).
Proof.
  induction evs as [| [e t] evs IH]; intros q Hq; cbn; [ assumption | ].
  apply IH. apply enqueue_sorted. assumption.
Qed.

Lemma Forall_enqueue_all (P : TCPEvent * Z -> Prop) (evs : list (TCPEvent * Z)) :
  forall q, Forall P (enqueue_all q evs) <-> Forall P evs /\ Forall P q.
Proof.
  induction evs as [| [e t] evs IH]; intros q; cbn [enqueue_all fold_left].
  - intuition.
  - change (fold_left _ evs ?q0) with (enqueue_all q0 evs).
    rewrite IH. cbn [fst snd]. rewrite Forall_enqueue.
    split.
    + intros (H1 & H2 & H3). split; [ constructor | ]; assumption.
    + intros (H1 & H3). inversion H1; subst. auto.
Qed.

Lemma queue_after_send_scheduled (lpp : Q) (r : Z) (p : TCPPacket) (t : Z)
    (q : PriorityQueue) :
  exists evs, queue_after_send lpp r p t q = enqueue_all q evs /\
              scheduled_at t evs.
Proof.
  unfold queue_after_send, scheduled_at.
  destruct (delivered lpp r); [ destruct (p_FIN p) | ].
  - exists [(ReceivePacketEvent Server p, t + TRANSMISSION_DELAY);
            (RequestMessageEvent, t + TIMEOUT)].
    split; [ reflexivity | ]. right. right. eauto.
  - exists [(ReceivePacketEvent Server p, t + TRANSMISSION_DELAY)].
    split; [ reflexivity | ]. right. left. eauto.
  - exists []. split; [ reflexivity | ]. now left.
Qed.

(** Whatever event is dispatched, and whether the dispatch returns or
    raises, the queue it leaves is the queue it found with the events
    it scheduled added. *)
Lemma dispatch_enqueues (lpp : Q) (coin : nat -> bool) (e : TCPEvent) (t : Z)
    (w : World) :
  exists evs,
    eventQueue (final_world (dispatch lpp coin e t w)) =
      enqueue_all (eventQueue w) evs /\
    scheduled_at t evs.
Proof.
  destruct e as [| [|] p | s].
  - cbn [dispatch]. rewrite TCPClient_requestMessage_eq.
    destruct (stdin w) as [| l ls];
      [ | destruct (String.length l =? 0)%nat ]; cbn [final_world eventQueue].
    + exists []. split; [ reflexivity | now left ].
    + exists []. split; [ reflexivity | now left ].
    + apply queue_after_send_scheduled.
  - cbn [dispatch]. rewrite TCPClient_receivePacket_eq.
    destruct (c_msgBytes (client w)) as [m |];
      [ destruct (p_ack p <? py_len m) | ];
      cbn [final_world eventQueue with_client].
    + apply queue_after_send_scheduled.
    + exists []. split; [ reflexivity | now left ].
    + exists []. split; [ reflexivity | now left ].
  - cbn [dispatch]. rewrite TCPServer_receivePacket_eq.
    destruct (_ && _); cbn [final_world eventQueue with_server].
    + exists []. split; [ reflexivity | now left ].
    + match goal with
      | |- context [enqueue _ ?e ?t'] => exists [(e, t')]
      end.
      split; [ reflexivity | ]. right. left. eauto.
  - rewrite dispatch_TimeoutEvent_eq.
    exists []. split; [ | now left ].
    destruct s as [| p];
      [ destruct (c_ack (client w)) as [a |]; [ destruct (truthy a) | ]
      | destruct (truthy (p_ack p)) ]; reflexivity.
Qed.

Lemma scheduled_at_later (t : Z) (evs : list (TCPEvent * Z)) :
  scheduled_at t evs ->
  (List.length evs <= 2)%nat /\
  Forall (fun x => snd x = t + TRANSMISSION_DELAY \/ snd x = t + TIMEOUT) evs.
Proof.
  intros [-> | [(h & p & ->) | (p & ->)]]; cbn [List.length]; split; try lia.
  - constructor.
  - constructor; [ now left | constructor ].
  - constructor; [ now left | ]. constructor; [ now right | constructor ].
Qed.

(** X6.  What a dispatch does to the queue, for every event, time and
    world, whether the dispatch returns or raises: it removes nothing
    and reorders nothing; the queue it leaves is the queue it found
    with at most two events enqueued, and each of them is due after the
    time of the dispatch, one transmission delay or one timeout later. *)
Theorem X6_dispatch_schedules_later (lpp : Q) (coin : nat -> bool)
    (e : TCPEvent) (t : Z) (w : World) :
  exists evs,
    eventQueue (final_world (dispatch lpp coin e t w)) =
      enqueue_all (eventQueue w) evs /\
    (List.length evs <= 2)%nat /\
    Forall (fun x => t < snd x /\
                     (snd x = t + TRANSMISSION_DELAY \/ snd x = t + TIMEOUT)) evs.
Proof.
  destruct (dispatch_enqueues lpp coin e t w) as (evs & Hq & Hs).
  exists evs. split; [ exact Hq | ].
  destruct (scheduled_at_later t evs Hs) as [Hlen Hall].
  split; [ exact Hlen | ].
  eapply Forall_impl; [ | exact Hall ].
  intros x Hx. split; [ | exact Hx ].
  rewrite TIMEOUT_eq in Hx. unfold TRANSMISSION_DELAY in Hx. lia.
Qed.

(** ** The order of the events of a run *)

Lemma Forall_le_trans (lb t : Z) (q : PriorityQueue) :
  lb <= t -> Forall (fun y => t <= snd y) q -> Forall (fun y => lb <= snd y) q.
Proof.
  intros Hle Hall. eapply Forall_impl; [ | exact Hall ].
  cbn. intros y Hy. lia.
Qed.

Lemma event_trace_sorted (lpp : Q) (coin : nat -> bool) (fuel : nat) :
  forall (w : World) (lb : Z),
    queue_sorted (eventQueue w) ->
    Forall (fun y => lb <= snd y) (eventQueue w) ->
    queue_sorted (event_trace lpp coin fuel w) /\
    Forall (fun y => lb <= snd y) (event_trace lpp coin fuel w).
Proof.
  induction fuel as [| fuel IH]; intros w lb Hs Hlb; cbn [event_trace].
  - split; constructor.
  - unfold dequeue_event.
    destruct (eventQueue w) as [| [e t] q] eqn:Hq; cbn [dequeueWithPriority].
    + split; constructor.
    + cbn [fst snd].
      apply StronglySorted_inv in Hs. destruct Hs as [Hsq Hall].
      cbn [snd] in Hall.
      assert (Hlt : lb <= t) by (inversion Hlb; assumption).
      destruct (dispatch_enqueues lpp coin e t (with_eventQueue q w))
        as (evs & Hq' & Hsched).
      cbn [with_eventQueue eventQueue] in Hq'.
      destruct (scheduled_at_later t evs Hsched) as [_ Hlater].
      destruct (dispatch lpp coin e t (with_eventQueue q w)) as [u w' | err w'];
        cbn [final_world] in Hq'.
      * destruct (IH w' t) as [Hs' Hall'].
        { rewrite Hq'. apply enqueue_all_sorted. exact Hsq. }
        { rewrite Hq'. apply Forall_enqueue_all. split; [ | exact Hall ].
          eapply Forall_impl; [ | exact Hlater ].
          intros x Hx. rewrite TIMEOUT_eq in Hx.
          unfold TRANSMISSION_DELAY in Hx. lia. }
        split.
        -- constructor; [ exact Hs' | exact Hall' ].
        -- constructor; [ exact Hlt | ].
           apply (Forall_le_trans lb t); assumption.
      * split; [ repeat constructor | ].
        constructor; [ exact Hlt | constructor ].
Qed.

(** X7.  The simulated clock never runs backwards: in every run of the
    simulator, for every input, probability of loss and random source
    and after any number of events, the events were dispatched in the
    order of their times, and none before time 0. *)
Theorem X7_events_in_time_order (lpp : Q) (coin : nat -> bool) (fuel : nat)
    (lines : list string) :
  queue_sorted (event_trace lpp coin fuel (initial_world lines)) /\
  Forall (fun x => 0 <= snd x) (event_trace lpp coin fuel (initial_world lines)).
Proof.
  apply event_trace_sorted; rewrite initial_world_eq; cbn [eventQueue];
    unfold timeout_entry; rewrite TIMEOUT_eq.
  - repeat (constructor; cbn [snd]). lia.
  - repeat (constructor; cbn [snd]); lia.
Qed.

(** ** One packet at a time *)

Lemma requests_pending_enqueue (q : PriorityQueue) (e : TCPEvent) (t : Z) :
  requests_pending (enqueue q e t) =
  (requests_pending q + (if is_RequestMessageEvent (e, t) then 1 else 0))%nat.
Proof. apply filter_enqueue_length. Qed.

Lemma filter_length_zero (f : TCPEvent * Z -> bool) (q : PriorityQueue) :
  List.length (filter f q) = O <-> Forall (fun x => f x = false) q.
Proof.
  induction q as [| x q IH]; cbn [filter].
  - split; [ constructor | reflexivity ].
  - destruct (f x) eqn:Hx; cbn [List.length].
    + split; [ discriminate | ].
      intros H. inversion H; subst. congruence.
    + rewrite IH. split; [ intros H; constructor; assumption | ].
      intros H. inversion H; assumption.
Qed.

Lemma no_requests_In (q : PriorityQueue) (t : Z) :
  requests_pending q = O -> ~ In (RequestMessageEvent, t) q.
Proof.
  intros H Hin. apply filter_length_zero in H.
  rewrite Forall_forall in H. specialize (H _ Hin). discriminate H.
Qed.

Lemma entry_ok_not_packet (c : TCPClient) (q : PriorityQueue) (x : TCPEvent * Z) :
  is_ReceivePacketEvent x = false -> entry_ok c q x.
Proof.
  destruct x as [[| h p | s] t]; cbn; [ trivial | discriminate | trivial ].
Qed.

Lemma Forall_entry_ok_no_packets (c : TCPClient) (q0 q : PriorityQueue) :
  packets_in_transit q = O -> Forall (entry_ok c q0) q.
Proof.
  intros H. apply filter_length_zero in H.
  eapply Forall_impl; [ | exact H ].
  intros x Hx. apply entry_ok_not_packet. exact Hx.
Qed.

(** A queue without packets satisfies the invariant. *)
Lemma stop_and_wait_on_idle (c : TCPClient) (q : PriorityQueue) :
  queue_sorted q -> packets_in_transit q = O ->
  (requests_pending q <= 1)%nat -> stop_and_wait_on c q.
Proof.
  intros Hs HN HR. repeat split; try assumption; [ lia | ].
  apply Forall_entry_ok_no_packets. exact HN.
Qed.

(** Sending into a queue that holds neither a packet nor a request
    keeps the invariant. *)
Lemma stop_and_wait_on_send (lpp : Q) (r : Z) (c : TCPClient)
    (q : PriorityQueue) (m : list byte) (s a t : Z) :
  queue_sorted q -> packets_in_transit q = O -> requests_pending q = O ->
  c_msgBytes c = Some m -> 0 <= s <= py_len m ->
  stop_and_wait_on c (queue_after_send lpp r (next_packet m s a) t q).
Proof.
  intros Hs HN HR Hm Hr.
  destruct (next_packet_fields m s a) as (Ps & _ & _ & _).
  pose proof (next_packet_data_length m s a) as Hlen.
  pose proof (next_packet_payload_length m s a Hr) as Hpay.
  pose proof (next_packet_FIN m s a) as Hfin.
  unfold queue_after_send.
  destruct (delivered lpp r); [ | apply stop_and_wait_on_idle; auto; lia ].
  destruct (p_FIN (next_packet m s a)) eqn:HF.
  - (* the packet and the request that follows it *)
    unfold stop_and_wait_on.
    split; [ apply enqueue_sorted, enqueue_sorted; exact Hs | ].
    split; [ unfold packets_in_transit in *;
             rewrite !filter_enqueue_length, HN; cbn; lia | ].
    split; [ unfold requests_pending in *;
             rewrite !filter_enqueue_length, HR; cbn; lia | ].
    apply Forall_enqueue. split; [ exact I | ].
    apply Forall_enqueue. split; [ | apply Forall_entry_ok_no_packets; exact HN ].
    cbn [entry_ok]. rewrite Ps. split; [ lia | ]. split; [ lia | ].
    intros t' Hin. apply In_enqueue in Hin.
    destruct Hin as [Heq | Hin].
    + injection Heq as ->. rewrite TIMEOUT_eq. unfold TRANSMISSION_DELAY.
      split; [ lia | ]. exists m. split; [ exact Hm | ].
      symmetry in Hfin. unfold MAX_PACKET_DATA in *.
      apply Z.leb_le in Hfin. lia.
    + apply In_enqueue in Hin. destruct Hin as [Heq | Hin]; [ discriminate | ].
      exfalso. exact (no_requests_In q t' HR Hin).
  - (* the packet alone *)
    unfold stop_and_wait_on.
    split; [ apply enqueue_sorted; exact Hs | ].
    split; [ unfold packets_in_transit in *;
             rewrite !filter_enqueue_length, HN; cbn; lia | ].
    split; [ unfold requests_pending in *;
             rewrite !filter_enqueue_length, HR; cbn; lia | ].
    apply Forall_enqueue. split; [ | apply Forall_entry_ok_no_packets; exact HN ].
    cbn [entry_ok]. rewrite Ps. split; [ lia | ]. split; [ lia | ].
    intros t' Hin. apply In_enqueue in Hin.
    destruct Hin as [Heq | Hin]; [ discriminate | ].
    exfalso. exact (no_requests_In q t' HR Hin).
Qed.

Lemma packets_in_transit_cons (x : TCPEvent * Z) (q : PriorityQueue) :
  packets_in_transit (x :: q) =
  ((if is_ReceivePacketEvent x then 1 else 0) + packets_in_transit q)%nat.
Proof.
  unfold packets_in_transit. cbn [filter].
  destruct (is_ReceivePacketEvent x); reflexivity.
Qed.

Lemma requests_pending_cons (x : TCPEvent * Z) (q : PriorityQueue) :
  requests_pending (x :: q) =
  ((if is_RequestMessageEvent x then 1 else 0) + requests_pending q)%nat.
Proof.
  unfold requests_pending. cbn [filter].
  destruct (is_RequestMessageEvent x); reflexivity.
Qed.

(** When a request is the earliest entry, no packet is in the queue:
    a request is due after the packets it waits behind. *)
Lemma request_first_no_packets (c : TCPClient) (t : Z) (q : PriorityQueue) :
  stop_and_wait_on c ((RequestMessageEvent, t) :: q) ->
  packets_in_transit q = O.
Proof.
  intros (Hs & _ & _ & Hok).
  apply StronglySorted_inv in Hs. destruct Hs as [_ Hall].
  inversion Hok as [| x l _ Hq]; subst.
  apply filter_length_zero. rewrite Forall_forall in *.
  intros [[| h p | s] t'] Hin; try reflexivity.
  exfalso. specialize (Hall _ Hin). specialize (Hq _ Hin).
  cbn [snd] in Hall.
  destruct h; cbn [entry_ok] in Hq.
  - destruct Hq as (_ & Hq). destruct (Hq t (or_introl eq_refl)). lia.
  - destruct Hq as (_ & _ & Hq). destruct (Hq t (or_introl eq_refl)). lia.
Qed.

(** The invariant outlives every dispatch. *)
Lemma stop_and_wait_step (lpp : Q) (coin : nat -> bool) (w : World)
    (e : TCPEvent) (t : Z) (q : PriorityQueue) :
  stop_and_wait w ->
  eventQueue w = (e, t) :: q ->
  stop_and_wait (final_world (dispatch lpp coin e t (with_eventQueue q w))).
Proof.
  unfold stop_and_wait. intros Hinv Hq. rewrite Hq in Hinv.
  pose proof Hinv as (Hs & HN & HR & Hok).
  apply StronglySorted_inv in Hs. destruct Hs as [Hsq _].
  rewrite packets_in_transit_cons in HN.
  rewrite requests_pending_cons in HR.
  inversion Hok as [| x l Hhead Htail]; subst x l.
  destruct e as [| [|] p | s].
  - (* a request *)
    pose proof (request_first_no_packets _ _ _ Hinv) as HN0.
    cbn in HR. assert (HR0 : requests_pending q = O) by lia.
    cbn [dispatch]. rewrite TCPClient_requestMessage_eq.
    cbn [with_eventQueue stdin client eventQueue].
    destruct (stdin w) as [| l ls];
      [ | destruct (String.length l =? 0)%nat ];
      cbn [final_world client eventQueue].
    + apply stop_and_wait_on_idle; auto; lia.
    + apply stop_and_wait_on_idle; auto; lia.
    + apply stop_and_wait_on_send; auto.
      pose proof (Nat2Z.is_nonneg (List.length (encode l))). unfold py_len. lia.
  - (* an acknowledgment reaches the client *)
    cbn in HN. assert (HN0 : packets_in_transit q = O) by lia.
    cbn in HR.
    cbn [entry_ok] in Hhead. destruct Hhead as (Hack & Hreq).
    cbn [dispatch]. rewrite TCPClient_receivePacket_eq.
    cbn [with_eventQueue client eventQueue].
    destruct (c_msgBytes (client w)) as [m |] eqn:Hm;
      [ destruct (Z.ltb_spec (p_ack p) (py_len m)) as [Hlt | Hge] | ];
      cbn [final_world client eventQueue with_client].
    + assert (HR0 : requests_pending q = O).
      { apply filter_length_zero. apply Forall_forall.
        intros [[| h p' | s] t'] Hin; try reflexivity.
        exfalso. destruct (Hreq t' (or_intror Hin)) as (_ & m' & Hm' & Hle).
        rewrite Hm in Hm'. injection Hm' as <-. lia. }
      apply stop_and_wait_on_send; auto. cbn [c_msgBytes]. lia.
    + apply stop_and_wait_on_idle; auto; lia.
    + apply stop_and_wait_on_idle; auto; lia.
  - (* a data packet reaches the server *)
    cbn in HN. assert (HN0 : packets_in_transit q = O) by lia.
    cbn in HR.
    cbn [entry_ok] in Hhead. destruct Hhead as (Hseq & Hlen & Hreq).
    cbn [dispatch]. rewrite TCPServer_receivePacket_eq.
    destruct (_ && _); cbn [final_world client eventQueue with_server with_eventQueue].
    + apply stop_and_wait_on_idle; auto; lia.
    + unfold stop_and_wait_on.
      split; [ apply enqueue_sorted; exact Hsq | ].
      split; [ unfold packets_in_transit in *;
               rewrite filter_enqueue_length, HN0; cbn; lia | ].
      split; [ unfold requests_pending in *;
               rewrite filter_enqueue_length; cbn; lia | ].
      apply Forall_enqueue.
      split; [ | apply Forall_entry_ok_no_packets; exact HN0 ].
      cbn [entry_ok p_ack].
      pose proof (Nat2Z.is_nonneg (List.length (p_data p))) as Hnn.
      unfold py_len in *. split; [ lia | ].
      intros t' Hin. apply In_enqueue in Hin.
      destruct Hin as [Heq | Hin]; [ discriminate | ].
      destruct (Hreq t' (or_intror Hin)) as (Ht' & Hends).
      split; [ unfold TRANSMISSION_DELAY; lia | exact Hends ].
  - (* a timeout *)
    cbn in HN. cbn in HR.
    assert (Hidle : stop_and_wait_on (client w) q).
    { unfold stop_and_wait_on. repeat split; try assumption; try lia.
      rewrite Forall_forall in *. intros x Hin. specialize (Htail x Hin).
      destruct x as [[| [|] p' | s'] t']; cbn [entry_ok] in *; try exact I.
      - destruct Htail as (H1 & H2). split; [ exact H1 | ].
        intros t'' Hin'. apply H2. now right.
      - destruct Htail as (H1 & H2 & H3). split; [ exact H1 | ].
        split; [ exact H2 | ]. intros t'' Hin'. apply H3. now right. }
    rewrite dispatch_TimeoutEvent_eq. cbn [with_eventQueue client].
    destruct s as [| p];
      [ destruct (c_ack (client w)) as [a |]; [ destruct (truthy a) | ]
      | destruct (truthy (p_ack p)) ]; exact Hidle.
Qed.

Lemma event_loop_stop_and_wait (lpp : Q) (coin : nat -> bool) (fuel : nat) :
  forall w, stop_and_wait w ->
            stop_and_wait (outcome_world (event_loop lpp coin fuel w)).
Proof.
  induction fuel as [| fuel IH]; intros w Hinv; cbn [event_loop].
  - destruct (isEmpty (eventQueue w)); exact Hinv.
  - destruct (eventQueue w) as [| [e t] q] eqn:Hq; cbn [isEmpty].
    + exact Hinv.
    + unfold loop_body, bind, dequeue_event. rewrite Hq.
      cbn [dequeueWithPriority fst snd].
      pose proof (stop_and_wait_step lpp coin w e t q Hinv Hq) as Hstep.
      destruct (dispatch lpp coin e t (with_eventQueue q w)) as [u w' | err w'];
        cbn [final_world outcome_world] in Hstep |- *;
        [ apply IH | ]; exact Hstep.
Qed.

Lemma outstanding_bytes_bound (c : TCPClient) (q0 q : PriorityQueue) :
  Forall (entry_ok c q0) q ->
  outstanding_bytes q <= MAX_PACKET_DATA * Z.of_nat (packets_in_transit q).
Proof.
  unfold MAX_PACKET_DATA.
  induction q as [| x q IH]; intros Hok.
  - cbn. lia.
  - inversion Hok as [| y l Hx Hq]; subst. specialize (IH Hq).
    rewrite packets_in_transit_cons. unfold outstanding_bytes in *.
    cbn [fold_right].
    destruct x as [[| [|] p | s] t];
      cbn [data_bytes is_ReceivePacketEvent fst] in *; try lia.
    cbn [entry_ok] in Hx. unfold MAX_PACKET_DATA in Hx. lia.
Qed.

(** X8.  The client sends one packet and waits.  In every run of the
    simulator, for every input, probability of loss and random source,
    the world reached after any number of events (the loop running,
    finished or stopped by an exception) has at most one packet in its
    queue, data or acknowledgment, at most [MAX_PACKET_DATA] payload
    bytes on their way to the server, and at most one request for a
    further message. *)
Theorem X8_one_packet_in_transit (lpp : Q) (coin : nat -> bool) (fuel : nat)
    (lines : list string) :
  let w := outcome_world (TCPSimulator lpp coin fuel lines) in
  (packets_in_transit (eventQueue w) <= 1)%nat /\
  outstanding_bytes (eventQueue w) <= MAX_PACKET_DATA /\
  (requests_pending (eventQueue w) <= 1)%nat.
Proof.
  cbv zeta. unfold TCPSimulator.
  assert (Hinit : stop_and_wait (initial_world lines)).
  { rewrite initial_world_eq. unfold stop_and_wait. cbn [client eventQueue].
    apply stop_and_wait_on_idle; [ | reflexivity | cbn; lia ].
    unfold queue_sorted, timeout_entry. rewrite TIMEOUT_eq.
    repeat (constructor; cbn [snd]). lia. }
  pose proof (event_loop_stop_and_wait lpp coin fuel _ Hinit) as (_ & HN & HR & Hok).
  split; [ exact HN | ]. split; [ | exact HR ].
  pose proof (outstanding_bytes_bound _ _ _ Hok) as Hb.
  unfold MAX_PACKET_DATA in *. lia.
Qed.

(** ** Every run stops *)

Lemma queue_cost_enqueue (c : TCPClient) (q : PriorityQueue) (e : TCPEvent)
    (t : Z) :
  queue_cost c (enqueue q e t) = queue_cost c q + entry_cost c (e, t).
Proof.
  unfold queue_cost.
  induction q as [| [e' t'] q IH]; cbn [enqueue fold_right]; [ lia | ].
  destruct (t <? t'); cbn [fold_right]; [ | rewrite IH ]; lia.
Qed.

Lemma queue_cost_no_packets (c c' : TCPClient) (q : PriorityQueue) :
  packets_in_transit q = O -> queue_cost c q = queue_cost c' q.
Proof.
  intros H. apply filter_length_zero in H. unfold queue_cost.
  induction H as [| [[| h p | s] t] q Hx Hq IH]; cbn [fold_right];
    [ reflexivity | | discriminate Hx | ];
    unfold entry_cost at 1 3; cbn [fst]; rewrite IH; reflexivity.
Qed.

Lemma entry_cost_pos (c : TCPClient) (x : TCPEvent * Z) : 1 <= entry_cost c x.
Proof.
  unfold entry_cost, remaining.
  destruct (fst x) as [| [|] p | s]; destruct (c_msgBytes c); lia.
Qed.

Lemma queue_cost_nonneg (c : TCPClient) (q : PriorityQueue) :
  0 <= queue_cost c q.
Proof.
  unfold queue_cost. induction q as [| x q IH]; cbn [fold_right]; [ lia | ].
  pose proof (entry_cost_pos c x). lia.
Qed.

Lemma lines_cost_nonneg (lines : list string) : 0 <= lines_cost lines.
Proof.
  unfold lines_cost, line_cost.
  induction lines as [| l lines IH]; cbn [fold_right]; lia.
Qed.

Lemma Forall_packet_inside_no_packets (c : TCPClient) (q : PriorityQueue) :
  packets_in_transit q = O -> Forall (packet_inside c) q.
Proof.
  intros H. apply filter_length_zero in H.
  eapply Forall_impl; [ | exact H ].
  intros [[| h p | s] t] Hx; cbn; [ trivial | discriminate Hx | trivial ].
Qed.

(** The queue [sendNextPacket] leaves after a packet that starts inside
    the message: what it adds costs less than an acknowledgment that
    asks for the same offset, and the packet carries a byte at least. *)
Lemma queue_after_send_progress (lpp : Q) (r : Z) (c : TCPClient)
    (q : PriorityQueue) (m : list byte) (s a t : Z) :
  packets_in_transit q = O ->
  c_msgBytes c = Some m -> 0 <= s < py_len m ->
  let q' := queue_after_send lpp r (next_packet m s a) t q in
  Forall (packet_inside c) q' /\
  queue_cost c q' <= queue_cost c q + 3 * (py_len m - s) + 2.
Proof.
  intros HN Hm Hs. cbv zeta.
  destruct (next_packet_fields m s a) as (Ps & _ & _ & _).
  assert (Hpay := next_packet_payload_length m s a).
  unfold MAX_PACKET_DATA in Hpay.
  unfold queue_after_send.
  destruct (delivered lpp r);
    [ | split; [ apply Forall_packet_inside_no_packets; exact HN | lia ] ].
  assert (Hin : packet_inside c (ReceivePacketEvent Server (next_packet m s a),
                                 t + TRANSMISSION_DELAY)).
  { cbn [packet_inside]. exists m. rewrite Ps.
    split; [ exact Hm | ]. split; [ exact Hs | ]. rewrite Hpay by lia. lia. }
  assert (Hcost : entry_cost c (ReceivePacketEvent Server (next_packet m s a),
                                t + TRANSMISSION_DELAY)
                  = 3 * (py_len m - s) + 1).
  { unfold entry_cost, remaining. cbn [fst]. rewrite Hm, Ps. lia. }
  destruct (p_FIN (next_packet m s a)).
  - split.
    + apply Forall_enqueue. split; [ exact I | ].
      apply Forall_enqueue. split; [ exact Hin | ].
      apply Forall_packet_inside_no_packets; exact HN.
    + rewrite !queue_cost_enqueue, Hcost. unfold entry_cost at 1. cbn [fst]. lia.
  - split.
    + apply Forall_enqueue. split; [ exact Hin | ].
      apply Forall_packet_inside_no_packets; exact HN.
    + rewrite queue_cost_enqueue, Hcost. lia.
Qed.

(** Every dispatch that returns takes the run nearer to its end. *)
Lemma progressing_step (lpp : Q) (coin : nat -> bool) (w : World)
    (e : TCPEvent) (t : Z) (q : PriorityQueue) :
  progressing w ->
  eventQueue w = (e, t) :: q ->
  let r := dispatch lpp coin e t (with_eventQueue q w) in
  progressing (final_world r) /\
  (returns r = true -> run_cost (final_world r) < run_cost w).
Proof.
  intros [Hsw Hin] Hq. cbv zeta.
  pose proof Hsw as Hsw'. unfold stop_and_wait in Hsw'. rewrite Hq in Hsw'.
  pose proof Hsw' as (_ & HN & _ & Hok).
  rewrite packets_in_transit_cons in HN.
  inversion Hok as [| x0 l0 Hhead _]; subst x0 l0.
  pose proof Hin as Hin'. rewrite Hq in Hin'.
  inversion Hin' as [| x1 l1 Hinh Hint]; subst x1 l1.
  pose proof (entry_cost_pos (client w) (e, t)) as Hpos.
  assert (Hcost : run_cost w =
                  entry_cost (client w) (e, t) + queue_cost (client w) q
                  + lines_cost (stdin w)).
  { unfold run_cost. rewrite Hq. reflexivity. }
  split; [ split; [ apply stop_and_wait_step; assumption | ] | ];
    [ | rewrite Hcost; unfold run_cost ].
  - (* the data packets of the queue stay inside the message *)
    destruct e as [| [|] p | s].
    + pose proof (request_first_no_packets _ _ _ Hsw') as HN0.
      cbn [dispatch]. rewrite TCPClient_requestMessage_eq.
      cbn [with_eventQueue stdin client eventQueue rand_calls].
      destruct (stdin w) as [| l ls];
        [ | destruct (Nat.eqb_spec (String.length l) 0) as [Hl | Hl] ];
        cbn [final_world client eventQueue];
        try (apply Forall_packet_inside_no_packets; exact HN0).
      apply (queue_after_send_progress lpp (Z.b2z (coin (rand_calls w)))
               {| acknowledged := acknowledged (client w);
                  c_msgBytes := Some (encode l);
                  c_seq := Some 0; c_ack := Some 0 |}
               q (encode l) 0 0 t HN0 eq_refl).
      rewrite py_len_encode. lia.
    + cbn in HN. assert (HN0 : packets_in_transit q = O) by lia.
      cbn [entry_ok] in Hhead. destruct Hhead as (Hack & _).
      cbn [dispatch]. rewrite TCPClient_receivePacket_eq.
      cbn [with_eventQueue client eventQueue rand_calls stdin].
      destruct (c_msgBytes (client w)) as [m |] eqn:Hm;
        [ destruct (Z.ltb_spec (p_ack p) (py_len m)) as [Hlt | Hge] | ];
        cbn [final_world client eventQueue with_client];
        try (apply Forall_packet_inside_no_packets; exact HN0).
      apply (queue_after_send_progress lpp (Z.b2z (coin (rand_calls w)))
               {| acknowledged := dict_set (acknowledged (client w)) p true;
                  c_msgBytes := Some m;
                  c_seq := Some (p_ack p); c_ack := Some (p_seq p + 1) |}
               q m (p_ack p) (p_seq p + 1) t HN0 eq_refl).
      lia.
    + cbn in HN. assert (HN0 : packets_in_transit q = O) by lia.
      cbn [dispatch]. rewrite TCPServer_receivePacket_eq.
      destruct (_ && _);
        cbn [final_world client eventQueue with_server with_eventQueue];
        [ apply Forall_packet_inside_no_packets; exact HN0 | ].
      apply Forall_enqueue. split; [ exact I | ].
      apply Forall_packet_inside_no_packets; exact HN0.
    + rewrite dispatch_TimeoutEvent_eq. cbn [with_eventQueue client].
      destruct s as [| p];
        [ destruct (c_ack (client w)) as [a |]; [ destruct (truthy a) | ]
        | destruct (truthy (p_ack p)) ]; exact Hint.
  - (* the cost goes down *)
    destruct e as [| [|] p | s].
    + pose proof (request_first_no_packets _ _ _ Hsw') as HN0.
      cbn [dispatch]. rewrite TCPClient_requestMessage_eq.
      cbn [with_eventQueue stdin client eventQueue rand_calls].
      destruct (stdin w) as [| l ls];
        [ | destruct (Nat.eqb_spec (String.length l) 0) as [Hl | Hl] ];
        cbn [final_world client eventQueue stdin returns];
        [ discriminate | | ]; intros _.
      * unfold lines_cost, line_cost. cbn [fold_right]. lia.
      * destruct (queue_after_send_progress lpp (Z.b2z (coin (rand_calls w)))
                    {| acknowledged := acknowledged (client w);
                       c_msgBytes := Some (encode l);
                       c_seq := Some 0; c_ack := Some 0 |}
                    q (encode l) 0 0 t HN0 eq_refl) as [_ Hc];
          [ rewrite py_len_encode; lia | ].
        rewrite (queue_cost_no_packets _ (client w) q HN0) in Hc.
        rewrite py_len_encode in Hc.
        unfold lines_cost, line_cost. cbn [fold_right]. lia.
    + cbn in HN. assert (HN0 : packets_in_transit q = O) by lia.
      cbn [entry_ok] in Hhead. destruct Hhead as (Hack & _).
      cbn [dispatch]. rewrite TCPClient_receivePacket_eq.
      cbn [with_eventQueue client eventQueue rand_calls stdin].
      destruct (c_msgBytes (client w)) as [m |] eqn:Hm;
        [ destruct (Z.ltb_spec (p_ack p) (py_len m)) as [Hlt | Hge] | ];
        cbn [final_world client eventQueue with_client stdin returns];
        [ | | discriminate ]; intros _.
      * destruct (queue_after_send_progress lpp (Z.b2z (coin (rand_calls w)))
                    {| acknowledged := dict_set (acknowledged (client w)) p true;
                       c_msgBytes := Some m;
                       c_seq := Some (p_ack p); c_ack := Some (p_seq p + 1) |}
                    q m (p_ack p) (p_seq p + 1) t HN0 eq_refl) as [_ Hc];
          [ lia | ].
        rewrite (queue_cost_no_packets _ (client w) q HN0) in Hc.
        assert (Hec : entry_cost (client w) (ReceivePacketEvent Client p, t)
                      = 3 * (py_len m - p_ack p) + 3).
        { unfold entry_cost, remaining. cbn [fst]. rewrite Hm. lia. }
        lia.
      * cbn [with_eventQueue eventQueue stdin].
        match goal with
        | |- queue_cost ?c q + _ < _ =>
            rewrite (queue_cost_no_packets c (client w) q HN0)
        end.
        lia.
    + cbn in HN. assert (HN0 : packets_in_transit q = O) by lia.
      cbn [packet_inside] in Hinh. destruct Hinh as (m & Hm & Hseq & Hd).
      cbn [dispatch]. rewrite TCPServer_receivePacket_eq.
      destruct (_ && _);
        cbn [final_world client eventQueue with_server with_eventQueue stdin
             returns];
        [ discriminate | intros _ ].
      rewrite queue_cost_enqueue.
      unfold entry_cost, remaining in *. cbn [fst p_ack] in *.
      rewrite Hm in *. lia.
    + rewrite dispatch_TimeoutEvent_eq. cbn [with_eventQueue client].
      destruct s as [| p];
        [ destruct (c_ack (client w)) as [a |]; [ destruct (truthy a) | ]
        | destruct (truthy (p_ack p)) ];
        cbn [returns final_world client eventQueue stdin with_eventQueue];
        try discriminate; intros _; lia.
Qed.

Lemma event_loop_halts (lpp : Q) (coin : nat -> bool) (fuel : nat) :
  forall w, progressing w -> run_cost w <= Z.of_nat fuel ->
            halted (event_loop lpp coin fuel w) = true.
Proof.
  induction fuel as [| fuel IH]; intros w Hp Hc; cbn [event_loop];
    destruct (eventQueue w) as [| [e t] q] eqn:Hq; cbn [isEmpty];
    try reflexivity.
  - exfalso. unfold run_cost in Hc. rewrite Hq in Hc.
    unfold queue_cost in Hc. cbn [fold_right] in Hc.
    fold (queue_cost (client w) q) in Hc.
    pose proof (entry_cost_pos (client w) (e, t)).
    pose proof (queue_cost_nonneg (client w) q).
    pose proof (lines_cost_nonneg (stdin w)). lia.
  - unfold loop_body, bind, dequeue_event. rewrite Hq.
    cbn [dequeueWithPriority fst snd].
    destruct (progressing_step lpp coin w e t q Hp Hq) as [Hp' Hlt].
    destruct (dispatch lpp coin e t (with_eventQueue q w)) as [u w' | err w'];
      cbn [final_world returns] in Hp', Hlt; [ | reflexivity ].
    apply IH; [ exact Hp' | ]. specialize (Hlt eq_refl). lia.
Qed.

(** Once the loop has stopped, more fuel changes nothing. *)
Lemma event_loop_more_fuel (lpp : Q) (coin : nat -> bool) (fuel : nat) :
  forall w fuel',
    halted (event_loop lpp coin fuel w) = true -> (fuel <= fuel')%nat ->
    event_loop lpp coin fuel' w = event_loop lpp coin fuel w.
Proof.
  induction fuel as [| fuel IH]; intros w fuel' Hh Hle.
  - destruct fuel'; cbn [event_loop] in *;
      destruct (isEmpty (eventQueue w)); try reflexivity; discriminate Hh.
  - destruct fuel' as [| fuel']; [ lia | ]. cbn [event_loop] in *.
    destruct (isEmpty (eventQueue w)); [ reflexivity | ].
    destruct (loop_body lpp coin w) as [u w' | err w']; [ | reflexivity ].
    apply IH; [ exact Hh | lia ].
Qed.

Lemma initial_world_progressing (lines : list string) :
  progressing (initial_world lines) /\
  run_cost (initial_world lines) = 2 + lines_cost lines.
Proof.
  rewrite initial_world_eq. split; [ split | reflexivity ].
  - unfold stop_and_wait. cbn [client eventQueue].
    apply stop_and_wait_on_idle; [ | reflexivity | cbn; lia ].
    unfold queue_sorted, timeout_entry. rewrite TIMEOUT_eq.
    repeat (constructor; cbn [snd]). lia.
  - cbn [client eventQueue]. apply Forall_packet_inside_no_packets. reflexivity.
Qed.

(** X9.  Every run stops.  For every input, probability of loss and
    random source, the event loop has stopped, on an empty queue or on
    an exception, after at most [run_bound lines] events: two, and for
    every line of the input two and three times its length.  With any
    larger bound on the number of events the run is the same run. *)
Theorem X9_every_run_stops (lpp : Q) (coin : nat -> bool)
    (lines : list string) (fuel : nat) :
  (run_bound lines <= fuel)%nat ->
  halted (TCPSimulator lpp coin fuel lines) = true /\
  TCPSimulator lpp coin fuel lines =
  TCPSimulator lpp coin (run_bound lines) lines.
Proof.
  intros Hle. unfold TCPSimulator.
  destruct (initial_world_progressing lines) as [Hp Hc].
  pose proof (lines_cost_nonneg lines) as Hnn.
  assert (Hb : halted (event_loop lpp coin (run_bound lines)
                         (initial_world lines)) = true).
  { apply event_loop_halts; [ exact Hp | ]. rewrite Hc. unfold run_bound. lia. }
  rewrite (event_loop_more_fuel lpp coin (run_bound lines) _ fuel Hb Hle).
  split; [ exact Hb | reflexivity ].
Qed.

Lemma X9_every_run_stops_witness :
  (run_bound ["HELLO"%string; ""%string] <= 30)%nat /\
  halted (TCPSimulator LOST_PACKET_PROBABILITY_default always_one 30
                       ["HELLO"%string; ""%string]) = true.
Proof.
  split; [ apply Nat.leb_le; reflexivity | ].
  apply (X9_every_run_stops LOST_PACKET_PROBABILITY_default always_one
           ["HELLO"%string; ""%string] 30).
  apply Nat.leb_le. reflexivity.
Defined.

(** ** Several messages without loss *)

Section SeveralMessages.

Variable coin : nat -> bool.
Variable result_out : list Output.

Let finishes (w : World) : Prop := finishes_with 0%Q coin w result_out.

Lemma sending_ready (msg : string) (out : list Output) (rest : list string)
    (T0 : Z) (tm : bool) (k : Z) (w : World) :
  sending msg out rest T0 tm k w ->
  exists tm' w',
    (tm' = false \/ T0 + 10 * k + 5 < TIMEOUT) /\
    sending msg out rest T0 tm' k w' /\
    (finishes w' -> finishes w).
Proof.
  intros Hd.
  destruct tm;
    [ destruct (Z.lt_ge_cases (T0 + 10 * k + 5) TIMEOUT) as [Hlt | Hge] | ].
  - exists true, w. auto.
  - destruct Hd as (HT & Hk & Hn & Hm & Hs & Ha & Hb & Hin & Hout & Hq).
    rewrite queue_of_cons_late in Hq by exact Hge.
    eexists false, (with_eventQueue _ w).
    split; [ now left | ]. split.
    + unfold sending.
      cbn [with_eventQueue client server eventQueue stdin stdout].
      split; [ discriminate | ].
      repeat (split; [ assumption | ]). reflexivity.
    + apply finishes_with_step.
      apply (timeout_passes 0%Q coin w _ k Hq Ha).
      rewrite TIMEOUT_eq in Hge. specialize (HT eq_refl). lia.
  - exists false, w. auto.
Qed.

Lemma acknowledging_ready (msg : string) (out : list Output)
    (rest : list string) (T0 : Z) (tm : bool) (k : Z) (w : World) :
  acknowledging msg out rest T0 tm k w ->
  exists tm' w',
    (tm' = false \/ T0 + 10 * k + 10 < TIMEOUT) /\
    acknowledging msg out rest T0 tm' k w' /\
    (finishes w' -> finishes w).
Proof.
  intros Hd.
  destruct tm;
    [ destruct (Z.lt_ge_cases (T0 + 10 * k + 10) TIMEOUT) as [Hlt | Hge] | ].
  - exists true, w. auto.
  - destruct Hd as (HT & Hk & Hn & Hm & Ha & Hin & Hcase & r & Rs & Ra & Hq).
    rewrite queue_of_cons_late in Hq by exact Hge.
    eexists false, (with_eventQueue _ w).
    split; [ now left | ]. split.
    + unfold acknowledging.
      cbn [with_eventQueue client server eventQueue stdin stdout].
      split; [ discriminate | ].
      repeat (split; [ assumption | ]). exists r. auto.
    + apply finishes_with_step.
      apply (timeout_passes 0%Q coin w _ k Hq Ha).
      rewrite TIMEOUT_eq in Hge. specialize (HT eq_refl). lia.
  - exists false, w. auto.
Qed.

Lemma between_messages_ready (out : list Output) (rest : list string)
    (tm : bool) (t : Z) (w : World) :
  between_messages out rest tm t w ->
  exists tm' w',
    (tm' = true -> t = 0) /\
    between_messages out rest tm' t w' /\
    (finishes w' -> finishes w).
Proof.
  intros Hd. destruct tm; [ | exists false, w; split; [ discriminate | auto ] ].
  destruct Hd as (HT & Hb & Hin & Hout & Hq).
  destruct (HT eq_refl) as [-> | (Hge & a & Ha & Hnz)].
  - exists true, w. split; [ reflexivity | ]. split; [ | auto ].
    unfold between_messages. auto.
  - rewrite queue_of_cons_late in Hq by exact Hge.
    eexists false, (with_eventQueue _ w).
    split; [ discriminate | ]. split.
    + unfold between_messages.
      cbn [with_eventQueue client server eventQueue stdin stdout].
      split; [ discriminate | ]. repeat (split; [ assumption | ]). reflexivity.
    + apply finishes_with_step.
      apply (timeout_passes 0%Q coin w _ a Hq Ha Hnz).
Qed.

(** The server receives packet [k] and sends its acknowledgment. *)
Lemma data_arrives_at (msg : string) (out : list Output) (rest : list string)
    (T0 : Z) (tm : bool) (k : Z) (w : World) :
  utf8_valid (encode msg) = true ->
  sending msg out rest T0 tm k w ->
  tm = false \/ T0 + 10 * k + 5 < TIMEOUT ->
  exists w', one_event 0%Q coin w w' /\ acknowledging msg out rest T0 tm k w'.
Proof.
  intros Hvalid (HT & Hk & Hn & Hm & Hs & Ha & Hb & Hin & Hout & Hq) Htm.
  rewrite queue_of_cons_early in Hq by exact Htm.
  destruct (next_packet_in_transfer (encode msg) k k Hk Hn) as (Ps & Pa & Pf & Pd).
  assert (Hdec : p_FIN (next_packet (encode msg) (4 * k) k)
                 && negb (utf8_valid (s_msgBytes (server w)
                            ++ p_data (next_packet (encode msg) (4 * k) k)))
                 = false).
  { rewrite Pf, Pd, Hb. unfold last_packet.
    destruct (Z.leb_spec (py_len (encode msg) - 4 * k) 4) as [Hl | Hl];
      [ | reflexivity ].
    rewrite Z.min_r by lia. rewrite py_slice_app by lia.
    rewrite py_slice_all, Hvalid. reflexivity. }
  eexists. split.
  - eexists _, _, _. split; [ exact Hq | ].
    cbn [dispatch]. rewrite TCPServer_receivePacket_eq.
    cbn [with_eventQueue server]. rewrite Hdec. reflexivity.
  - unfold acknowledging.
    cbn [client server eventQueue stdin stdout with_eventQueue s_msgBytes].
    rewrite Pf, Pd, Ps, Pa, Hb, Hout.
    repeat (split; [ assumption | ]).
    split.
    + unfold last_packet in *.
      destruct (Z.leb_spec (py_len (encode msg) - 4 * k) 4) as [Hl | Hl].
      * rewrite Z.min_r by lia.
        rewrite py_slice_app by lia. rewrite py_slice_all, decode_encode.
        rewrite <- app_assoc. split; reflexivity.
      * split; [ reflexivity | ].
        rewrite Z.min_l by lia. rewrite py_slice_app by lia.
        f_equal. lia.
    + exists {| p_seq := k;
                p_ack := 4 * k + py_len (py_slice (encode msg) (4 * k)
                           (Z.min (4 * k + 4) (py_len (encode msg))));
                p_ACK := true;
                p_FIN := last_packet (py_len (encode msg)) k;
                p_SYN := false; p_window := 0; p_data := [] |}.
      split; [ | split ].
      3: { rewrite enqueue_queue_of. f_equal.
           replace (T0 + 10 * k + 5 + TRANSMISSION_DELAY) with (T0 + 10 * k + 10)
             by (unfold TRANSMISSION_DELAY; lia).
           unfold followup_at. destruct (last_packet _ k); cbn [enqueue];
             [ | reflexivity ].
           destruct (Z.ltb_spec (T0 + 10 * k + 10) (T0 + 10 * k + 20));
             [ reflexivity | lia ]. }
      * reflexivity.
      * cbn [p_ack]. rewrite py_slice_length by lia. lia.
Qed.

(** The client receives the acknowledgment of packet [k], which was
    not the last one, and sends packet [k + 1]. *)
Lemma ack_arrives_more_at (msg : string) (out : list Output)
    (rest : list string) (T0 : Z) (tm : bool) (k : Z) (w : World) :
  acknowledging msg out rest T0 tm k w ->
  last_packet (py_len (encode msg)) k = false ->
  tm = false \/ T0 + 10 * k + 10 < TIMEOUT ->
  exists w', one_event 0%Q coin w w' /\ sending msg out rest T0 tm (k + 1) w'.
Proof.
  intros (HT & Hk & Hn & Hm & Ha & Hin & Hcase & r & Rs & Ra & Hq) Hlast Htm.
  rewrite Hlast in Hcase. destruct Hcase as [Hout Hb].
  rewrite queue_of_cons_early in Hq by exact Htm.
  unfold followup_at in Hq. rewrite Hlast in Hq.
  assert (Hk1 : 4 * (k + 1) < py_len (encode msg)).
  { unfold last_packet in Hlast.
    destruct (Z.leb_spec (py_len (encode msg) - 4 * k) 4); [ discriminate | lia ]. }
  assert (Ra' : p_ack r = 4 * (k + 1)) by lia.
  destruct (next_packet_in_transfer (encode msg) (k + 1) (k + 1)) as (_ & _ & Pf & _);
    [ lia | exact Hk1 | ].
  eexists. split.
  - eexists _, _, _. split; [ exact Hq | ].
    cbn [dispatch]. rewrite TCPClient_receivePacket_eq.
    cbn [with_eventQueue client server eventQueue stdin stdout rand_calls].
    rewrite Hm, Ra', Rs.
    destruct (Z.ltb_spec (4 * (k + 1)) (py_len (encode msg))); [ | lia ].
    reflexivity.
  - unfold sending.
    cbn [client server eventQueue stdin stdout c_msgBytes c_seq c_ack].
    repeat (split; [ assumption || lia || reflexivity | ]).
    unfold queue_after_send. rewrite delivered_zero, Pf.
    replace (T0 + 10 * k + 10 + TRANSMISSION_DELAY) with (T0 + 10 * (k + 1) + 5)
      by (unfold TRANSMISSION_DELAY; lia).
    replace (T0 + 10 * k + 10 + TIMEOUT) with (T0 + 10 * (k + 1) + 20)
      by (rewrite TIMEOUT_eq; lia).
    unfold followup_at.
    destruct (last_packet (py_len (encode msg)) (k + 1));
      rewrite !enqueue_queue_of; f_equal; cbn [enqueue]; try reflexivity.
    destruct (Z.ltb_spec (T0 + 10 * (k + 1) + 20) (T0 + 10 * (k + 1) + 5));
      [ lia | reflexivity ].
Qed.

(** The client receives the acknowledgment of the last packet. *)
Lemma ack_arrives_last_at (msg : string) (out : list Output)
    (rest : list string) (T0 : Z) (tm : bool) (k : Z) (w : World) :
  0 <= T0 ->
  acknowledging msg out rest T0 tm k w ->
  last_packet (py_len (encode msg)) k = true ->
  tm = false \/ T0 + 10 * k + 10 < TIMEOUT ->
  exists w',
    one_event 0%Q coin w w' /\
    between_messages (out ++ [Prompt; ClientSends msg; ServerReceives msg])
                     rest tm (T0 + 10 * k + 20) w'.
Proof.
  intros HT0 (HT & Hk & Hn & Hm & Ha & Hin & Hcase & r & Rs & Ra & Hq) Hlast Htm.
  rewrite Hlast in Hcase. destruct Hcase as [Hout Hb].
  rewrite queue_of_cons_early in Hq by exact Htm.
  unfold followup_at in Hq. rewrite Hlast in Hq.
  assert (Ra' : p_ack r = py_len (encode msg)).
  { unfold last_packet in Hlast.
    destruct (Z.leb_spec (py_len (encode msg) - 4 * k) 4); [ lia | discriminate ]. }
  eexists. split.
  - eexists _, _, _. split; [ exact Hq | ].
    cbn [dispatch]. rewrite TCPClient_receivePacket_eq.
    cbn [with_eventQueue client server eventQueue stdin stdout rand_calls].
    rewrite Hm, Ra', Z.ltb_irrefl. reflexivity.
  - unfold between_messages.
    cbn [with_client with_eventQueue client server eventQueue stdin stdout c_ack].
    split.
    { intros _. right. split; [ rewrite TIMEOUT_eq; lia | ].
      exists (p_seq r + 1). split; [ reflexivity | lia ]. }
    repeat (split; [ assumption | ]). reflexivity.
Qed.

(** The request reads the next message and sends its first packet. *)
Lemma request_reads_message (msg : string) (out : list Output)
    (rest : list string) (tm : bool) (t : Z) (w : World) :
  between_messages out (msg :: rest) tm t w ->
  (tm = true -> t = 0) ->
  msg <> ""%string ->
  exists w', one_event 0%Q coin w w' /\ sending msg out rest t tm 0 w'.
Proof.
  intros (_ & Hb & Hin & Hout & Hq) HT Hne.
  assert (Hlen : 0 < py_len (encode msg)).
  { rewrite py_len_encode. destruct msg; [ contradiction | cbn; lia ]. }
  assert (Hnz : (String.length msg =? 0)%nat = false)
    by (destruct msg; [ contradiction | reflexivity ]).
  destruct (next_packet_in_transfer (encode msg) 0 0) as (_ & _ & Pf & _);
    [ lia | lia | ].
  change (4 * 0) with 0 in Pf.
  assert (Hearly : tm = false \/ t < TIMEOUT).
  { destruct tm; [ right | now left ]. rewrite (HT eq_refl), TIMEOUT_eq. lia. }
  rewrite queue_of_cons_early in Hq by exact Hearly.
  eexists. split.
  - eexists _, _, _. split; [ exact Hq | ].
    cbn [dispatch]. rewrite TCPClient_requestMessage_eq.
    cbn [with_eventQueue stdin client server eventQueue stdout rand_calls].
    rewrite Hin, Hnz. reflexivity.
  - unfold sending.
    cbn [client server eventQueue stdin stdout c_msgBytes c_seq c_ack].
    assert (Hempty : py_slice (encode msg) 0 (4 * 0) = []).
    { rewrite py_slice_in_range by lia. reflexivity. }
    rewrite Hempty, Hout, <- app_assoc.
    split; [ exact HT | ].
    repeat (split; [ reflexivity || lia || assumption | ]).
    unfold queue_after_send. rewrite delivered_zero, Pf.
    replace (t + 10 * 0 + 5) with (t + TRANSMISSION_DELAY)
      by (unfold TRANSMISSION_DELAY; lia).
    unfold followup_at.
    replace (t + 10 * 0 + 20) with (t + TIMEOUT) by (rewrite TIMEOUT_eq; lia).
    destruct (last_packet (py_len (encode msg)) 0);
      rewrite !enqueue_queue_of; f_equal; cbn [enqueue]; try reflexivity.
    destruct (Z.ltb_spec (t + TIMEOUT) (t + TRANSMISSION_DELAY)); [ | reflexivity ].
    rewrite TIMEOUT_eq in *. unfold TRANSMISSION_DELAY in *. lia.
Qed.

(** The request reads the empty line, which ends the run. *)
Lemma request_reads_empty_line (out : list Output) (t : Z) (w : World) :
  between_messages out [""%string] false t w ->
  exists w',
    one_event 0%Q coin w w' /\ eventQueue w' = [] /\ stdout w' = out ++ [Prompt].
Proof.
  intros (_ & _ & Hin & Hout & Hq). cbn [queue_of] in Hq.
  eexists. split; [ | split ].
  - eexists _, _, _. split; [ exact Hq | ].
    cbn [dispatch]. rewrite TCPClient_requestMessage_eq.
    cbn [with_eventQueue stdin]. rewrite Hin. reflexivity.
  - reflexivity.
  - cbn [stdout with_eventQueue]. rewrite Hout. reflexivity.
Qed.

(** From packet [k] on, a message is transferred to its end; what
    happens afterwards is left to [next]. *)
Lemma session_finishes (msg : string) (out : list Output) (rest : list string)
    (T0 : Z) (m : nat) :
  utf8_valid (encode msg) = true ->
  0 <= T0 ->
  (forall (tm : bool) (t : Z) (w : World),
      T0 < t ->
      between_messages (out ++ [Prompt; ClientSends msg; ServerReceives msg])
                       rest tm t w ->
      finishes w) ->
  forall (k : Z) (tm : bool) (w : World),
    (Z.to_nat (py_len (encode msg) - 4 * k) <= m)%nat ->
    sending msg out rest T0 tm k w ->
    finishes w.
Proof.
  intros Hvalid HT0 next. induction m as [| m IH]; intros k tm w Hm Hd.
  - destruct Hd as (_ & Hk & Hn & _). lia.
  - assert (Hkn : 0 <= k /\ 4 * k < py_len (encode msg))
      by (destruct Hd as (_ & Hk & Hn & _); auto).
    destruct (sending_ready msg out rest T0 tm k w Hd)
      as (tm1 & w1 & Hr1 & Hd1 & K1).
    apply K1.
    destruct (data_arrives_at msg out rest T0 tm1 k w1 Hvalid Hd1 Hr1)
      as (w2 & S2 & Ha2).
    apply (finishes_with_step _ _ _ _ _ S2).
    destruct (acknowledging_ready msg out rest T0 tm1 k w2 Ha2)
      as (tm3 & w3 & Hr3 & Ha3 & K3).
    apply K3.
    destruct (last_packet (py_len (encode msg)) k) eqn:Hlast.
    + destruct (ack_arrives_last_at msg out rest T0 tm3 k w3 HT0 Ha3 Hlast Hr3)
        as (w4 & S4 & Hw4).
      apply (finishes_with_step _ _ _ _ _ S4).
      apply (next tm3 (T0 + 10 * k + 20) w4); [ lia | exact Hw4 ].
    + destruct (ack_arrives_more_at msg out rest T0 tm3 k w3 Ha3 Hlast Hr3)
        as (w4 & S4 & Hd4).
      apply (finishes_with_step _ _ _ _ _ S4).
      apply (IH (k + 1) tm3 w4); [ | exact Hd4 ].
      unfold last_packet in Hlast.
      destruct (Z.leb_spec (py_len (encode msg) - 4 * k) 4); [ discriminate | lia ].
Qed.

(** From a request that is due, the messages still to be read are
    transferred one after the other, and the empty line ends the run. *)
Lemma messages_finish (msgs : list string) :
  Forall is_message msgs ->
  forall (out : list Output) (tm : bool) (t : Z) (w : World),
    result_out = out ++ transcript msgs ->
    0 <= t ->
    (msgs = [] -> 0 < t) ->
    between_messages out (msgs ++ [""%string]) tm t w ->
    finishes w.
Proof.
  induction 1 as [| msg msgs [Hne Hvalid] Hall IH]; intros out tm t w Hres Ht Hnil Hb.
  - destruct (between_messages_ready out _ tm t w Hb) as (tm1 & w1 & Htm1 & Hb1 & K1).
    apply K1.
    destruct tm1; [ specialize (Htm1 eq_refl); specialize (Hnil eq_refl); lia | ].
    destruct (request_reads_empty_line out t w1 Hb1) as (w2 & S2 & Hq2 & Hout2).
    apply (finishes_with_step _ _ _ _ _ S2).
    unfold finishes. rewrite Hres. unfold transcript. cbn [flat_map app].
    rewrite <- Hout2. apply finishes_with_empty. exact Hq2.
  - destruct (between_messages_ready out _ tm t w Hb) as (tm1 & w1 & Htm1 & Hb1 & K1).
    apply K1. cbn [app] in Hb1.
    destruct (request_reads_message msg out _ tm1 t w1 Hb1 Htm1 Hne)
      as (w2 & S2 & Hs2).
    apply (finishes_with_step _ _ _ _ _ S2).
    apply (session_finishes msg out (msgs ++ [""%string]) t
             (Z.to_nat (py_len (encode msg) - 4 * 0)) Hvalid Ht)
      with (k := 0) (tm := tm1); [ | apply Nat.le_refl | exact Hs2 ].
    intros tm3 t3 w3 Ht3 Hb3.
    apply (IH (out ++ [Prompt; ClientSends msg; ServerReceives msg]) tm3 t3 w3);
      [ | lia | intros _; lia | exact Hb3 ].
    rewrite Hres. unfold transcript. cbn [flat_map].
    rewrite <- !app_assoc. reflexivity.
Qed.

End SeveralMessages.

(** X10.  With [LOST_PACKET_PROBABILITY] at 0 and whatever the random
    source draws, a console that gives one or more messages, each of
    them a non-empty string, and then an empty line makes the simulator
    run until its queue is empty.  By then it has printed, for every
    message in the order of the console, the prompt, the line of the
    client and the line of the server showing the same message, and at
    the end the prompt that read the empty line: every session starts
    from a server buffer that [resetForNextMessage] has emptied and from
    a client that [requestMessage] has set back to [seq = 0] and
    [ack = 0]. *)
Theorem X10_lossless_run_of_messages (coin : nat -> bool) (msgs : list string) :
  msgs <> [] ->
  Forall is_message msgs ->
  exists fuel w,
    TCPSimulator 0%Q coin fuel (msgs ++ [""%string]) = Finished w /\
    stdout w = transcript msgs.
Proof.
  intros Hne Hall.
  assert (Hrun : finishes_with 0%Q coin (initial_world (msgs ++ [""%string]))
                   (transcript msgs)).
  { apply (messages_finish coin (transcript msgs) msgs Hall [] true 0);
      [ reflexivity | lia | intros E; contradiction | ].
    unfold between_messages. rewrite initial_world_eq.
    cbn [client server eventQueue stdin stdout s_msgBytes TCPServer_init].
    split; [ now left | ]. repeat (split; [ reflexivity | ]).
    reflexivity. }
  destruct Hrun as (fuel & w & Hrun & Hout).
  exists fuel, w. auto.
Qed.

Lemma X10_lossless_run_of_messages_witness :
  ["HELLO"%string; "AB"%string] <> [] /\
  Forall is_message ["HELLO"%string; "AB"%string] /\
  exists fuel w,
    TCPSimulator 0%Q always_one fuel (["HELLO"%string; "AB"%string] ++ [""%string])
      = Finished w /\
    stdout w = transcript ["HELLO"%string; "AB"%string].
Proof.
  assert (Hall : Forall is_message ["HELLO"%string; "AB"%string]).
  { repeat constructor; discriminate. }
  split; [ discriminate | ]. split; [ exact Hall | ].
  apply (X10_lossless_run_of_messages always_one ["HELLO"%string; "AB"%string]);
    [ discriminate | exact Hall ].
Defined.

(** ** The queue at a call of [sendNextPacket] *)

(** No dispatch schedules a [TimeoutEvent] on a packet. *)
Lemma event_loop_no_packet_timeout (lpp : Q) (coin : nat -> bool) (fuel : nat) :
  forall w,
    Forall no_packet_timeout (eventQueue w) ->
    Forall no_packet_timeout
           (eventQueue (outcome_world (event_loop lpp coin fuel w))).
Proof.
  induction fuel as [| fuel IH]; intros w Hinv; cbn [event_loop].
  - destruct (isEmpty (eventQueue w)); exact Hinv.
  - destruct (eventQueue w) as [| [e t] q] eqn:Hq; cbn [isEmpty].
    + cbn [outcome_world]. rewrite Hq. constructor.
    + unfold loop_body, bind, dequeue_event. rewrite Hq.
      cbn [dequeueWithPriority fst snd].
      inversion Hinv as [| x l _ Hrest]; subst.
      destruct (dispatch_enqueues lpp coin e t (with_eventQueue q w))
        as (evs & Hevs & Hsched).
      cbn [with_eventQueue eventQueue] in Hevs.
      assert (Hnew : Forall no_packet_timeout
                (eventQueue (final_world
                   (dispatch lpp coin e t (with_eventQueue q w))))).
      { rewrite Hevs. apply Forall_enqueue_all. split; [ | exact Hrest ].
        destruct Hsched as [-> | [(h & p & ->) | (p & ->)]];
          repeat constructor. }
      destruct (dispatch lpp coin e t (with_eventQueue q w)) as [u w' | err w'];
        cbn [final_world outcome_world] in Hnew |- *.
      * apply IH. exact Hnew.
      * exact Hnew.
Qed.

Lemma packet_events_no_packet_timeout (q : PriorityQueue) :
  Forall no_packet_timeout q -> packet_events q = packets_in_transit q.
Proof.
  unfold packet_events, packets_in_transit.
  induction 1 as [| x q Hx _ IH]; cbn [filter]; [ reflexivity | ].
  rewrite Hx. destruct (is_ReceivePacketEvent x); cbn [List.length]; lia.
Qed.

(** In every run, whenever the event at the head of the queue is one
    whose dispatch calls [sendNextPacket], a request for a message or a
    packet for the client, no event behind it refers to a packet. *)
Lemma send_finds_no_packet_events (lpp : Q) (coin : nat -> bool)
    (lines : list string) (fuel : nat) (e : TCPEvent) (t : Z)
    (q : PriorityQueue) :
  eventQueue (outcome_world (TCPSimulator lpp coin fuel lines)) = (e, t) :: q ->
  e = RequestMessageEvent \/ (exists r, e = ReceivePacketEvent Client r) ->
  packet_events q = O.
Proof.
  intros Hq He. unfold TCPSimulator in Hq.
  destruct (initial_world_progressing lines) as [[Hsw _] _].
  pose proof (event_loop_stop_and_wait lpp coin fuel _ Hsw) as Hinv.
  assert (Hnt : Forall no_packet_timeout (eventQueue (initial_world lines))).
  { rewrite initial_world_eq. cbn [eventQueue]. repeat constructor. }
  apply (event_loop_no_packet_timeout lpp coin fuel) in Hnt.
  unfold stop_and_wait in Hinv. rewrite Hq in Hinv, Hnt.
  inversion Hnt as [| x l _ Hrest]; subst.
  rewrite (packet_events_no_packet_timeout q Hrest).
  destruct He as [-> | (r & ->)].
  - apply (request_first_no_packets _ _ _ Hinv).
  - destruct Hinv as (_ & Hone & _).
    rewrite packets_in_transit_cons in Hone. cbn in Hone. lia.
Qed.
